(** * Netflix Data Explorer: a model of [dashboard.py]

    The dashboard is a Streamlit script: it runs SQL queries through
    [run_query], aggregates the resulting data frames with pandas and emits
    widgets (headers, banners, charts).  This development embeds

    - the Python layer: outcomes ([Ok] / [Raise]), the stream of emitted
      widgets, and [try ... except];
    - the pandas operations the script calls ([dropna], [value_counts],
      [sort_index], [tail], [nlargest], [merge], [fillna], [sort_values]),
      following the pandas documentation;
    - the PostgreSQL side of the three parameterised or plain queries
      ([SELECT ... FROM t], [WHERE year_added = %s GROUP BY type],
      [WHERE title ILIKE %s]), following the PostgreSQL documentation;
    - the script itself: [run_query], the Home confirmation handler, the
      Analytics view and the Search view.

    Text is modelled as byte strings that hold UTF-8.  Integer columns are
    [Z]; a nullable column is an [option]; pandas holds an integer column
    in which a value is missing as float64, which [to_float64] accounts
    for.  What the libraries around the script decide and the repository
    does not fix is gathered in [platform]: the case tables of Python and
    of the database, the order in which the database returns the groups of
    a [GROUP BY] without [ORDER BY], and the text of the exception of a
    statement that fails.  The ten-minute memoisation of [run_query] is
    not modelled: every call is the call that reaches the database. *)

From Stdlib Require Import List ZArith String Ascii Bool Arith Lia.
From Stdlib Require Import Sorted Permutation DecimalString.
Import ListNotations.

Set Implicit Arguments.

Local Open Scope string_scope.
Local Open Scope nat_scope.
Local Open Scope list_scope.

(* ================================================================== *)
(** * Python layer *)
(* ================================================================== *)

(** Outcome of evaluating a Python expression: a value, or a raised
    exception (carried as its message, what [f"{e}"] prints). *)
Inductive result (A : Type) : Type :=
| Ok (a : A)
| Raise (e : string).

Arguments Ok {A} a.
Arguments Raise {A} e.

(** ** Rows of the external schema *)

Record show : Type := {
  show_id : Z;
  type : option string;
  title : option string;
  director_id : option Z;
  release_year : option Z;
  rating : option string;
  duration : option string;
  month_added : option Z;
  year_added : option Z;
  description : option string
}.

Record director : Type := {
  d_director_id : Z;
  director_name : option string
}.

Record show_cast_member : Type := {
  sc_show_id : Z;
  sc_cast_member_id : option Z
}.

Record cast_member : Type := {
  cast_member_id : Z;
  cast_member_name : option string
}.

Record show_country : Type := {
  sk_show_id : Z;
  sk_country_id : option Z
}.

Record country : Type := {
  country_id : Z;
  country_name : option string
}.

Record show_genre : Type := {
  sg_show_id : Z;
  sg_genre_id : option Z
}.

Record genre : Type := {
  genre_id : Z;
  genre_name : option string
}.

(** Row of the Home view's grouped count: [SELECT type, COUNT( * ) as count]. *)
Record type_count : Type := {
  tc_type : option string;
  tc_count : nat
}.

(** ** Data frames *)

(** A pandas [DataFrame]: the column labels and the rows.  Rows are kept as
    typed records; [columns] is what [df.columns] holds. *)
Record DataFrame (R : Type) : Type := {
  columns : list string;
  rows : list R
}.

(** [pd.DataFrame()]: no column, no row. *)
Definition pd_DataFrame {R : Type} : DataFrame R :=
  {| columns := []; rows := [] |}.

(** [df.empty]: true when any axis has length zero. *)
Definition empty {R : Type} (df : DataFrame R) : bool :=
  match columns df, rows df with
  | [], _ => true
  | _, [] => true
  | _ :: _, _ :: _ => false
  end.

(** ['c' in df.columns] *)
Definition in_columns {R : Type} (c : string) (df : DataFrame R) : bool :=
  existsb (String.eqb c) (columns df).

(** ** Widgets *)

(** A chart category: a text label or an integer (the release year). *)
Inductive label : Type :=
| LStr (s : string)
| LInt (z : Z).

(** What one [st.*] call puts on the page. *)
Inductive widget : Type :=
| st_header (s : string)
| st_subheader (s : string)
| st_markdown (s : string)
| st_info (s : string)
| st_warning (s : string)
| st_error (s : string)
| st_success (s : string)
| px_pie (chart_title : string) (data : list (label * nat))
| px_bar (chart_title : string) (data : list (label * nat))
| st_dataframe (cols : list string) (data : list show).

(** ** Script monad: the widgets emitted so far and the outcome *)

Definition py (A : Type) : Type := (list widget * result A)%type.

Definition ret {A : Type} (a : A) : py A := ([], Ok a).

Definition bind {A B : Type} (m : py A) (f : A -> py B) : py B :=
  match m with
  | (w, Ok a) => let (w', r) := f a in (w ++ w', r)
  | (w, Raise e) => (w, Raise e)
  end.

Definition emit (w : widget) : py unit := ([w], Ok tt).

(** Evaluation of a library call that emits nothing. *)
Definition lift {A : Type} (r : result A) : py A := ([], r).

(** [try: m except Exception as e: h e] *)
Definition try_except {A : Type} (m : py A) (h : string -> py A) : py A :=
  match m with
  | (w, Ok a) => (w, Ok a)
  | (w, Raise e) => let (w', r) := h e in (w ++ w', r)
  end.

Declare Scope py_scope.
Delimit Scope py_scope with py.
Notation "x <- m ;; k" := (bind m (fun x => k))
  (at level 61, m at next level, right associativity) : py_scope.
Notation "m ;;; k" := (bind m (fun _ => k))
  (at level 61, right associativity) : py_scope.

Definition widgets {A : Type} (m : py A) : list widget := fst m.
Definition outcome {A : Type} (m : py A) : result A := snd m.

(** ** [run_query] *)

(** A positional query parameter. *)
Inductive param : Type :=
| PInt (z : Z)
| PStr (s : string).

(** The connection as [pd.read_sql_query] sees it: SQL text and parameters
    in, a data frame or an exception out. *)
Definition sql_engine (R : Type) : Type :=
  string -> option (list param) -> result (DataFrame R).

Definition run_query {R : Type} (_conn : sql_engine R) (query : string)
    (params : option (list param)) : py (DataFrame R) :=
  try_except
    (lift (_conn query params))
    (fun e =>
       (emit (st_error ("Error al ejecutar la consulta: " ++ query)) ;;;
        emit (st_error ("Detalles del error: " ++ e)) ;;;
        ret pd_DataFrame)%py).

(** ** What the libraries decide *)

(** - [str_lower] is Python's [str.lower], which follows the Unicode case
      tables of the interpreter;
    - [pg_lower] is the database's [lower()] under its collation, which
      [ILIKE] applies to both of its operands;
    - [group_order] is the order in which the executor emits the groups
      of the grouped count, a statement without [ORDER BY];
    - [error_text query cause] is the text of the exception that
      [pd.read_sql_query] raises for the statement [query] when it fails
      for [cause]: each failing statement has its own. *)
Record platform : Type := {
  str_lower : string -> string;
  pg_lower : string -> string;
  group_order : list type_count -> list type_count;
  error_text : string -> string -> string
}.

(* ================================================================== *)
(** * pandas *)
(* ================================================================== *)

Definition notna {B : Type} (v : option B) : bool :=
  match v with Some _ => true | None => false end.

(** Some entry of the column is null. *)
Definition has_null {R B : Type} (col : R -> option B) (rows : list R)
    : bool :=
  existsb (fun r => negb (notna (col r))) rows.

(** The column has entries and all of them are null: [read_sql_query]
    then leaves it with dtype object. *)
Definition all_null {R B : Type} (col : R -> option B) (rows : list R)
    : bool :=
  match rows with
  | [] => false
  | _ :: _ => forallb (fun r => negb (notna (col r))) rows
  end.

(** ** Integer columns that hold a null *)

(** [read_sql_query] builds an integer column without null as int64 and
    one with both integers and nulls as float64, the nulls being NaN.
    [to_float64 z] is the integer a float64 holds once [z] is stored in
    it: [z] itself up to 2^53 in absolute value; beyond, [z] rounded to 53
    significant bits, to the nearest and on a tie to the even mantissa.
    (Overflow to infinity starts at 2^1024, far beyond a bigint.) *)
Definition to_float64 (z : Z) : Z :=
  let a := Z.abs z in
  if (a <=? 2 ^ 53)%Z then z
  else
    let e := (Z.log2 a - 52)%Z in
    let q := Z.shiftr a e in
    let r := (a - Z.shiftl q e)%Z in
    let half := Z.shiftl 1 (e - 1) in
    let q' := if (r <? half)%Z then q
              else if (half <? r)%Z then (q + 1)%Z
              else if Z.even q then q else (q + 1)%Z in
    (Z.sgn z * Z.shiftl q' e)%Z.

(** An integer that a float64 holds as it is. *)
Definition exact_float64 (z : Z) : Prop := (Z.abs z <= 2 ^ 53)%Z.

(** The entry [v] of the integer column [col] as the frame read from the
    rows [rs] holds it. *)
Definition held {R : Type} (col : R -> option Z) (rs : list R)
    (v : option Z) : option Z :=
  if has_null col rs then option_map to_float64 v else v.

(** [s.astype(int)] on one entry of a column without null: the held value
    is an integer or an integer-valued float, and the conversion keeps it
    (below 2^63 in absolute value, the range of the target type). *)
Definition astype_int (v : Z) : Z := v.

(** [df.dropna(subset=[col])]: the rows whose [col] is not null. *)
Definition dropna {R B : Type} (col : R -> option B) (df : DataFrame R)
    : DataFrame R :=
  {| columns := columns df;
     rows := filter (fun r => notna (col r)) (rows df) |}.

(** [s.tail(n)]: the last [n] entries. *)
Definition tail {B : Type} (n : nat) (s : list B) : list B :=
  skipn (List.length s - n) s.

Section Sorting.
Variable B : Type.
(** [leb x y]: [x] may stand before [y]. *)
Variable leb : B -> B -> bool.

Fixpoint insert_sorted (x : B) (l : list B) : list B :=
  match l with
  | [] => [x]
  | y :: t => if leb x y then x :: y :: t else y :: insert_sorted x t
  end.

(** Stable insertion sort.  pandas sorts with an unstable algorithm by
    default; where this model is used either the keys are distinct or
    only the order of the keys is relied on, never the order of ties. *)
Definition sort_by (l : list B) : list B :=
  fold_right insert_sorted [] l.
End Sorting.

Section Series.
Variable A : Type.
Variable eq_dec : forall x y : A, {x = y} + {x <> y}.

Definition option_dec (x y : option A) : {x = y} + {x <> y}.
Proof. decide equality. Defined.

(** The non-null values of a column, in row order. *)
Fixpoint values (s : list (option A)) : list A :=
  match s with
  | [] => []
  | Some a :: t => a :: values t
  | None :: t => values t
  end.

(** The distinct values in order of first appearance. *)
Fixpoint unique (l : list A) : list A :=
  match l with
  | [] => []
  | x :: t => x :: remove eq_dec x (unique t)
  end.

Definition count_desc (x y : A * nat) : bool := snd y <=? snd x.

(** One row per distinct value, with its number of occurrences. *)
Definition grouped (vals : list A) : list (A * nat) :=
  map (fun k => (k, count_occ eq_dec vals k)) (unique vals).

(** [s.value_counts()]: nulls dropped ([dropna=True] is the default), one
    entry per distinct value with its number of occurrences, sorted by
    count, largest first. *)
Definition value_counts (s : list (option A)) : list (A * nat) :=
  sort_by count_desc (grouped (values s)).

(** [s.nlargest(n)]: the [n] largest entries, largest first
    ([keep='first']). *)
Definition nlargest (n : nat) (s : list (A * nat)) : list (A * nat) :=
  firstn n (sort_by count_desc s).
End Series.

(** [s.sort_index()] on a series indexed by integers: ascending index. *)
Definition index_asc (x y : Z * nat) : bool := (fst x <=? fst y)%Z.

Definition sort_index (s : list (Z * nat)) : list (Z * nat) :=
  sort_by index_asc s.

Section Merge.
Variables L R : Type.
Variable key_l : L -> option Z.
Variable key_r : R -> Z.

(** Equality of a left key and a right key.  When the left column holds a
    null its keys are floats, and pandas compares both sides as float64;
    otherwise both sides are int64. *)
Definition key_eqb (float_keys : bool) (k k' : Z) : bool :=
  if float_keys then (to_float64 k =? to_float64 k')%Z else (k =? k')%Z.

Definition key_matches (float_keys : bool) (l : L) (r : R) : bool :=
  match key_l l with
  | Some k => key_eqb float_keys k (key_r r)
  | None => false
  end.

(** The joined rows for a given representation of the left keys. *)
Definition join_rows (float_keys : bool) (left : list L) (right : list R)
    : list (L * R) :=
  flat_map (fun l => map (pair l) (filter (key_matches float_keys l) right))
           left.

(** [pd.merge(left, right, on=key, how='inner')], once the key columns
    have passed [merge_key_check]: every pair of a left row and a right
    row with equal keys, in the order of the left rows; left rows without
    a partner are dropped.  The right key is a primary key of its table
    and is never null. *)
Definition merge_inner (left : list L) (right : list R) : list (L * R) :=
  join_rows (has_null key_l left) left right.
End Merge.

(** [pd.merge] validates the dtypes of the key columns before it joins.
    A left key column with rows and no value has dtype object, which
    pandas refuses to merge with the integer key of the right frame: it
    raises [ValueError].  A float64 or int64 left column passes. *)
Definition merge_key_check {L : Type} (key : string) (key_l : L -> option Z)
    (left : list L) : result unit :=
  if all_null key_l left then
    Raise ("You are trying to merge on object and int64 columns for key '"
           ++ key ++ "'. If you wish to proceed you should use pd.concat")
  else Ok tt.



(** [pd.merge(left, right, on=name, how='left')] of a one-column frame of
    names with a frame of [(name, count)]: every left row is kept; it is
    repeated once per partner, and gets a null count when it has none. *)
Definition merge_left (left : list string) (right : list (string * nat))
    : list (string * option nat) :=
  flat_map
    (fun k =>
       match filter (fun kv => String.eqb k (fst kv)) right with
       | [] => [(k, None)]
       | ms => map (fun kv => (k, Some (snd kv))) ms
       end)
    left.

(** [.fillna(0)] *)
Definition fillna0 (df : list (string * option nat)) : list (string * nat) :=
  map (fun kv => (fst kv, match snd kv with Some c => c | None => 0 end)) df.

(** Python dict lookup as [Series.map(dict)] does it: null when absent. *)
Fixpoint dict_get {K V : Type} (eqb : K -> K -> bool) (d : list (K * V))
    (k : K) : option V :=
  match d with
  | [] => None
  | (k', v) :: t => if eqb k k' then Some v else dict_get eqb t k
  end.

(** [enumerate(l)] turned into [{x: i for i, x in enumerate(l)}]. *)
Fixpoint enumerate_from {V : Type} (i : nat) (l : list V) : list (V * nat) :=
  match l with
  | [] => []
  | v :: t => (v, i) :: enumerate_from (S i) t
  end.

(** Order on a nullable sort key, nulls last ([na_position='last']). *)
Definition order_asc (x y : (string * nat) * option nat) : bool :=
  match snd x, snd y with
  | Some a, Some b => a <=? b
  | Some _, None => true
  | None, Some _ => false
  | None, None => true
  end.

(** Lower-casing of the ASCII letters, every other byte kept: what
    [str.lower()] and the database's [lower()] do to ASCII text (Turkish
    collations apart).  It is the case table of [ascii_platform]. *)
Definition lower_ascii (c : ascii) : ascii :=
  let n := nat_of_ascii c in
  if (65 <=? n) && (n <=? 90) then ascii_of_nat (n + 32) else c.

Fixpoint lower (s : string) : string :=
  match s with
  | EmptyString => EmptyString
  | String c t => String (lower_ascii c) (lower t)
  end.

(** Decimal rendering of integers inside f-strings. *)
Definition str_nat (n : nat) : string :=
  NilZero.string_of_uint (Nat.to_uint n).

Definition str_Z (z : Z) : string :=
  NilZero.string_of_int (Z.to_int z).

Definition newline : string := String (ascii_of_nat 10) EmptyString.


(* ================================================================== *)
(** * PostgreSQL *)
(* ================================================================== *)

(** The database as the dashboard reads it: for each table its rows, or
    the cause for which the statements on it fail (relation missing,
    connection lost, ...).  The typed rows carry every column of their
    table; the frame of a statement has the columns the statement
    selects, listed in [columns]. *)
Record database : Type := {
  shows : result (list show);
  directors : result (list director);
  show_cast_members : result (list show_cast_member);
  cast_members : result (list cast_member);
  show_countries : result (list show_country);
  countries : result (list country);
  show_genres : result (list show_genre);
  genres : result (list genre)
}.

(** [SELECT c1, ..., cn FROM t;] as [read_sql_query] returns it; [read]
    turns the rows of the table into the rows the frame holds. *)
Definition pg_select {R : Type} (pf : platform) (read : list R -> list R)
    (cols : list string) (t : result (list R)) : sql_engine R :=
  fun query _ =>
    match t with
    | Ok rs => Ok {| columns := cols; rows := read rs |}
    | Raise e => Raise (error_text pf query e)
    end.

(** The frames of the statements of the Analytics view: of [shows] the
    integer columns [director_id], [release_year] and [month_added] can
    hold nulls; of a bridge table, the id of the dimension. *)
Definition read_shows (rs : list show) : list show :=
  map (fun r =>
         {| show_id := show_id r; type := type r; title := title r;
            director_id := held director_id rs (director_id r);
            release_year := held release_year rs (release_year r);
            rating := rating r; duration := duration r;
            month_added := held month_added rs (month_added r);
            year_added := year_added r; description := description r |})
      rs.

Definition read_show_cast (rs : list show_cast_member)
    : list show_cast_member :=
  map (fun r =>
         {| sc_show_id := sc_show_id r;
            sc_cast_member_id :=
              held sc_cast_member_id rs (sc_cast_member_id r) |})
      rs.

Definition read_show_countries (rs : list show_country)
    : list show_country :=
  map (fun r =>
         {| sk_show_id := sk_show_id r;
            sk_country_id := held sk_country_id rs (sk_country_id r) |})
      rs.

Definition read_show_genres (rs : list show_genre) : list show_genre :=
  map (fun r =>
         {| sg_show_id := sg_show_id r;
            sg_genre_id := held sg_genre_id rs (sg_genre_id r) |})
      rs.

(** A table without nullable integer column is read as it is. *)
Definition read_as_is {R : Type} (rs : list R) : list R := rs.

(** The rows of the Search view's statement: [release_year] is its one
    nullable integer column. *)
Definition read_search (rs : list show) : list show :=
  map (fun r =>
         {| show_id := show_id r; type := type r; title := title r;
            director_id := director_id r;
            release_year := held release_year rs (release_year r);
            rating := rating r; duration := duration r;
            month_added := month_added r;
            year_added := year_added r; description := description r |})
      rs.

Definition option_string_dec : forall x y : option string, {x = y} + {x <> y} :=
  option_dec string_dec.

Definition option_Z_dec : forall x y : option Z, {x = y} + {x <> y} :=
  option_dec Z.eq_dec.

(** [WHERE year_added = %s]: a null year satisfies no comparison. *)
Definition added_in (y : Z) (r : show) : bool :=
  match year_added r with
  | Some v => (v =? y)%Z
  | None => false
  end.

(** The groups of [SELECT type, COUNT( * ) as count FROM shows WHERE
    year_added = %s GROUP BY type;]: one per distinct type among the rows
    of the year, null types forming one group, each with its number of
    rows.  They are listed here in order of first appearance; the order
    in which the database returns them is [group_order]. *)
Definition count_by_type (rs : list show) (y : Z) : list type_count :=
  let sel := map type (filter (added_in y) rs) in
  map (fun k => {| tc_type := k;
                   tc_count := count_occ option_string_dec sel k |})
      (unique option_string_dec sel).

Definition pg_count_by_type (pf : platform) (t : result (list show))
    : sql_engine type_count :=
  fun query params =>
    match t, params with
    | Raise e, _ => Raise (error_text pf query e)
    | Ok rs, Some [PInt y] =>
        Ok {| columns := ["type"; "count"];
              rows := group_order pf (count_by_type rs y) |}
    | Ok _, _ =>
        Raise (error_text pf query "the query takes one integer parameter")
    end.

(** [SELECT MIN(c) FROM t WHERE c IS NOT NULL;] and its [MAX] twin: always
    one row, null over no row. *)
Definition min_list (l : list Z) : option Z :=
  match l with
  | [] => None
  | x :: t => Some (fold_left Z.min t x)
  end.

Definition max_list (l : list Z) : option Z :=
  match l with
  | [] => None
  | x :: t => Some (fold_left Z.max t x)
  end.

Definition pg_aggregate (pf : platform) (agg : list Z -> option Z)
    (name : string) (t : result (list show)) : sql_engine (option Z) :=
  fun query _ =>
    match t with
    | Ok rs => Ok {| columns := [name];
                     rows := [agg (values (map year_added rs))] |}
    | Raise e => Raise (error_text pf query e)
    end.

(** ** [LIKE] patterns *)

(** A character of UTF-8 text: a byte together with the continuation
    bytes (10xxxxxx) that follow it.  This is how the matcher of a UTF-8
    database steps from one character to the next. *)
Definition utf8_char : Type := list ascii.

Definition continuation (b : ascii) : bool :=
  let n := nat_of_ascii b in (128 <=? n) && (n <? 192).

(** The text does not begin inside a character. *)
Definition starts_char (s : list ascii) : bool :=
  match s with
  | [] => true
  | b :: _ => negb (continuation b)
  end.

Fixpoint utf8_chars (s : list ascii) : list utf8_char :=
  match s with
  | [] => []
  | b :: t =>
      if starts_char t then [b] :: utf8_chars t
      else match utf8_chars t with
           | g :: gs => (b :: g) :: gs
           | [] => [[b]]
           end
  end.

Definition chars (s : string) : list utf8_char :=
  utf8_chars (list_ascii_of_string s).

Definition char_eqb (a b : utf8_char) : bool :=
  if list_eq_dec ascii_dec a b then true else false.

Definition percent : utf8_char := ["%"%char].
Definition underscore : utf8_char := ["_"%char].
Definition backslash : utf8_char := ["\"%char].

(** [like p s]: the text [s] matches the pattern [p] in full.  [%] stands
    for any run of characters, [_] for any one character, and a backslash
    makes the next pattern character literal.  PostgreSQL rejects a
    pattern that ends in a lone backslash when the matcher reaches it; a
    pattern whose last character is [%] never ends that way. *)
Fixpoint like (p s : list utf8_char) {struct p} : bool :=
  match p with
  | [] => match s with [] => true | _ :: _ => false end
  | c :: p' =>
      if char_eqb c percent then
        (fix any_run (s : list utf8_char) : bool :=
           like p' s || match s with [] => false | _ :: s' => any_run s' end) s
      else if char_eqb c underscore then
        match s with [] => false | _ :: s' => like p' s' end
      else if char_eqb c backslash then
        match p' with
        | [] => false
        | e :: p'' =>
            match s with
            | [] => false
            | x :: s' => char_eqb e x && like p'' s'
            end
        end
      else
        match s with
        | [] => false
        | x :: s' => char_eqb c x && like p' s'
        end
  end.

(** [s ILIKE p] in a UTF-8 database: both operands are lower-cased with
    the database's [lower()], then matched as [LIKE] does. *)
Definition ilike (pf : platform) (s p : string) : bool :=
  like (chars (pg_lower pf p)) (chars (pg_lower pf s)).

(** [WHERE title ILIKE %s]: a null title matches nothing. *)
Definition title_ilike (pf : platform) (pattern : string) (r : show)
    : bool :=
  match title r with
  | Some t => ilike pf t pattern
  | None => false
  end.

(** The text holds no NUL byte.  The driver refuses to bind a text
    parameter that holds one. *)
Definition nul_free (s : string) : bool :=
  forallb (fun b => negb (Ascii.eqb b zero)) (list_ascii_of_string s).

(** [SELECT show_id, type, title, release_year, rating, description FROM
    shows WHERE title ILIKE %s;] with one text parameter. *)
Definition pg_search (pf : platform) (t : result (list show))
    : sql_engine show :=
  fun query params =>
    match t, params with
    | Raise e, _ => Raise (error_text pf query e)
    | Ok rs, Some [PStr pattern] =>
        if nul_free pattern then
          Ok {| columns := ["show_id"; "type"; "title"; "release_year";
                            "rating"; "description"];
                rows := read_search (filter (title_ilike pf pattern) rs) |}
        else
          Raise (error_text pf query
                   "A string literal cannot contain NUL (0x00) characters.")
    | Ok _, _ =>
        Raise (error_text pf query "the query takes one text parameter")
    end.

(** ** Containment, as the Search view promises it *)

Fixpoint prefix_of (t s : list utf8_char) : bool :=
  match t, s with
  | [], _ => true
  | _ :: _, [] => false
  | a :: t', b :: s' => char_eqb a b && prefix_of t' s'
  end.

Fixpoint substring_of (t s : list utf8_char) : bool :=
  prefix_of t s ||
  match s with
  | [] => false
  | _ :: s' => substring_of t s'
  end.

(** The title contains the term, letter case ignored: once both are
    lower-cased as the database does it, the characters of the term are
    consecutive characters of the title. *)
Definition contains_ci (pf : platform) (term : string) (r : show) : bool :=
  match title r with
  | Some t => substring_of (chars (pg_lower pf term)) (chars (pg_lower pf t))
  | None => false
  end.

(** The characters a [LIKE] pattern reads as instructions. *)
Definition like_meta (c : utf8_char) : bool :=
  char_eqb c percent || char_eqb c underscore || char_eqb c backslash.

(** A term the pattern reads letter by letter: it can be bound as a
    parameter (no NUL byte) and, lower-cased by the database, it is text
    that starts a character and holds no pattern character. *)
Definition plain_term (pf : platform) (term : string) : bool :=
  nul_free term
  && starts_char (list_ascii_of_string (pg_lower pf term))
  && forallb (fun c => negb (like_meta c)) (chars (pg_lower pf term)).

(** ** A platform for examples *)

(** ASCII case tables, groups in order of first appearance, and the
    message pandas builds for a statement that fails in the driver. *)
Definition ascii_platform : platform :=
  {| str_lower := lower;
     pg_lower := lower;
     group_order := fun groups => groups;
     error_text := fun query cause =>
       ("Execution failed on sql '" ++ query ++ "': " ++ cause)%string |}.


(* ================================================================== *)
(** * The dashboard *)
(* ================================================================== *)

(** ** Home view: shows added in a year *)

Definition min_year_query : string :=
  "SELECT MIN(year_added) FROM shows WHERE year_added IS NOT NULL;".
Definition max_year_query : string :=
  "SELECT MAX(year_added) FROM shows WHERE year_added IS NOT NULL;".

(** [int(df.iloc[0,0]) if not df.empty and pd.notna(df.iloc[0,0]) else d] *)
Definition scalar_or (df : DataFrame (option Z)) (d : Z) : Z :=
  if negb (empty df) then
    match rows df with
    | Some v :: _ => v
    | _ => d
    end
  else d.

(** The bounds of the year selector. *)
Definition min_val (pf : platform) (db : database) : py Z :=
  (df_min_year <- run_query (pg_aggregate pf min_list "min" (shows db))
                            min_year_query None ;;
   ret (scalar_or df_min_year 1900%Z))%py.

Definition max_val (pf : platform) (db : database) (current_year : Z)
    : py Z :=
  (df_max_year <- run_query (pg_aggregate pf max_list "max" (shows db))
                            max_year_query None ;;
   ret (scalar_or df_max_year current_year))%py.

Definition query_year_added : string := "
                SELECT type, COUNT(*) as count
                FROM shows
                WHERE year_added = %s
                GROUP BY type;
            ".

(** The label of a summary line; a null type prints as Python's [None]. *)
Definition tipo (t : option string) : string :=
  match t with
  | Some s =>
      if String.eqb s "Movie" then "Películas"
      else if String.eqb s "TV Show" then "Series de TV"
      else s
  | None => "None"
  end.

Definition summary_line (row : type_count) : string :=
  "- " ++ str_nat (tc_count row) ++ " " ++ tipo (tc_type row) ++ newline.

(** What pressing the button renders for the year held by the selector. *)
Definition home_confirm (pf : platform) (db : database) (year_input : Z)
    : py unit :=
  (if negb (year_input =? 0)%Z then
     df_year_results <- run_query (pg_count_by_type pf (shows db))
                                  query_year_added
                                  (Some [PInt year_input]) ;;
     if negb (empty df_year_results) then
       let message :=
         fold_left (fun message row => (message ++ summary_line row)%string)
                   (rows df_year_results)
                   ("En el año " ++ str_Z year_input ++ " se añadieron:"
                    ++ newline)%string in
       emit (st_success message)
     else
       emit (st_info ("No se encontraron títulos añadidos en el año "
                      ++ str_Z year_input ++ "."))
   else
     emit (st_warning "Por favor, ingresa un año válido."))%py.

(** ** Analytics view *)

Definition query_shows : string :=
  "SELECT show_id, type, title, director_id, release_year, rating, duration, month_added FROM shows;".
Definition query_directors : string :=
  "SELECT director_id, director_name FROM directors;".
Definition query_show_cast : string :=
  "SELECT show_id, cast_member_id FROM show_cast_members;".
Definition query_cast_members : string :=
  "SELECT cast_member_id, cast_member_name FROM cast_members;".
Definition query_show_countries : string :=
  "SELECT show_id, country_id FROM show_countries;".
Definition query_countries : string :=
  "SELECT country_id, country_name FROM countries;".
Definition query_show_genres : string :=
  "SELECT show_id, genre_id FROM show_genres;".
Definition query_genres : string :=
  "SELECT genre_id, genre_name FROM genres;".

Definition text_chart (counts : list (string * nat)) : list (label * nat) :=
  map (fun kv => (LStr (fst kv), snd kv)) counts.

Definition year_chart (counts : list (Z * nat)) : list (label * nat) :=
  map (fun kv => (LInt (fst kv), snd kv)) counts.

(** 1. [df_shows['type'].value_counts()] *)
Definition type_counts (df_shows : list show) : list (string * nat) :=
  value_counts string_dec (map type df_shows).

Definition type_section (df_shows : DataFrame show) : py unit :=
  (emit (st_subheader "Distribución por Tipo (Película / Serie de TV)") ;;;
   emit (px_pie "Películas vs. Series de TV"
                (text_chart (type_counts (rows df_shows)))))%py.

(** 2. Releases by year.  [df['release_year'] = df['release_year']
    .astype(int)] rewrites the column of the rows left by [dropna]. *)
Definition astype_int_release_year (df_shows_release : list show)
    : list show :=
  map (fun r =>
         {| show_id := show_id r; type := type r; title := title r;
            director_id := director_id r;
            release_year := option_map astype_int (release_year r);
            rating := rating r; duration := duration r;
            month_added := month_added r;
            year_added := year_added r; description := description r |})
      df_shows_release.

Definition release_year_counts (df_shows_release : list show)
    : list (Z * nat) :=
  sort_index
    (value_counts Z.eq_dec
       (map release_year (astype_int_release_year df_shows_release))).

Definition latest_years_count (df_shows_release : list show)
    : list (Z * nat) :=
  tail 30 (release_year_counts df_shows_release).

Definition release_section (df_shows : DataFrame show) : py unit :=
  (emit (st_subheader "Número de Shows por Año de Lanzamiento") ;;;
   let df_shows_release := dropna release_year df_shows in
   if negb (empty df_shows_release) then
     emit (px_bar "Shows por Año de Lanzamiento (Últimos años)"
                  (year_chart (latest_years_count (rows df_shows_release))))
   else
     emit (st_warning "No hay datos de 'release_year' para mostrar el gráfico."))%py.

(** 3. Ratings *)
Definition rating_counts (df_ratings : list show) : list (string * nat) :=
  nlargest 10 (value_counts string_dec (map rating df_ratings)).

Definition rating_section (df_shows : DataFrame show) : py unit :=
  (emit (st_subheader "Distribución de Ratings") ;;;
   if in_columns "rating" df_shows then
     let df_ratings := dropna rating df_shows in
     if negb (empty df_ratings) then
       emit (px_bar "Top 10 Ratings más comunes"
                    (text_chart (rating_counts (rows df_ratings))))
     else
       emit (st_warning "No hay datos de 'rating' para mostrar el gráfico.")
   else
     emit (st_warning "La columna 'rating' no se encontró en la tabla 'shows'."))%py.

(** 4. Month added *)
Definition month_map : list (Z * string) :=
  [(1, "Ene"); (2, "Feb"); (3, "Mar"); (4, "Abr"); (5, "May"); (6, "Jun");
   (7, "Jul"); (8, "Ago"); (9, "Sep"); (10, "Oct"); (11, "Nov");
   (12, "Dic")]%Z.

(** [df['month_added'].astype(int).map(month_map)] on one row. *)
Definition month_added_name (r : show) : option string :=
  match month_added r with
  | Some m => dict_get Z.eqb month_map m
  | None => None
  end.

Definition month_added_counts (df_shows_month : list show)
    : list (string * nat) :=
  let counts := value_counts string_dec
                  (map month_added_name df_shows_month) in
  let all_months_df := map snd month_map in
  let merged := fillna0 (merge_left all_months_df counts) in
  let month_order_map := enumerate_from 0 (map snd month_map) in
  let with_order :=
    map (fun row => (row, dict_get String.eqb month_order_map (fst row)))
        merged in
  map fst (sort_by order_asc with_order).

Definition month_section (df_shows : DataFrame show) : py unit :=
  (emit (st_subheader "Shows añadidos por Mes") ;;;
   if in_columns "month_added" df_shows then
     let df_shows_month := dropna month_added df_shows in
     if negb (empty df_shows_month) then
       emit (px_bar "Número de Shows añadidos por Mes"
                    (text_chart (month_added_counts (rows df_shows_month))))
     else
       emit (st_warning "No hay datos de 'month_added' para mostrar el gráfico.")
   else
     emit (st_warning "La columna 'month_added' no se encontró en la tabla 'shows'."))%py.

(** 5. Directors *)
Definition df_shows_with_directors (df_shows : list show)
    (df_directors : list director) : list (show * director) :=
  merge_inner director_id d_director_id df_shows df_directors.

(** [director_name.str.lower() != 'unknown']; a null name lower-cases to
    null, which differs from every string. *)
Definition not_unknown (pf : platform) (row : show * director) : bool :=
  match director_name (snd row) with
  | Some n => negb (String.eqb (str_lower pf n) "unknown")
  | None => true
  end.

Definition df_filtered_directors (pf : platform) (df_shows : list show)
    (df_directors : list director) : list (show * director) :=
  filter (not_unknown pf) (df_shows_with_directors df_shows df_directors).

Definition director_counts (pf : platform) (df_shows : list show)
    (df_directors : list director) : list (string * nat) :=
  nlargest 10
    (value_counts string_dec
       (map (fun row => director_name (snd row))
            (df_filtered_directors pf df_shows df_directors))).

Definition director_section (pf : platform) (df_shows : DataFrame show)
    (df_directors : DataFrame director) : py unit :=
  (emit (st_subheader "Top 10 Directores con Más Shows") ;;;
   if negb (empty df_directors) && negb (empty df_shows) then
     lift (merge_key_check "director_id" director_id (rows df_shows)) ;;;
     match df_filtered_directors pf (rows df_shows) (rows df_directors) with
     | _ :: _ =>
         emit (px_bar "Top 10 Directores (excluyendo 'Unknown')"
                 (text_chart (director_counts pf (rows df_shows)
                                              (rows df_directors))))
     | [] =>
         emit (st_warning "No hay datos de directores (después de filtrar 'Unknown') para mostrar.")
     end
   else
     emit (st_warning "No se pudieron cargar datos de directores o shows."))%py.

(** 6. Cast members *)
Definition df_full_cast_info (df_show_cast : list show_cast_member)
    (df_cast_members : list cast_member)
    : list (show_cast_member * cast_member) :=
  merge_inner sc_cast_member_id cast_member_id df_show_cast df_cast_members.

Definition cast_counts (df_show_cast : list show_cast_member)
    (df_cast_members : list cast_member) : list (string * nat) :=
  nlargest 10
    (value_counts string_dec
       (map (fun row => cast_member_name (snd row))
            (df_full_cast_info df_show_cast df_cast_members))).

Definition cast_section (df_show_cast : DataFrame show_cast_member)
    (df_cast_members : DataFrame cast_member) : py unit :=
  (emit (st_subheader "Top 10 Miembros del Elenco con Más Apariciones") ;;;
   if negb (empty df_show_cast) && negb (empty df_cast_members) then
     lift (merge_key_check "cast_member_id" sc_cast_member_id
                           (rows df_show_cast)) ;;;
     emit (px_bar "Top 10 Miembros del Elenco"
             (text_chart (cast_counts (rows df_show_cast)
                                      (rows df_cast_members))))
   else
     emit (st_warning "No se pudieron cargar datos del elenco."))%py.

(** 7. Countries *)
Definition df_full_country_info (df_show_countries : list show_country)
    (df_countries : list country) : list (show_country * country) :=
  merge_inner sk_country_id country_id df_show_countries df_countries.

Definition country_counts (df_show_countries : list show_country)
    (df_countries : list country) : list (string * nat) :=
  nlargest 10
    (value_counts string_dec
       (map (fun row => country_name (snd row))
            (df_full_country_info df_show_countries df_countries))).

Definition country_section (df_show_countries : DataFrame show_country)
    (df_countries : DataFrame country) : py unit :=
  (emit (st_subheader "Top 10 Países Productores de Contenido") ;;;
   if negb (empty df_show_countries) && negb (empty df_countries) then
     lift (merge_key_check "country_id" sk_country_id
                           (rows df_show_countries)) ;;;
     emit (px_bar "Top 10 Países Productores"
             (text_chart (country_counts (rows df_show_countries)
                                         (rows df_countries))))
   else
     emit (st_warning "No se pudieron cargar datos de países."))%py.

(** 8. Genres *)
Definition df_full_genre_info (df_show_genres : list show_genre)
    (df_genres : list genre) : list (show_genre * genre) :=
  merge_inner sg_genre_id genre_id df_show_genres df_genres.

Definition genre_counts (df_show_genres : list show_genre)
    (df_genres : list genre) : list (string * nat) :=
  nlargest 10
    (value_counts string_dec
       (map (fun row => genre_name (snd row))
            (df_full_genre_info df_show_genres df_genres))).

Definition genre_section (df_show_genres : DataFrame show_genre)
    (df_genres : DataFrame genre) : py unit :=
  (emit (st_subheader "Top 10 Géneros Más Comunes") ;;;
   if negb (empty df_show_genres) && negb (empty df_genres) then
     lift (merge_key_check "genre_id" sg_genre_id (rows df_show_genres)) ;;;
     emit (px_bar "Top 10 Géneros"
             (text_chart (genre_counts (rows df_show_genres)
                                       (rows df_genres))))
   else
     emit (st_warning "No se pudieron cargar datos de géneros."))%py.

(** The view: the eight queries, then the eight sections behind one guard
    on the [shows] frame.  The merges of the last four sections are in no
    [try] block: an exception of [pd.merge] ends the view there. *)
Definition analytics_view (pf : platform) (db : database) : py unit :=
  (emit (st_header "Análisis Detallado de Shows") ;;;
   df_shows <- run_query
       (pg_select pf read_shows
                  ["show_id"; "type"; "title"; "director_id"; "release_year";
                   "rating"; "duration"; "month_added"] (shows db))
       query_shows None ;;
   df_directors <- run_query
       (pg_select pf read_as_is ["director_id"; "director_name"]
                  (directors db))
       query_directors None ;;
   df_show_cast <- run_query
       (pg_select pf read_show_cast ["show_id"; "cast_member_id"]
                  (show_cast_members db))
       query_show_cast None ;;
   df_cast_members <- run_query
       (pg_select pf read_as_is ["cast_member_id"; "cast_member_name"]
                  (cast_members db))
       query_cast_members None ;;
   df_show_countries <- run_query
       (pg_select pf read_show_countries ["show_id"; "country_id"]
                  (show_countries db))
       query_show_countries None ;;
   df_countries <- run_query
       (pg_select pf read_as_is ["country_id"; "country_name"]
                  (countries db))
       query_countries None ;;
   df_show_genres <- run_query
       (pg_select pf read_show_genres ["show_id"; "genre_id"]
                  (show_genres db))
       query_show_genres None ;;
   df_genres <- run_query
       (pg_select pf read_as_is ["genre_id"; "genre_name"] (genres db))
       query_genres None ;;
   if negb (empty df_shows) then
     type_section df_shows ;;;
     release_section df_shows ;;;
     rating_section df_shows ;;;
     month_section df_shows ;;;
     emit (st_markdown "---") ;;;
     director_section pf df_shows df_directors ;;;
     cast_section df_show_cast df_cast_members ;;;
     country_section df_show_countries df_countries ;;;
     genre_section df_show_genres df_genres ;;;
     emit (st_markdown "---")
   else
     emit (st_warning "No se pudieron cargar datos de la tabla 'shows' para el análisis."))%py.

(** What [run_query] leaves of a plain [SELECT]: the frame it returns and
    the banners it emits. *)
Definition frame {R : Type} (read : list R -> list R) (cols : list string)
    (t : result (list R)) : DataFrame R :=
  match t with
  | Ok rs => {| columns := cols; rows := read rs |}
  | Raise _ => pd_DataFrame
  end.

Definition diagnostics {R : Type} (pf : platform) (query : string)
    (t : result (list R)) : list widget :=
  match t with
  | Ok _ => []
  | Raise e => [st_error ("Error al ejecutar la consulta: " ++ query);
                st_error ("Detalles del error: " ++ error_text pf query e)]
  end.

(** The frames the Analytics view works on, and the banners of its eight
    queries, as functions of the database. *)
Definition df_shows_of (db : database) : DataFrame show :=
  frame read_shows
        ["show_id"; "type"; "title"; "director_id"; "release_year";
         "rating"; "duration"; "month_added"] (shows db).
Definition df_directors_of (db : database) : DataFrame director :=
  frame read_as_is ["director_id"; "director_name"] (directors db).
Definition df_show_cast_of (db : database) : DataFrame show_cast_member :=
  frame read_show_cast ["show_id"; "cast_member_id"] (show_cast_members db).
Definition df_cast_members_of (db : database) : DataFrame cast_member :=
  frame read_as_is ["cast_member_id"; "cast_member_name"] (cast_members db).
Definition df_show_countries_of (db : database) : DataFrame show_country :=
  frame read_show_countries ["show_id"; "country_id"] (show_countries db).
Definition df_countries_of (db : database) : DataFrame country :=
  frame read_as_is ["country_id"; "country_name"] (countries db).
Definition df_show_genres_of (db : database) : DataFrame show_genre :=
  frame read_show_genres ["show_id"; "genre_id"] (show_genres db).
Definition df_genres_of (db : database) : DataFrame genre :=
  frame read_as_is ["genre_id"; "genre_name"] (genres db).

Definition query_diagnostics (pf : platform) (db : database) : list widget :=
  diagnostics pf query_shows (shows db)
  ++ diagnostics pf query_directors (directors db)
  ++ diagnostics pf query_show_cast (show_cast_members db)
  ++ diagnostics pf query_cast_members (cast_members db)
  ++ diagnostics pf query_show_countries (show_countries db)
  ++ diagnostics pf query_countries (countries db)
  ++ diagnostics pf query_show_genres (show_genres db)
  ++ diagnostics pf query_genres (genres db).

(** The key column of a merge can be merged: the section does not reach
    its merge (one of the two frames is empty), or the left key column
    holds a value. *)
Definition merge_ready {L R : Type} (key_l : L -> option Z)
    (left : DataFrame L) (right : DataFrame R) : Prop :=
  empty left = true \/ empty right = true
  \/ all_null key_l (rows left) = false.

(** A chart, or the warning banner that stands in for one. *)
Definition chart_or_placeholder (w : widget) : bool :=
  match w with
  | px_pie _ _ | px_bar _ _ | st_warning _ => true
  | _ => false
  end.

Definition is_chart (w : widget) : bool :=
  match w with
  | px_pie _ _ | px_bar _ _ => true
  | _ => false
  end.

(** A rendered section: its subheader, then one chart or placeholder. *)
Definition section_shape (m : py unit) : Prop :=
  exists title body,
    m = ([st_subheader title; body], Ok tt)
    /\ chart_or_placeholder body = true.

(** ** Search view *)

Definition query_search : string :=
  "SELECT show_id, type, title, release_year, rating, description FROM shows WHERE title ILIKE %s;".

(** [f"%{search_term}%"] *)
Definition wrap_wildcards (search_term : string) : string :=
  "%" ++ search_term ++ "%".

Definition search_view_on (conn : sql_engine show) (search_term : string)
    : py unit :=
  (emit (st_header "Buscar Shows por Título") ;;;
   if negb (String.eqb search_term "") then
     try_except
       (df_search_results <- run_query conn query_search
                               (Some [PStr (wrap_wildcards search_term)]) ;;
        if negb (empty df_search_results) then
          emit (st_subheader ("Resultados para '" ++ search_term ++ "':")) ;;;
          emit (st_dataframe (columns df_search_results)
                             (rows df_search_results))
        else
          emit (st_info ("No se encontraron shows que coincidan con '"
                         ++ search_term ++ "'.")))
       (fun e => emit (st_error ("Error durante la búsqueda: " ++ e)))
   else
     ret tt)%py.

(** The view on the connection to [db]. *)
Definition search_view (pf : platform) (db : database)
    (search_term : string) : py unit :=
  search_view_on (pg_search pf (shows db)) search_term.


(* ================================================================== *)
(** * Facts about the pandas operations *)
(* ================================================================== *)

Section SortingFacts.
Variable B : Type.
Variable leb : B -> B -> bool.

Lemma insert_sorted_perm (x : B) (l : list B) :
  Permutation (insert_sorted leb x l) (x :: l).
Proof.
  induction l as [|y t IH]; simpl.
  - apply Permutation_refl.
  - destruct (leb x y).
    + apply Permutation_refl.
    + eapply perm_trans; [apply perm_skip, IH | apply perm_swap].
Qed.

Lemma sort_by_perm (l : list B) : Permutation (sort_by leb l) l.
Proof.
  induction l as [|x t IH]; simpl.
  - apply perm_nil.
  - eapply perm_trans; [apply insert_sorted_perm | apply perm_skip, IH].
Qed.

Lemma sort_by_length (l : list B) :
  List.length (sort_by leb l) = List.length l.
Proof. apply Permutation_length, sort_by_perm. Qed.

Lemma sort_by_in (l : list B) (x : B) : In x (sort_by leb l) <-> In x l.
Proof.
  split; apply Permutation_in;
    [apply sort_by_perm | apply Permutation_sym, sort_by_perm].
Qed.

Hypothesis leb_total : forall x y, leb x y = true \/ leb y x = true.
Hypothesis leb_trans :
  forall x y z, leb x y = true -> leb y z = true -> leb x z = true.

Lemma insert_sorted_sorted (x : B) (l : list B) :
  StronglySorted (fun a b => leb a b = true) l ->
  StronglySorted (fun a b => leb a b = true) (insert_sorted leb x l).
Proof.
  induction 1 as [|y t Ht IH Hy]; simpl.
  - constructor; constructor.
  - destruct (leb x y) eqn:E.
    + constructor.
      * constructor; assumption.
      * constructor; [assumption|].
        rewrite Forall_forall in *. intros z Hz. eauto.
    + constructor; [assumption|].
      rewrite Forall_forall in *. intros z Hz.
      apply (Permutation_in _ (insert_sorted_perm x t)) in Hz.
      destruct Hz as [<-|Hz]; [|auto].
      destruct (leb_total x y) as [H|H]; congruence.
Qed.

Lemma sort_by_sorted (l : list B) :
  StronglySorted (fun a b => leb a b = true) (sort_by leb l).
Proof.
  induction l as [|x t IH]; simpl.
  - constructor.
  - apply insert_sorted_sorted, IH.
Qed.
End SortingFacts.

Section ListFacts.
Variable B : Type.
Variable R : B -> B -> Prop.

Lemma StronglySorted_app_inv (a b : list B) :
  StronglySorted R (a ++ b) ->
  StronglySorted R a /\ StronglySorted R b /\
  (forall x y, In x a -> In y b -> R x y).
Proof.
  induction a as [|h a IH]; simpl; intros H.
  - repeat split; [constructor | assumption | intros ? ? []].
  - inversion H as [|? ? Hs Hf]; subst.
    destruct (IH Hs) as (Ha & Hb & Hab).
    rewrite Forall_forall in Hf.
    repeat split; [|assumption|].
    + constructor; [assumption|].
      rewrite Forall_forall. intros z Hz. apply Hf, in_or_app; auto.
    + intros x y [<-|Hx] Hy; [apply Hf, in_or_app|]; auto.
Qed.

Lemma StronglySorted_firstn (n : nat) (l : list B) :
  StronglySorted R l -> StronglySorted R (firstn n l).
Proof.
  intros H. rewrite <- (firstn_skipn n l) in H.
  apply StronglySorted_app_inv in H. tauto.
Qed.

Lemma StronglySorted_skipn (n : nat) (l : list B) :
  StronglySorted R l -> StronglySorted R (skipn n l).
Proof.
  intros H. rewrite <- (firstn_skipn n l) in H.
  apply StronglySorted_app_inv in H. tauto.
Qed.

Lemma StronglySorted_split (n : nat) (l : list B) (x y : B) :
  StronglySorted R l -> In x (firstn n l) -> In y (skipn n l) -> R x y.
Proof.
  intros H. rewrite <- (firstn_skipn n l) in H.
  apply StronglySorted_app_inv in H. destruct H as (_ & _ & H). apply H.
Qed.

Lemma StronglySorted_weaken (Q : B -> B -> Prop) (l : list B) :
  (forall x y, In x l -> In y l -> R x y -> Q x y) ->
  StronglySorted R l -> StronglySorted Q l.
Proof.
  intros HQ H. induction H as [|h t Ht IH Hf].
  - constructor.
  - constructor.
    + apply IH. intros x y Hx Hy. apply HQ; right; assumption.
    + rewrite Forall_forall in *. intros z Hz.
      apply HQ; [left; reflexivity | right; assumption | auto].
Qed.

Lemma in_split_firstn_skipn (n : nat) (l : list B) (x : B) :
  In x l -> In x (firstn n l) \/ In x (skipn n l).
Proof.
  intros H. rewrite <- (firstn_skipn n l) in H.
  apply in_app_or in H. assumption.
Qed.

Lemma in_firstn_in (n : nat) (l : list B) (x : B) :
  In x (firstn n l) -> In x l.
Proof.
  intros H. rewrite <- (firstn_skipn n l). apply in_or_app. auto.
Qed.

Lemma in_skipn_in (n : nat) (l : list B) (x : B) :
  In x (skipn n l) -> In x l.
Proof.
  intros H. rewrite <- (firstn_skipn n l). apply in_or_app. auto.
Qed.
End ListFacts.

Lemma NoDup_firstn {B : Type} (n : nat) (l : list B) :
  NoDup l -> NoDup (firstn n l).
Proof.
  intros H. rewrite <- (firstn_skipn n l) in H.
  apply NoDup_app_remove_r in H. assumption.
Qed.

Lemma NoDup_skipn {B : Type} (n : nat) (l : list B) :
  NoDup l -> NoDup (skipn n l).
Proof.
  intros H. rewrite <- (firstn_skipn n l) in H.
  apply NoDup_app_remove_l in H. assumption.
Qed.

Lemma NoDup_split_disjoint {B : Type} (n : nat) (l : list B) (x : B) :
  NoDup l -> In x (firstn n l) -> ~ In x (skipn n l).
Proof.
  intros H Hx Hy. rewrite <- (firstn_skipn n l) in H.
  revert H Hx. generalize (firstn n l) as a. induction a as [|h a IH]; simpl.
  - intros _ [].
  - intros H [->|Hx]; inversion H; subst.
    + match goal with N : ~ In _ _ |- _ => apply N end.
      apply in_or_app. right. assumption.
    + apply IH; assumption.
Qed.

Lemma list_sum_perm (l l' : list nat) :
  Permutation l l' -> list_sum l = list_sum l'.
Proof. induction 1; simpl; lia. Qed.

Lemma filter_perm {B : Type} (f : B -> bool) (l l' : list B) :
  Permutation l l' -> Permutation (filter f l) (filter f l').
Proof.
  induction 1; simpl.
  - constructor.
  - destruct (f x); [apply perm_skip|]; assumption.
  - destruct (f x), (f y); try apply Permutation_refl. apply perm_swap.
  - eapply perm_trans; eassumption.
Qed.

Section SeriesFacts.
Variable A : Type.
Variable eq_dec : forall x y : A, {x = y} + {x <> y}.

Lemma in_values (s : list (option A)) (a : A) :
  In a (values s) <-> In (Some a) s.
Proof.
  induction s as [|[b|] t IH]; simpl.
  - tauto.
  - rewrite IH. split; intros [H|H]; auto; left; congruence.
  - rewrite IH. split; [auto | intros [H|H]; [discriminate | assumption]].
Qed.

Lemma count_values (s : list (option A)) (a : A) :
  count_occ eq_dec (values s) a = count_occ (option_dec eq_dec) s (Some a).
Proof.
  induction s as [|[b|] t IH]; cbn [values].
  - reflexivity.
  - destruct (eq_dec b a) as [->|Hne].
    + rewrite !count_occ_cons_eq by reflexivity. f_equal. exact IH.
    + rewrite !count_occ_cons_neq by congruence. exact IH.
  - rewrite count_occ_cons_neq by discriminate. exact IH.
Qed.

Lemma length_values (s : list (option A)) :
  List.length (values s) + count_occ (option_dec eq_dec) s None
  = List.length s.
Proof.
  induction s as [|[b|] t IH]; cbn [values List.length].
  - reflexivity.
  - rewrite count_occ_cons_neq by discriminate. lia.
  - rewrite count_occ_cons_eq by reflexivity. lia.
Qed.

Lemma in_remove_iff (x y : A) (l : list A) :
  In x (remove eq_dec y l) <-> In x l /\ x <> y.
Proof.
  split.
  - apply in_remove.
  - intros [H1 H2]. apply in_in_remove; assumption.
Qed.

Lemma NoDup_remove_all (y : A) (l : list A) :
  NoDup l -> NoDup (remove eq_dec y l).
Proof.
  induction 1 as [|x t Hx Ht IH]; simpl.
  - constructor.
  - destruct (eq_dec y x); [assumption|].
    constructor; [|assumption].
    rewrite in_remove_iff. tauto.
Qed.

Lemma unique_in (l : list A) (x : A) : In x (unique eq_dec l) <-> In x l.
Proof.
  induction l as [|y t IH]; simpl.
  - tauto.
  - rewrite in_remove_iff, IH.
    destruct (eq_dec y x); [|split; intros [H|H]]; try tauto.
    right. split; [assumption | congruence].
Qed.

Lemma unique_NoDup (l : list A) : NoDup (unique eq_dec l).
Proof.
  induction l as [|y t IH]; simpl.
  - constructor.
  - constructor.
    + apply remove_In.
    + apply NoDup_remove_all, IH.
Qed.

Lemma unique_length (l : list A) :
  List.length (unique eq_dec l) = List.length (nodup eq_dec l).
Proof.
  apply Permutation_length, NoDup_Permutation.
  - apply unique_NoDup.
  - apply NoDup_nodup.
  - intros x. rewrite unique_in, nodup_In. tauto.
Qed.

(** Summing a weight over a duplicate-free list, one key set apart. *)
Lemma list_sum_remove (f : A -> nat) (x : A) (u : list A) :
  NoDup u -> (~ In x u -> f x = 0) ->
  list_sum (map f u) = f x + list_sum (map f (remove eq_dec x u)).
Proof.
  induction 1 as [|y t Hy Ht IH]; simpl; intros H0.
  - rewrite H0; tauto.
  - destruct (eq_dec x y) as [->|Hne].
    + rewrite (notin_remove eq_dec t y Hy). reflexivity.
    + simpl. rewrite IH; [lia|].
      intros Hx. apply H0. intros [E|E]; [congruence | tauto].
Qed.

Lemma list_sum_map_ext_in (f g : A -> nat) (l : list A) :
  (forall x, In x l -> f x = g x) ->
  list_sum (map f l) = list_sum (map g l).
Proof. intros H. f_equal. apply map_ext_in, H. Qed.

Lemma sum_counts_unique (l : list A) :
  list_sum (map (count_occ eq_dec l) (unique eq_dec l)) = List.length l.
Proof.
  induction l as [|x t IH].
  - reflexivity.
  - cbn [unique map list_sum fold_right List.length].
    rewrite count_occ_cons_eq by reflexivity.
    rewrite (list_sum_map_ext_in (count_occ eq_dec (x :: t))
               (count_occ eq_dec t)).
    + rewrite <- IH.
      rewrite (list_sum_remove (count_occ eq_dec t) x (unique_NoDup t)).
      * reflexivity.
      * rewrite unique_in. apply count_occ_not_In.
    + intros y Hy. apply in_remove_iff in Hy.
      apply count_occ_cons_neq. intros E. apply Hy. auto.
Qed.

Lemma value_counts_perm (s : list (option A)) :
  Permutation (value_counts eq_dec s) (grouped eq_dec (values s)).
Proof. apply sort_by_perm. Qed.

Lemma grouped_keys (vals : list A) :
  map fst (grouped eq_dec vals) = unique eq_dec vals.
Proof.
  unfold grouped. rewrite map_map. simpl. apply map_id.
Qed.

Lemma value_counts_in (s : list (option A)) (k : A) (c : nat) :
  In (k, c) (value_counts eq_dec s) <->
  In k (values s) /\ c = count_occ eq_dec (values s) k.
Proof.
  unfold value_counts, grouped. rewrite sort_by_in, in_map_iff. split.
  - intros (k' & E & Hk). inversion E; subst.
    rewrite unique_in in Hk. split; [assumption | reflexivity].
  - intros [Hk ->]. exists k. split; [reflexivity|].
    apply unique_in. assumption.
Qed.

Lemma value_counts_keys_NoDup (s : list (option A)) :
  NoDup (map fst (value_counts eq_dec s)).
Proof.
  eapply Permutation_NoDup.
  - apply Permutation_sym, Permutation_map, value_counts_perm.
  - rewrite grouped_keys. apply unique_NoDup.
Qed.

Lemma value_counts_length (s : list (option A)) :
  List.length (value_counts eq_dec s)
  = List.length (nodup eq_dec (values s)).
Proof.
  unfold value_counts, grouped. rewrite sort_by_length, length_map.
  apply unique_length.
Qed.

Lemma value_counts_total (s : list (option A)) :
  list_sum (map snd (value_counts eq_dec s)) = List.length (values s).
Proof.
  rewrite (list_sum_perm (Permutation_map snd (value_counts_perm s))).
  unfold grouped. rewrite map_map. simpl. apply sum_counts_unique.
Qed.

Lemma count_desc_total (x y : A * nat) :
  count_desc x y = true \/ count_desc y x = true.
Proof.
  unfold count_desc.
  destruct (Nat.leb_spec (snd y) (snd x)); [left; reflexivity|].
  right. apply Nat.leb_le. lia.
Qed.

Lemma count_desc_trans (x y z : A * nat) :
  count_desc x y = true -> count_desc y z = true -> count_desc x z = true.
Proof. unfold count_desc. rewrite !Nat.leb_le. lia. Qed.

Lemma sort_desc_sorted (l : list (A * nat)) :
  StronglySorted (fun x y => snd y <= snd x) (sort_by (@count_desc A) l).
Proof.
  eapply StronglySorted_weaken;
    [|apply sort_by_sorted; [apply count_desc_total | apply count_desc_trans]].
  intros x y _ _ H. apply Nat.leb_le, H.
Qed.
End SeriesFacts.

Section TopFacts.
Variable A : Type.

Lemma nlargest_length (n : nat) (l : list (A * nat)) :
  List.length (nlargest n l) = Nat.min n (List.length l).
Proof. unfold nlargest. rewrite length_firstn, sort_by_length. reflexivity. Qed.

Lemma nlargest_in (n : nat) (l : list (A * nat)) (x : A * nat) :
  In x (nlargest n l) -> In x l.
Proof.
  unfold nlargest. intros H. apply (sort_by_in (@count_desc A)).
  eapply in_firstn_in. eassumption.
Qed.

Lemma nlargest_sorted (n : nat) (l : list (A * nat)) :
  StronglySorted (fun x y => snd y <= snd x) (nlargest n l).
Proof. apply StronglySorted_firstn, sort_desc_sorted. Qed.

Lemma nlargest_keys_NoDup (n : nat) (l : list (A * nat)) :
  NoDup (map fst l) -> NoDup (map fst (nlargest n l)).
Proof.
  intros H. unfold nlargest. rewrite <- firstn_map. apply NoDup_firstn.
  eapply Permutation_NoDup; [|exact H].
  apply Permutation_sym, Permutation_map, sort_by_perm.
Qed.

(** Whatever [nlargest] leaves out counts no more than what it keeps. *)
Lemma nlargest_top (n : nat) (l : list (A * nat)) (x y : A * nat) :
  In x l -> ~ In x (nlargest n l) -> In y (nlargest n l) -> snd x <= snd y.
Proof.
  unfold nlargest. intros Hx Hnx Hy.
  apply (sort_by_in (@count_desc A)) in Hx.
  destruct (in_split_firstn_skipn n _ _ Hx) as [H|H]; [contradiction|].
  eapply StronglySorted_split with (R := fun a b : A * nat => snd b <= snd a);
    [apply sort_desc_sorted | exact Hy | exact H].
Qed.

(** It leaves something out only when it is full. *)
Lemma nlargest_full (n : nat) (l : list (A * nat)) (x : A * nat) :
  In x l -> ~ In x (nlargest n l) -> List.length (nlargest n l) = n.
Proof.
  intros Hx Hnx. rewrite nlargest_length.
  destruct (Nat.le_gt_cases n (List.length l)) as [H|H]; [lia|].
  exfalso. apply Hnx. unfold nlargest.
  rewrite firstn_all2 by (rewrite sort_by_length; lia).
  apply sort_by_in. assumption.
Qed.

Lemma tail_length (n : nat) (l : list A) :
  List.length (tail n l) = Nat.min n (List.length l).
Proof. unfold tail. rewrite length_skipn. lia. Qed.

Lemma tail_in (n : nat) (l : list A) (x : A) : In x (tail n l) -> In x l.
Proof. unfold tail. intros H. eapply in_skipn_in. eassumption. Qed.

Lemma tail_sorted (R : A -> A -> Prop) (n : nat) (l : list A) :
  StronglySorted R l -> StronglySorted R (tail n l).
Proof. apply StronglySorted_skipn. Qed.

(** What [tail] drops stands before everything it keeps. *)
Lemma tail_last (R : A -> A -> Prop) (n : nat) (l : list A) (x y : A) :
  StronglySorted R l -> In x l -> ~ In x (tail n l) -> In y (tail n l) ->
  R x y.
Proof.
  unfold tail. intros Hs Hx Hnx Hy.
  destruct (in_split_firstn_skipn (List.length l - n) _ _ Hx) as [H|H];
    [|contradiction].
  eapply StronglySorted_split; [exact Hs | exact H | exact Hy].
Qed.
End TopFacts.

Lemma values_dropna {R B : Type} (col : R -> option B) (l : list R) :
  values (map col (filter (fun r => notna (col r)) l)) = values (map col l).
Proof.
  induction l as [|r t IH]; simpl.
  - reflexivity.
  - destruct (col r) eqn:E; simpl; rewrite ?E, IH; reflexivity.
Qed.

Lemma empty_false {R : Type} (df : DataFrame R) :
  empty df = false <-> columns df <> [] /\ rows df <> [].
Proof.
  unfold empty. destruct (columns df), (rows df); split;
    try discriminate; try tauto; intros _; split; discriminate.
Qed.

(** [value_counts] after [dropna] on the same column sees the same values. *)
Lemma value_counts_dropna {R B : Type}
    (dec : forall x y : B, {x = y} + {x <> y}) (col : R -> option B)
    (df : DataFrame R) :
  value_counts dec (map col (rows (dropna col df)))
  = value_counts dec (map col (rows df)).
Proof.
  unfold value_counts, dropna. cbn [rows]. rewrite values_dropna. reflexivity.
Qed.

Lemma value_counts_entry {B : Type}
    (dec : forall x y : B, {x = y} + {x <> y}) (s : list (option B))
    (k : B) (c : nat) :
  In (k, c) (value_counts dec s) <->
  c = count_occ (option_dec dec) s (Some k) /\ 0 < c.
Proof.
  rewrite value_counts_in, <- count_values. split.
  - intros [Hk ->]. split; [reflexivity|].
    apply (count_occ_In dec) in Hk. lia.
  - intros [-> Hc]. split; [|reflexivity].
    apply (count_occ_In dec). lia.
Qed.

Lemma index_asc_total (x y : Z * nat) :
  index_asc x y = true \/ index_asc y x = true.
Proof. unfold index_asc. rewrite !Z.leb_le. lia. Qed.

Lemma index_asc_trans (x y z : Z * nat) :
  index_asc x y = true -> index_asc y z = true -> index_asc x z = true.
Proof. unfold index_asc. rewrite !Z.leb_le. lia. Qed.

Lemma sorted_distinct_keys_strict (l : list (Z * nat)) :
  StronglySorted (fun x y => index_asc x y = true) l ->
  NoDup (map fst l) ->
  StronglySorted (fun x y => (fst x < fst y)%Z) l.
Proof.
  induction 1 as [|h t Ht IH Hf]; simpl; intros Hn.
  - constructor.
  - inversion Hn as [|? ? Hh Hn']; subst.
    constructor; [apply IH, Hn'|].
    rewrite Forall_forall in *. intros z Hz.
    specialize (Hf z Hz). unfold index_asc in Hf. apply Z.leb_le in Hf.
    assert (fst h <> fst z).
    { intros E. apply Hh. rewrite E. apply in_map. assumption. }
    lia.
Qed.

Lemma sort_index_strict (l : list (Z * nat)) :
  NoDup (map fst l) ->
  StronglySorted (fun x y => (fst x < fst y)%Z) (sort_index l).
Proof.
  intros H. apply sorted_distinct_keys_strict.
  - apply sort_by_sorted; [apply index_asc_total | apply index_asc_trans].
  - eapply Permutation_NoDup; [|exact H].
    apply Permutation_sym, Permutation_map, sort_by_perm.
Qed.

(* ================================================================== *)
(** * The Analytics view's aggregations *)
(* ================================================================== *)

(** A [shows] row with the columns the analytics read. *)
Definition a_show (i : Z) (ty : option string) (dir rel : option Z)
    (rat : option string) (mon : option Z) : show :=
  {| show_id := i; type := ty; title := None; director_id := dir;
     release_year := rel; rating := rat; duration := None;
     month_added := mon; year_added := None; description := None |}.

Definition shows_columns : list string :=
  ["show_id"; "type"; "title"; "director_id"; "release_year"; "rating";
   "duration"; "month_added"].

(** ** Type distribution *)

Definition null_type_rows : list show :=
  [a_show 1 None None None None None;
   a_show 2 (Some "Movie") None None None None].

Definition null_type_db : database :=
  {| shows := Ok null_type_rows; directors := Ok [];
     show_cast_members := Ok []; cast_members := Ok [];
     show_countries := Ok []; countries := Ok [];
     show_genres := Ok []; genres := Ok [] |}.

(** C1, as stated, fails: with two rows in [shows], one of them with a
    null [type], the pie chart the view renders has the single category
    [Movie] with count 1; the row with the null type is counted in no
    category. *)
Lemma null_type_row_is_not_counted :
  List.length null_type_rows = 2 /\
  In (px_pie "Películas vs. Series de TV" [(LStr "Movie", 1)])
     (widgets (analytics_view ascii_platform null_type_db)) /\
  list_sum (map snd (type_counts null_type_rows)) = 1.
Proof.
  split; [reflexivity|]. split; [|reflexivity].
  vm_compute. do 2 right. left. reflexivity.
Qed.

(** C1, as amended: the type distribution counts the rows of [shows]
    grouped by [type], rows with a null type left out ([value_counts]
    drops nulls).  The chart has one category per distinct non-null type,
    whose count is the number of rows of that type; the counts add up to
    the number of rows with a non-null type, so together with the null
    rows they account for every row. *)
Theorem type_counts_count_non_null_types (df_shows : DataFrame show) :
  widgets (type_section df_shows)
  = [st_subheader "Distribución por Tipo (Película / Serie de TV)";
     px_pie "Películas vs. Series de TV"
            (text_chart (type_counts (rows df_shows)))] /\
  (forall k c,
      In (k, c) (type_counts (rows df_shows)) <->
      c = count_occ option_string_dec (map type (rows df_shows)) (Some k)
      /\ 0 < c) /\
  NoDup (map fst (type_counts (rows df_shows))) /\
  list_sum (map snd (type_counts (rows df_shows)))
  + count_occ option_string_dec (map type (rows df_shows)) None
  = List.length (rows df_shows).
Proof.
  split; [reflexivity|]. split; [|split].
  - intros k c. apply value_counts_entry.
  - apply value_counts_keys_NoDup.
  - unfold type_counts. rewrite value_counts_total.
    rewrite (length_values string_dec). apply length_map.
Qed.

(** ** Releases by year *)

Lemma dropna_not_empty {R B : Type} (col : R -> option B) (df : DataFrame R) :
  empty (dropna col df) = false <->
  columns df <> [] /\ exists r, In r (rows df) /\ col r <> None.
Proof.
  rewrite empty_false. unfold dropna. cbn [columns rows].
  split; intros [Hc Hr]; (split; [exact Hc|]).
  - destruct (filter (fun r => notna (col r)) (rows df)) as [|r t] eqn:E;
      [congruence|].
    assert (Hin : In r (filter (fun r => notna (col r)) (rows df)))
      by (rewrite E; left; reflexivity).
    apply filter_In in Hin. destruct Hin as [Hin Hn].
    exists r. split; [exact Hin|]. destruct (col r); [discriminate|].
    discriminate.
  - destruct Hr as (r & Hin & Hn). intros E.
    assert (H : In r (filter (fun r => notna (col r)) (rows df))).
    { apply filter_In. split; [exact Hin|]. destruct (col r); [reflexivity|].
      congruence. }
    rewrite E in H. destruct H.
Qed.

Lemma to_float64_exact (z : Z) : exact_float64 z -> to_float64 z = z.
Proof.
  unfold exact_float64, to_float64. intros H. apply Z.leb_le in H.
  cbv zeta. rewrite H. reflexivity.
Qed.

Lemma held_exact {R : Type} (col : R -> option Z) (rs : list R)
    (v : option Z) :
  (forall y, v = Some y -> exact_float64 y) -> held col rs v = v.
Proof.
  intros H. unfold held. destruct (has_null col rs); [|reflexivity].
  destruct v as [y|]; [|reflexivity].
  cbn. rewrite (to_float64_exact (H y eq_refl)). reflexivity.
Qed.

(** Years are read as they are when the column holds no null (it is
    int64) or when a float64 holds each of them exactly. *)
Lemma release_year_read (rs : list show) :
  (has_null release_year rs = true ->
   forall y, In (Some y) (map release_year rs) -> exact_float64 y) ->
  map release_year (read_shows rs) = map release_year rs.
Proof.
  intros H. unfold read_shows. rewrite map_map. cbn [release_year].
  apply map_ext_in. intros r Hr.
  destruct (has_null release_year rs) eqn:E.
  - apply held_exact. intros y Ey.
    apply (H eq_refl). rewrite <- Ey. apply in_map, Hr.
  - unfold held. rewrite E. reflexivity.
Qed.

Lemma release_year_astype (l : list show) :
  map release_year (astype_int_release_year l) = map release_year l.
Proof.
  unfold astype_int_release_year. rewrite map_map. cbn [release_year].
  apply map_ext. intros r. destruct (release_year r); reflexivity.
Qed.

(** The releases chart of a frame, in terms of the years the frame
    holds. *)
Lemma release_section_on_frame (df_shows : DataFrame show) :
  empty (dropna release_year df_shows) = false ->
  let years := values (map release_year (rows df_shows)) in
  let data := latest_years_count (rows (dropna release_year df_shows)) in
  widgets (release_section df_shows)
  = [st_subheader "Número de Shows por Año de Lanzamiento";
     px_bar "Shows por Año de Lanzamiento (Últimos años)" (year_chart data)]
  /\ StronglySorted (fun x y => (fst x < fst y)%Z) data
  /\ List.length data = Nat.min 30 (List.length (nodup Z.eq_dec years))
  /\ (forall y c,
         In (y, c) data ->
         c = count_occ option_Z_dec (map release_year (rows df_shows)) (Some y)
         /\ 0 < c)
  /\ (forall y,
         In y years -> ~ In y (map fst data) ->
         forall y', In y' (map fst data) -> (y < y')%Z)
  /\ (List.length (nodup Z.eq_dec years) = 35 -> List.length data = 30).
Proof.
  intros Hne years data.
  assert (Hdata : data = tail 30 (sort_index
            (value_counts Z.eq_dec (map release_year (rows df_shows))))).
  { unfold data, latest_years_count, release_year_counts.
    rewrite release_year_astype, value_counts_dropna. reflexivity. }
  assert (Hsorted : StronglySorted (fun x y => (fst x < fst y)%Z)
            (sort_index
               (value_counts Z.eq_dec (map release_year (rows df_shows))))).
  { apply sort_index_strict, value_counts_keys_NoDup. }
  assert (Hlen : List.length data
                 = Nat.min 30 (List.length (nodup Z.eq_dec years))).
  { rewrite Hdata, tail_length. unfold sort_index.
    rewrite sort_by_length, value_counts_length. reflexivity. }
  split; [|split; [|split; [|split; [|split]]]].
  - unfold release_section. cbn. rewrite Hne. reflexivity.
  - rewrite Hdata. apply tail_sorted, Hsorted.
  - exact Hlen.
  - intros y c Hin. rewrite Hdata in Hin.
    apply tail_in, sort_by_in in Hin.
    apply value_counts_entry in Hin. exact Hin.
  - intros y Hy Hout y' Hy'.
    apply in_map_iff in Hy'. destruct Hy' as ([y'' c'] & E & Hin').
    simpl in E. subst y''.
    set (c := count_occ Z.eq_dec years y).
    assert (Hin : In (y, c) (sort_index
              (value_counts Z.eq_dec (map release_year (rows df_shows))))).
    { apply sort_by_in, value_counts_in. split; [exact Hy | reflexivity]. }
    assert (Hnot : ~ In (y, c) data).
    { intros H. apply Hout. apply (in_map fst) in H. exact H. }
    rewrite Hdata in Hnot, Hin'.
    exact (@tail_last _ (fun x y => (fst x < fst y)%Z) 30 _ (y, c) (y', c')
             Hsorted Hin Hnot Hin').
  - intros H35. rewrite Hlen, H35. reflexivity.
Qed.

(** A null release year, and the years 2^53 and 2^53 + 1. *)
Definition beyond_float64_rows : list show :=
  [a_show 1 None None None None None;
   a_show 2 None None (Some 9007199254740992%Z) None None;
   a_show 3 None None (Some 9007199254740993%Z) None None].

Definition beyond_float64_db : database :=
  {| shows := Ok beyond_float64_rows; directors := Ok [];
     show_cast_members := Ok []; cast_members := Ok [];
     show_countries := Ok []; countries := Ok [];
     show_genres := Ok []; genres := Ok [] |}.

(** C4, as stated, fails for years that a float64 does not hold: with a
    null in the column pandas holds the years as floats, 2^53 + 1 becomes
    2^53, and the two distinct years of the data are drawn as one bar of
    two rows. *)
Lemma release_years_beyond_float64 :
  shows beyond_float64_db = Ok beyond_float64_rows /\
  List.length
    (nodup Z.eq_dec (values (map release_year beyond_float64_rows))) = 2 /\
  widgets (release_section (df_shows_of beyond_float64_db))
  = [st_subheader "Número de Shows por Año de Lanzamiento";
     px_bar "Shows por Año de Lanzamiento (Últimos años)"
            [(LInt 9007199254740992, 2)]].
Proof. split; [reflexivity|]. split; vm_compute; reflexivity. Qed.

(** C4, as amended: when at least one row has a release year and, if
    some row has none, every year is an integer that a float64 holds
    exactly (at most 2^53 in absolute value), the releases chart is built
    from the rows with a non-null year: one bar per distinct year with the number of rows of
    that year, years strictly ascending, and only the last [min 30 d] of
    the [d] distinct years are kept: every year left out is earlier than
    every year shown.  With 35 distinct years, 30 bars are shown. *)
Theorem release_section_keeps_last_30_years (db : database)
    (rs : list show) :
  shows db = Ok rs ->
  (exists r, In r rs /\ release_year r <> None) ->
  (has_null release_year rs = true ->
   forall y, In (Some y) (map release_year rs) -> exact_float64 y) ->
  let years := values (map release_year rs) in
  let data :=
    latest_years_count (rows (dropna release_year (df_shows_of db))) in
  widgets (release_section (df_shows_of db))
  = [st_subheader "Número de Shows por Año de Lanzamiento";
     px_bar "Shows por Año de Lanzamiento (Últimos años)" (year_chart data)]
  /\ StronglySorted (fun x y => (fst x < fst y)%Z) data
  /\ List.length data = Nat.min 30 (List.length (nodup Z.eq_dec years))
  /\ (forall y c,
         In (y, c) data ->
         c = count_occ option_Z_dec (map release_year rs) (Some y)
         /\ 0 < c)
  /\ (forall y,
         In y years -> ~ In y (map fst data) ->
         forall y', In y' (map fst data) -> (y < y')%Z)
  /\ (List.length (nodup Z.eq_dec years) = 35 -> List.length data = 30).
Proof.
  intros Hrs (r & Hr & Hy) Hexact.
  assert (Hrows : map release_year (rows (df_shows_of db))
                  = map release_year rs).
  { unfold df_shows_of, frame. rewrite Hrs. cbn [rows].
    apply release_year_read, Hexact. }
  assert (Hne : empty (dropna release_year (df_shows_of db)) = false).
  { apply dropna_not_empty. split.
    - unfold df_shows_of, frame. rewrite Hrs. discriminate.
    - destruct (release_year r) as [y|] eqn:E; [|contradiction].
      assert (Hin : In (Some y) (map release_year (rows (df_shows_of db)))).
      { rewrite Hrows, <- E. apply in_map, Hr. }
      apply in_map_iff in Hin. destruct Hin as (r' & E' & Hr').
      exists r'. split; [exact Hr' | congruence]. }
  pose proof (release_section_on_frame (df_shows_of db) Hne) as H.
  cbv zeta in H. rewrite Hrows in H. exact H.
Qed.

(** Thirty-five rows, one per year from 1986 to 2020, newest first, and a
    row without a year. *)
Definition thirty_five_years : list show :=
  a_show 99 None None None None None
  :: map (fun i => a_show (Z.of_nat i) None None
                     (Some (2020 - Z.of_nat i)%Z) None None)
         (seq 0 35).

Definition thirty_five_years_db : database :=
  {| shows := Ok thirty_five_years; directors := Ok [];
     show_cast_members := Ok []; cast_members := Ok [];
     show_countries := Ok []; countries := Ok [];
     show_genres := Ok []; genres := Ok [] |}.

Lemma release_section_thirty_five_years :
  (exists r, In r thirty_five_years /\ release_year r <> None) /\
  has_null release_year thirty_five_years = true /\
  (forall y, In (Some y) (map release_year thirty_five_years) ->
             exact_float64 y) /\
  List.length (nodup Z.eq_dec (values (map release_year thirty_five_years)))
  = 35 /\
  widgets (release_section (df_shows_of thirty_five_years_db))
  = [st_subheader "Número de Shows por Año de Lanzamiento";
     px_bar "Shows por Año de Lanzamiento (Últimos años)"
       (map (fun i => (LInt (1991 + Z.of_nat i)%Z, 1)) (seq 0 30))].
Proof.
  assert (Hr : exists r, In r thirty_five_years /\ release_year r <> None).
  { exists (a_show 0 None None (Some 2020%Z) None None).
    split; [right; left; reflexivity | discriminate]. }
  assert (He : forall y, In (Some y) (map release_year thirty_five_years) ->
                         exact_float64 y).
  { intros y Hy. unfold exact_float64.
    assert (Hb : forallb
                   (fun v => match v with
                             | Some z => (Z.abs z <=? 2 ^ 53)%Z
                             | None => true
                             end)
                   (map release_year thirty_five_years) = true)
      by (vm_compute; reflexivity).
    rewrite forallb_forall in Hb. apply Z.leb_le. exact (Hb _ Hy). }
  split; [exact Hr|]. split; [reflexivity|]. split; [exact He|].
  split; [vm_compute; reflexivity|].
  exact (proj1 (@release_section_keeps_last_30_years thirty_five_years_db
                  thirty_five_years eq_refl Hr (fun _ => He))).
Defined.

(** ** Rating distribution *)

(** C6: when at least one row has a rating, the rating chart is built
    from the rows with a non-null rating: one bar per rating with the
    number of rows of that rating, at most ten bars, counts descending;
    a rating is left out only when ten bars are shown, and then it
    counts no more than any rating shown. *)
Theorem rating_section_top_ten (df_shows : DataFrame show) :
  in_columns "rating" df_shows = true ->
  empty (dropna rating df_shows) = false ->
  let ratings := map rating (rows df_shows) in
  let data := rating_counts (rows (dropna rating df_shows)) in
  widgets (rating_section df_shows)
  = [st_subheader "Distribución de Ratings";
     px_bar "Top 10 Ratings más comunes" (text_chart data)]
  /\ List.length data <= 10
  /\ StronglySorted (fun x y => snd y <= snd x) data
  /\ NoDup (map fst data)
  /\ (forall r c,
         In (r, c) data ->
         c = count_occ option_string_dec ratings (Some r) /\ 0 < c)
  /\ (forall r,
         In (Some r) ratings -> ~ In r (map fst data) ->
         List.length data = 10 /\
         forall r' c',
           In (r', c') data ->
           count_occ option_string_dec ratings (Some r) <= c').
Proof.
  intros Hcol Hne ratings data.
  assert (Hdata : data = nlargest 10 (value_counts string_dec ratings)).
  { unfold data, rating_counts. rewrite value_counts_dropna. reflexivity. }
  split; [|split; [|split; [|split; [|split]]]].
  - unfold rating_section. cbn. rewrite Hcol, Hne. reflexivity.
  - rewrite Hdata, nlargest_length. lia.
  - rewrite Hdata. apply nlargest_sorted.
  - rewrite Hdata. apply nlargest_keys_NoDup, value_counts_keys_NoDup.
  - intros r c Hin. rewrite Hdata in Hin. apply nlargest_in in Hin.
    apply value_counts_entry in Hin. exact Hin.
  - intros r Hr Hout.
    set (c := count_occ option_string_dec ratings (Some r)).
    assert (Hin : In (r, c) (value_counts string_dec ratings)).
    { apply value_counts_entry. split; [reflexivity|].
      apply (count_occ_In option_string_dec) in Hr. exact Hr. }
    assert (Hnot : ~ In (r, c) (nlargest 10 (value_counts string_dec ratings))).
    { rewrite <- Hdata. intros H. apply Hout.
      apply (in_map fst) in H. exact H. }
    split.
    + rewrite Hdata. exact (nlargest_full _ _ _ Hin Hnot).
    + intros r' c' Hin'. rewrite Hdata in Hin'.
      exact (nlargest_top _ _ _ _ Hin Hnot Hin').
Qed.

(** Eleven ratings: [R0] on eleven rows, [R1] on ten, ... [R10] on one. *)
Definition eleven_ratings : DataFrame show :=
  {| columns := shows_columns;
     rows := flat_map
               (fun i => repeat (a_show (Z.of_nat i) None None None
                                   (Some ("R" ++ str_nat i)%string) None)
                                (11 - i))
               (seq 0 11) |}.

Lemma rating_section_eleven_ratings :
  in_columns "rating" eleven_ratings = true /\
  empty (dropna rating eleven_ratings) = false /\
  widgets (rating_section eleven_ratings)
  = [st_subheader "Distribución de Ratings";
     px_bar "Top 10 Ratings más comunes"
       (map (fun i => (LStr ("R" ++ str_nat i)%string, 11 - i)) (seq 0 10))].
Proof.
  split; [reflexivity|]. split; [reflexivity|].
  exact (proj1 (rating_section_top_ten eleven_ratings eq_refl eq_refl)).
Defined.

(** ** Additions by month *)

Lemma filter_key_in (l : list (string * nat)) (k : string) (c : nat) :
  NoDup (map fst l) -> In (k, c) l ->
  filter (fun kv => String.eqb k (fst kv)) l = [(k, c)].
Proof.
  induction l as [|[k' c'] t IH]; simpl; intros Hn Hin; [destruct Hin|].
  inversion Hn as [|? ? Hk Hn']; subst.
  destruct Hin as [E|Hin].
  - inversion E; subst. rewrite String.eqb_refl. f_equal.
    clear IH Hn Hn'. induction t as [|[k2 c2] t IHt]; simpl; [reflexivity|].
    simpl in Hk. destruct (String.eqb_spec k k2) as [->|Hne]; [tauto|].
    apply IHt. tauto.
  - destruct (String.eqb_spec k k') as [->|Hne].
    + exfalso. apply Hk. apply (in_map fst) in Hin. exact Hin.
    + apply IH; assumption.
Qed.

Lemma filter_key_notin (l : list (string * nat)) (k : string) :
  ~ In k (map fst l) ->
  filter (fun kv => String.eqb k (fst kv)) l = [].
Proof.
  induction l as [|[k' c'] t IH]; simpl; intros Hn; [reflexivity|].
  destruct (String.eqb_spec k k') as [->|Hne]; [tauto|].
  apply IH. tauto.
Qed.

(** The left merge with a [value_counts] table followed by [fillna(0)]
    gives every name its number of occurrences, zero included. *)
Lemma merge_left_value_counts (names : list string)
    (s : list (option string)) :
  fillna0 (merge_left names (value_counts string_dec s))
  = map (fun k => (k, count_occ string_dec (values s) k)) names.
Proof.
  unfold fillna0, merge_left.
  induction names as [|k t IH]; [reflexivity|].
  cbn [flat_map]. rewrite map_app, IH. clear IH. cbn [map].
  destruct (in_dec string_dec k (values s)) as [Hin|Hout].
  - rewrite (@filter_key_in _ k (count_occ string_dec (values s) k)).
    + reflexivity.
    + apply value_counts_keys_NoDup.
    + apply value_counts_in. split; [exact Hin | reflexivity].
  - rewrite filter_key_notin.
    + simpl. apply (count_occ_not_In string_dec) in Hout.
      rewrite Hout. reflexivity.
    + intros H. apply in_map_iff in H. destruct H as ([k' c] & E & H).
      simpl in E. subst k'. apply value_counts_in in H. tauto.
Qed.




Definition null_month_shows : DataFrame show :=
  {| columns := shows_columns;
     rows := [a_show 1 (Some "Movie") None (Some 2020%Z) (Some "PG") None] |}.





(** ** Top directors *)

Lemma count_occ_map_filter {R B : Type}
    (dec : forall x y : B, {x = y} + {x <> y}) (f : R -> B) (p : R -> bool)
    (l : list R) (v : B) :
  (forall x, In x l -> f x = v -> p x = true) ->
  count_occ dec (map f (filter p l)) v = count_occ dec (map f l) v.
Proof.
  induction l as [|x t IH]; simpl; intros H; [reflexivity|].
  assert (IH' := IH (fun y Hy => H y (or_intror Hy))).
  destruct (p x) eqn:E; simpl.
  - destruct (dec (f x) v); rewrite IH'; reflexivity.
  - destruct (dec (f x) v) as [Ev|]; [|exact IH'].
    rewrite (H x (or_introl eq_refl) Ev) in E. discriminate.
Qed.

Lemma not_unknown_name (pf : platform) (row : show * director)
    (n : string) :
  director_name (snd row) = Some n ->
  (not_unknown pf row = true <-> str_lower pf n <> "unknown").
Proof.
  unfold not_unknown. intros ->.
  destruct (String.eqb_spec (str_lower pf n) "unknown"); simpl; split;
    congruence.
Qed.

(** C5: whatever the case tables of Python are, the chart of the
    directors section is built from [director_counts], and no category of
    it lower-cases to "unknown": the rows of the inner join of [shows]
    with [directors] whose name does are removed before counting.  Every
    other director keeps the full count of its joined rows, and is left
    out of the chart only when ten directors with at least as many rows
    are shown. *)
Theorem top_directors_exclude_unknown (pf : platform)
    (df_shows : DataFrame show) (df_directors : DataFrame director) :
  let joined := map (fun row => director_name (snd row))
                    (df_shows_with_directors (rows df_shows)
                                             (rows df_directors)) in
  let data := director_counts pf (rows df_shows) (rows df_directors) in
  (forall t d,
      In (px_bar t d) (widgets (director_section pf df_shows df_directors)) ->
      d = text_chart data)
  /\ (forall n c,
         In (n, c) data ->
         str_lower pf n <> "unknown"
         /\ c = count_occ option_string_dec joined (Some n) /\ 0 < c)
  /\ List.length data <= 10
  /\ (forall n,
         In (Some n) joined -> str_lower pf n <> "unknown" ->
         ~ In n (map fst data) ->
         List.length data = 10 /\
         forall n' c',
           In (n', c') data ->
           count_occ option_string_dec joined (Some n) <= c').
Proof.
  intros joined data.
  set (kept := map (fun row => director_name (snd row))
                   (df_filtered_directors pf (rows df_shows)
                                          (rows df_directors))).
  assert (Hdata : data = nlargest 10 (value_counts string_dec kept))
    by reflexivity.
  assert (Hcount : forall n, str_lower pf n <> "unknown" ->
            count_occ option_string_dec kept (Some n)
            = count_occ option_string_dec joined (Some n)).
  { intros n Hn. unfold kept, df_filtered_directors.
    apply count_occ_map_filter. intros row _ E.
    apply (not_unknown_name pf row E). exact Hn. }
  assert (Hkept : forall n, In (Some n) kept -> str_lower pf n <> "unknown").
  { intros n Hin. unfold kept, df_filtered_directors in Hin.
    apply in_map_iff in Hin. destruct Hin as (row & E & Hrow).
    apply filter_In in Hrow. destruct Hrow as [_ Hk].
    apply (not_unknown_name pf row E). exact Hk. }
  split; [|split; [|split]].
  - intros t d. unfold director_section. cbn.
    destruct (negb (empty df_directors) && negb (empty df_shows)).
    + destruct (merge_key_check "director_id" director_id (rows df_shows))
        as [[]|e]; cbn.
      * fold data.
        destruct (df_filtered_directors pf (rows df_shows)
                                        (rows df_directors));
          cbn; intros [H|[H|[]]]; try discriminate H.
        inversion H. reflexivity.
      * intros [H|[]]. discriminate H.
    + cbn. intros [H|[H|[]]]; discriminate H.
  - intros n c Hin. rewrite Hdata in Hin. apply nlargest_in in Hin.
    apply value_counts_entry in Hin. destruct Hin as [-> Hpos].
    assert (Hn : str_lower pf n <> "unknown").
    { apply Hkept. apply (count_occ_In option_string_dec). exact Hpos. }
    split; [exact Hn|]. split; [|exact Hpos].
    apply Hcount, Hn.
  - rewrite Hdata, nlargest_length. lia.
  - intros n Hin Hn Hout.
    set (c := count_occ option_string_dec kept (Some n)).
    assert (Hc : In (n, c) (value_counts string_dec kept)).
    { apply value_counts_entry. split; [reflexivity|].
      unfold c. rewrite (Hcount n Hn).
      apply (count_occ_In option_string_dec). exact Hin. }
    assert (Hnot : ~ In (n, c) (nlargest 10 (value_counts string_dec kept))).
    { rewrite <- Hdata. intros H. apply Hout.
      apply (in_map fst) in H. exact H. }
    split.
    + rewrite Hdata. exact (nlargest_full _ _ _ Hc Hnot).
    + intros n' c' Hin'. rewrite Hdata in Hin'.
      rewrite <- (Hcount n Hn).
      exact (nlargest_top _ _ _ _ Hc Hnot Hin').
Qed.

(** Directors named "Unknown" in three spellings, and one known name. *)
Definition mixed_case_shows : DataFrame show :=
  {| columns := shows_columns;
     rows := [a_show 1 None (Some 1%Z) None None None;
              a_show 2 None (Some 2%Z) None None None;
              a_show 3 None (Some 3%Z) None None None;
              a_show 4 None (Some 4%Z) None None None;
              a_show 5 None (Some 1%Z) None None None;
              a_show 6 None None None None None] |}.

Definition mixed_case_directors : DataFrame director :=
  {| columns := ["director_id"; "director_name"];
     rows := [{| d_director_id := 1; director_name := Some "Unknown" |};
              {| d_director_id := 2; director_name := Some "unknown" |};
              {| d_director_id := 3; director_name := Some "UNKNOWN" |};
              {| d_director_id := 4; director_name := Some "Ana Ruiz" |}] |}.

Lemma top_directors_mixed_case :
  widgets (director_section ascii_platform mixed_case_shows
                            mixed_case_directors)
  = [st_subheader "Top 10 Directores con Más Shows";
     px_bar "Top 10 Directores (excluyendo 'Unknown')"
            [(LStr "Ana Ruiz", 1)]]
  /\ str_lower ascii_platform "Ana Ruiz" <> "unknown"
  /\ 1 = count_occ option_string_dec
           (map (fun row => director_name (snd row))
                (df_shows_with_directors (rows mixed_case_shows)
                                         (rows mixed_case_directors)))
           (Some "Ana Ruiz").
Proof.
  split; [reflexivity|].
  destruct (proj1 (proj2 (top_directors_exclude_unknown ascii_platform
                            mixed_case_shows mixed_case_directors))
                  "Ana Ruiz" 1 (or_introl eq_refl)) as (Hn & Hc & _).
  split; [exact Hn | exact Hc].
Defined.

(** ** Top cast members, countries and genres *)

Lemma filter_none {B : Type} (f : B -> bool) (l : list B) :
  (forall x, In x l -> f x = false) -> filter f l = [].
Proof.
  induction l as [|x t IH]; simpl; intros H; [reflexivity|].
  rewrite (H x (or_introl eq_refl)). apply IH. intros y Hy. apply H. auto.
Qed.

Section CountFacts.
Variable A : Type.
Variable eq_dec : forall x y : A, {x = y} + {x <> y}.

Lemma values_nil_iff (s : list (option A)) :
  values s = [] <-> forall x, In x s -> x = None.
Proof.
  induction s as [|[a|] t IH]; cbn [values].
  - split; [intros _ x [] | reflexivity].
  - split; [discriminate|]. intros H.
    discriminate (H (Some a) (or_introl eq_refl)).
  - rewrite IH. split.
    + intros H x [<-|Hx]; [reflexivity | apply H, Hx].
    + intros H x Hx. apply H. right. exact Hx.
Qed.

Lemma value_counts_nil_iff (s : list (option A)) :
  value_counts eq_dec s = [] <-> values s = [].
Proof.
  rewrite <- !length_zero_iff_nil.
  unfold value_counts, grouped. rewrite sort_by_length, length_map.
  destruct (values s) as [|a t]; cbn [unique List.length];
    split; intros H; try reflexivity; discriminate H.
Qed.

Lemma nlargest_nil_iff (n : nat) (l : list (A * nat)) :
  nlargest (S n) l = [] <-> l = [].
Proof.
  rewrite <- !length_zero_iff_nil, nlargest_length.
  destruct l; cbn [List.length]; lia.
Qed.

(** What the ten largest entries of [value_counts] always satisfy. *)
Lemma top_ten_facts (s : list (option A)) :
  List.length (nlargest 10 (value_counts eq_dec s)) <= 10
  /\ StronglySorted (fun x y => snd y <= snd x)
                    (nlargest 10 (value_counts eq_dec s))
  /\ NoDup (map fst (nlargest 10 (value_counts eq_dec s)))
  /\ (forall k,
         In (Some k) s ->
         ~ In k (map fst (nlargest 10 (value_counts eq_dec s))) ->
         List.length (nlargest 10 (value_counts eq_dec s)) = 10 /\
         forall k' c',
           In (k', c') (nlargest 10 (value_counts eq_dec s)) ->
           count_occ (option_dec eq_dec) s (Some k) <= c').
Proof.
  split; [rewrite nlargest_length; lia|].
  split; [apply nlargest_sorted|].
  split; [apply nlargest_keys_NoDup, value_counts_keys_NoDup|].
  intros k Hk Hout.
  set (c := count_occ (option_dec eq_dec) s (Some k)).
  assert (Hin : In (k, c) (value_counts eq_dec s)).
  { apply value_counts_entry. split; [reflexivity|].
    apply (count_occ_In (option_dec eq_dec)) in Hk. exact Hk. }
  assert (Hnot : ~ In (k, c) (nlargest 10 (value_counts eq_dec s))).
  { intros H. apply Hout. apply (in_map fst) in H. exact H. }
  split.
  - exact (nlargest_full _ _ _ Hin Hnot).
  - intros k' c' Hin'. exact (nlargest_top _ _ _ _ Hin Hnot Hin').
Qed.
End CountFacts.

Section BridgeFacts.
Variables L R : Type.
Variable key_l : L -> option Z.
Variable key_r : R -> Z.
Variable name : R -> option string.









End BridgeFacts.






(* ================================================================== *)
(** * The query executor *)
(* ================================================================== *)

(** C7: whatever the query and its parameters, [run_query] returns a data
    frame and never raises; when the execution of the query raises, it
    emits two error banners, the first naming the query, and returns the
    data frame without rows and without columns. *)
Theorem run_query_catches_errors (R : Type) (_conn : sql_engine R)
    (query : string) (params : option (list param)) (e : string) :
  _conn query params = Raise e ->
  run_query _conn query params
  = ([st_error ("Error al ejecutar la consulta: " ++ query);
      st_error ("Detalles del error: " ++ e)],
     Ok pd_DataFrame)
  /\ rows (@pd_DataFrame R) = []
  /\ columns (@pd_DataFrame R) = []
  /\ empty (@pd_DataFrame R) = true
  /\ (forall (conn' : sql_engine R) q p e',
         outcome (run_query conn' q p) <> Raise e').
Proof.
  intros H. unfold run_query, lift, try_except. rewrite H.
  repeat split.
  intros conn' q p e'. destruct (conn' q p); discriminate.
Qed.

Lemma run_query_missing_relation :
  pg_select ascii_platform read_as_is ["director_id"; "director_name"]
            (Raise "relation directors does not exist"
             : result (list director))
            query_directors None
  = Raise "Execution failed on sql 'SELECT director_id, director_name FROM directors;': relation directors does not exist"
  /\ run_query
       (pg_select ascii_platform read_as_is ["director_id"; "director_name"]
                  (Raise "relation directors does not exist"
                   : result (list director)))
       query_directors None
     = ([st_error "Error al ejecutar la consulta: SELECT director_id, director_name FROM directors;";
         st_error "Detalles del error: Execution failed on sql 'SELECT director_id, director_name FROM directors;': relation directors does not exist"],
        Ok pd_DataFrame).
Proof.
  split; [reflexivity|].
  exact (proj1 (run_query_catches_errors
                  (pg_select ascii_platform read_as_is
                     ["director_id"; "director_name"]
                     (Raise "relation directors does not exist"))
                  query_directors None eq_refl)).
Defined.

(* ================================================================== *)
(** * The Home view *)
(* ================================================================== *)

Lemma append_empty_r (s : string) : (s ++ "")%string = s.
Proof. induction s as [|c t IH]; simpl; [|rewrite IH]; reflexivity. Qed.

Lemma append_assoc (a b c : string) :
  ((a ++ b) ++ c)%string = (a ++ b ++ c)%string.
Proof. induction a as [|x t IH]; simpl; [|rewrite IH]; reflexivity. Qed.

(** The loop over [iterrows] appends one line per row. *)
Lemma message_lines (l : list type_count) (init : string) :
  fold_left (fun message row => (message ++ summary_line row)%string) l init
  = (init ++ fold_right String.append "" (map summary_line l))%string.
Proof.
  revert init. induction l as [|r t IH]; intros init; simpl.
  - symmetry. apply append_empty_r.
  - rewrite IH, append_assoc. reflexivity.
Qed.

Lemma count_by_type_entry (rs : list show) (y : Z) (t : option string)
    (c : nat) :
  In {| tc_type := t; tc_count := c |} (count_by_type rs y) <->
  c = count_occ option_string_dec (map type (filter (added_in y) rs)) t
  /\ 0 < c.
Proof.
  unfold count_by_type. rewrite in_map_iff. split.
  - intros (k & E & Hk). inversion E; subst. split; [reflexivity|].
    rewrite unique_in in Hk.
    apply (count_occ_In option_string_dec) in Hk. exact Hk.
  - intros [-> Hc]. exists t. split; [reflexivity|].
    apply unique_in. apply (count_occ_In option_string_dec). exact Hc.
Qed.

Lemma count_by_type_groups (rs : list show) (y : Z) :
  NoDup (map tc_type (count_by_type rs y)).
Proof.
  unfold count_by_type. rewrite map_map. cbn [tc_type]. rewrite map_id.
  apply unique_NoDup.
Qed.

(** One show added in year 0. *)
Definition year_zero_db : database :=
  {| shows := Ok [{| show_id := 1; type := Some "Movie"; title := Some "A";
                     director_id := None; release_year := None;
                     rating := None; duration := None; month_added := None;
                     year_added := Some 0%Z; description := None |}];
     directors := Ok []; show_cast_members := Ok []; cast_members := Ok [];
     show_countries := Ok []; countries := Ok [];
     show_genres := Ok []; genres := Ok [] |}.

(** The fact table of the specification's scenario. *)
Definition scenario_shows : list show :=
  [{| show_id := 1; type := Some "Movie"; title := Some "A";
      director_id := None; release_year := None; rating := None;
      duration := None; month_added := None; year_added := Some 2020%Z;
      description := None |};
   {| show_id := 2; type := Some "TV Show"; title := Some "B";
      director_id := None; release_year := None; rating := None;
      duration := None; month_added := None; year_added := Some 2020%Z;
      description := None |};
   {| show_id := 3; type := Some "Movie"; title := Some "C";
      director_id := None; release_year := None; rating := None;
      duration := None; month_added := None; year_added := Some 2019%Z;
      description := None |}].

Definition scenario_db : database :=
  {| shows := Ok scenario_shows;
     directors := Ok []; show_cast_members := Ok []; cast_members := Ok [];
     show_countries := Ok []; countries := Ok [];
     show_genres := Ok []; genres := Ok [] |}.

(** C9, as stated, fails for the year 0: with one show added in year 0
    the selector holds 0 (its bounds are both 0) and the grouped count for
    0 has a row, but confirming renders neither a summary line nor the
    "none found" message: the handler treats 0 as no year and asks for a
    valid one, without running the query. *)
Lemma home_confirm_year_zero :
  outcome (min_val ascii_platform year_zero_db) = Ok 0%Z /\
  outcome (max_val ascii_platform year_zero_db 2026) = Ok 0%Z /\
  (exists rs, shows year_zero_db = Ok rs /\
              count_by_type rs 0 = [{| tc_type := Some "Movie";
                                       tc_count := 1 |}]) /\
  home_confirm ascii_platform year_zero_db 0
  = ([st_warning "Por favor, ingresa un año válido."], Ok tt).
Proof.
  split; [reflexivity|]. split; [reflexivity|]. split; [|reflexivity].
  eexists. split; reflexivity.
Qed.

(** What the handler renders for a year other than 0, in terms of the
    rows the grouped count returns. *)
Lemma home_confirm_rows (pf : platform) (db : database) (year_input : Z)
    (rs : list show) :
  year_input <> 0%Z ->
  shows db = Ok rs ->
  home_confirm pf db year_input
  = (match group_order pf (count_by_type rs year_input) with
     | [] =>
         [st_info ("No se encontraron títulos añadidos en el año "
                   ++ str_Z year_input ++ ".")]
     | groups =>
         [st_success
            ("En el año " ++ str_Z year_input ++ " se añadieron:"
             ++ newline
             ++ fold_right String.append "" (map summary_line groups))]
     end,
     Ok tt).
Proof.
  intros Hy Hrs.
  assert (Hz : (year_input =? 0)%Z = false) by (apply Z.eqb_neq, Hy).
  unfold home_confirm, run_query, pg_count_by_type.
  rewrite Hz, Hrs.
  destruct (group_order pf (count_by_type rs year_input)) as [|g t] eqn:E.
  - cbn -[String.append str_Z fold_left]. reflexivity.
  - cbn -[String.append str_Z fold_left].
    rewrite message_lines, !append_assoc. reflexivity.
Qed.

(** C9, as amended: on confirmation of a year other than 0, the shows
    whose [year_added] is that year are counted by [type] (one group per
    distinct type, nulls forming a group); when there is a group the view
    renders one success message, a heading followed by one line per group,
    in the order in which the database returns the groups, that reads the
    count and the label: 'Movie' as 'Películas', 'TV Show' as 'Series de
    TV', any other text as it is.  When there is no group, or the query
    fails, the "none found" message is rendered.  On confirmation of the
    year 0 the handler runs no query and asks for a valid year.  For the
    fact table of the scenario, the year 2020 gives the two lines of
    Movie and TV Show, in one order or the other, and the year 2021 the
    "none found" message. *)
Theorem home_confirm_summary (pf : platform) (db : database) :
  (forall groups, Permutation (group_order pf groups) groups) ->
  (forall year_input,
      year_input <> 0%Z ->
      (forall rs,
          shows db = Ok rs ->
          let groups := group_order pf (count_by_type rs year_input) in
          (forall t c,
              In {| tc_type := t; tc_count := c |} groups
              <-> c = count_occ option_string_dec
                        (map type (filter (added_in year_input) rs)) t
                  /\ 0 < c)
          /\ NoDup (map tc_type groups)
          /\ (groups <> [] ->
              home_confirm pf db year_input
              = ([st_success
                    ("En el año " ++ str_Z year_input ++ " se añadieron:"
                     ++ newline
                     ++ fold_right String.append ""
                          (map (fun row =>
                                  ("- " ++ str_nat (tc_count row) ++ " "
                                   ++ tipo (tc_type row) ++ newline)%string)
                               groups))],
                 Ok tt))
          /\ (groups = [] ->
              home_confirm pf db year_input
              = ([st_info ("No se encontraron títulos añadidos en el año "
                           ++ str_Z year_input ++ ".")],
                 Ok tt)))
      /\ (forall e,
             shows db = Raise e ->
             home_confirm pf db year_input
             = ([st_error ("Error al ejecutar la consulta: "
                           ++ query_year_added);
                 st_error ("Detalles del error: "
                           ++ error_text pf query_year_added e);
                 st_info ("No se encontraron títulos añadidos en el año "
                          ++ str_Z year_input ++ ".")],
                Ok tt)))
  /\ home_confirm pf db 0
     = ([st_warning "Por favor, ingresa un año válido."], Ok tt)
  /\ (shows db = Ok scenario_shows ->
      (home_confirm pf db 2020
       = ([st_success
             ("En el año 2020 se añadieron:" ++ newline
              ++ "- 1 Películas" ++ newline
              ++ "- 1 Series de TV" ++ newline)],
          Ok tt)
       \/ home_confirm pf db 2020
          = ([st_success
                ("En el año 2020 se añadieron:" ++ newline
                 ++ "- 1 Series de TV" ++ newline
                 ++ "- 1 Películas" ++ newline)],
             Ok tt))
      /\ home_confirm pf db 2021
         = ([st_info "No se encontraron títulos añadidos en el año 2021."],
            Ok tt))
  /\ tipo (Some "Movie") = "Películas"
  /\ tipo (Some "TV Show") = "Series de TV"
  /\ (forall s, s <> "Movie" -> s <> "TV Show" -> tipo (Some s) = s).
Proof.
  intros Hperm.
  split; [|split; [|split; [|split; [|split]]]].
  - intros year_input Hy. split.
    + intros rs Hrs groups.
      pose proof (Hperm (count_by_type rs year_input)) as Hp.
      fold groups in Hp.
      split; [|split; [|split]].
      * intros t c. rewrite <- count_by_type_entry. split; intros H.
        -- exact (Permutation_in _ Hp H).
        -- exact (Permutation_in _ (Permutation_sym Hp) H).
      * apply (Permutation_NoDup
                 (Permutation_map tc_type (Permutation_sym Hp))).
        apply count_by_type_groups.
      * intros Hne. rewrite (home_confirm_rows pf db Hy Hrs).
        fold groups. destruct groups as [|g t]; [contradiction|].
        reflexivity.
      * intros He. rewrite (home_confirm_rows pf db Hy Hrs).
        fold groups. rewrite He. reflexivity.
    + intros e He. unfold home_confirm, run_query, pg_count_by_type.
      rewrite (proj2 (Z.eqb_neq _ _) Hy), He. reflexivity.
  - reflexivity.
  - intros Hrs. split.
    + assert (H20 : 2020%Z <> 0%Z) by discriminate.
      rewrite (home_confirm_rows pf db H20 Hrs).
      pose proof (Hperm (count_by_type scenario_shows 2020)) as Hp.
      change (count_by_type scenario_shows 2020)
        with [{| tc_type := Some "Movie"; tc_count := 1 |};
              {| tc_type := Some "TV Show"; tc_count := 1 |}] in *.
      apply Permutation_sym, Permutation_length_2_inv in Hp.
      destruct Hp as [-> | ->]; [left | right]; reflexivity.
    + assert (H21 : 2021%Z <> 0%Z) by discriminate.
      rewrite (home_confirm_rows pf db H21 Hrs).
      pose proof (Hperm (count_by_type scenario_shows 2021)) as Hp.
      change (count_by_type scenario_shows 2021) with (@nil type_count) in *.
      apply Permutation_sym, Permutation_nil in Hp. rewrite Hp.
      reflexivity.
  - reflexivity.
  - reflexivity.
  - intros s H1 H2. unfold tipo.
    destruct (String.eqb_spec s "Movie"); [contradiction|].
    destruct (String.eqb_spec s "TV Show"); [contradiction|].
    reflexivity.
Qed.

Lemma home_confirm_scenario :
  (forall groups, Permutation (group_order ascii_platform groups) groups)
  /\ group_order ascii_platform (count_by_type scenario_shows 2020)
     = [{| tc_type := Some "Movie"; tc_count := 1 |};
        {| tc_type := Some "TV Show"; tc_count := 1 |}]
  /\ home_confirm ascii_platform scenario_db 2020
     = ([st_success
           ("En el año 2020 se añadieron:" ++ newline
            ++ "- 1 Películas" ++ newline
            ++ "- 1 Series de TV" ++ newline)],
        Ok tt)
  /\ group_order ascii_platform (count_by_type scenario_shows 2021) = []
  /\ home_confirm ascii_platform scenario_db 2021
     = ([st_info "No se encontraron títulos añadidos en el año 2021."],
        Ok tt).
Proof.
  assert (Hp : forall groups,
             Permutation (group_order ascii_platform groups) groups)
    by (intros groups; apply Permutation_refl).
  assert (H20 : 2020%Z <> 0%Z) by discriminate.
  assert (H21 : 2021%Z <> 0%Z) by discriminate.
  destruct (proj1 (proj1 (@home_confirm_summary ascii_platform scenario_db Hp) 2020%Z H20)
                  scenario_shows eq_refl) as (_ & _ & Hsome & _).
  destruct (proj1 (proj1 (@home_confirm_summary ascii_platform scenario_db Hp) 2021%Z H21)
                  scenario_shows eq_refl) as (_ & _ & _ & Hnone).
  split; [exact Hp|]. split; [reflexivity|].
  split; [|split; [reflexivity|]].
  - apply Hsome. discriminate.
  - apply Hnone. reflexivity.
Defined.

(* ================================================================== *)
(** * The Search view *)
(* ================================================================== *)

Lemma char_eqb_eq (a b : utf8_char) : char_eqb a b = true <-> a = b.
Proof.
  unfold char_eqb. destruct (list_eq_dec ascii_dec a b); split;
    congruence.
Qed.

Lemma char_eqb_refl (a : utf8_char) : char_eqb a a = true.
Proof. apply char_eqb_eq. reflexivity. Qed.

Lemma like_percent_step (p s : list utf8_char) :
  like (percent :: p) s
  = like p s || match s with
                | [] => false
                | _ :: s' => like (percent :: p) s'
                end.
Proof. destruct s; reflexivity. Qed.

Lemma like_percent_only (s : list utf8_char) : like [percent] s = true.
Proof.
  induction s as [|x t IH]; [reflexivity|].
  rewrite like_percent_step, IH. apply orb_true_r.
Qed.

Lemma like_plain_char (c : utf8_char) (p s : list utf8_char) :
  like_meta c = false ->
  like (c :: p) s
  = match s with
    | [] => false
    | x :: s' => char_eqb c x && like p s'
    end.
Proof.
  unfold like_meta. intros H.
  apply orb_false_elim in H. destruct H as [H Hb].
  apply orb_false_elim in H. destruct H as [Hp Hu].
  cbn [like]. rewrite Hp, Hu, Hb. reflexivity.
Qed.

Lemma like_plain_prefix (t s : list utf8_char) :
  forallb (fun c => negb (like_meta c)) t = true ->
  like (t ++ [percent]) s = prefix_of t s.
Proof.
  revert s. induction t as [|c t IH]; intros s H.
  - apply like_percent_only.
  - cbn [forallb] in H. apply andb_prop in H. destruct H as [Hc Ht].
    apply negb_true_iff in Hc. cbn [app].
    rewrite like_plain_char by exact Hc.
    destruct s as [|x s']; [reflexivity|].
    cbn [prefix_of]. rewrite IH by exact Ht. reflexivity.
Qed.

(** A term without pattern characters, wrapped in [%], matches exactly
    the texts that contain it. *)
Lemma like_wrapped_plain (t s : list utf8_char) :
  forallb (fun c => negb (like_meta c)) t = true ->
  like (percent :: t ++ [percent]) s = substring_of t s.
Proof.
  intros H. induction s as [|x s' IH].
  - rewrite like_percent_step, like_plain_prefix by exact H.
    cbn [substring_of]. reflexivity.
  - rewrite like_percent_step, like_plain_prefix by exact H. rewrite IH.
    reflexivity.
Qed.

Lemma prefix_of_spec (t s : list utf8_char) :
  prefix_of t s = true <-> exists post, s = t ++ post.
Proof.
  revert s. induction t as [|a t IH]; intros s; cbn [prefix_of].
  - split; [intros _; exists s; reflexivity | reflexivity].
  - destruct s as [|b s'].
    + split; [discriminate | intros [post E]; discriminate E].
    + rewrite andb_true_iff, IH. split.
      * intros [E [post ->]]. apply char_eqb_eq in E. subst.
        exists post. reflexivity.
      * intros [post E]. inversion E; subst.
        split; [apply char_eqb_refl | exists post; reflexivity].
Qed.

(** [substring_of t s]: [t] occurs in [s] as a run of consecutive
    characters. *)
Lemma substring_of_spec (t s : list utf8_char) :
  substring_of t s = true <-> exists pre post, s = pre ++ t ++ post.
Proof.
  induction s as [|b s' IH]; cbn [substring_of];
    rewrite orb_true_iff, prefix_of_spec.
  - split.
    + intros [[post E]|H]; [|discriminate].
      exists [], post. exact E.
    + intros (pre & post & E). left. destruct pre as [|x pre].
      * exists post. exact E.
      * discriminate E.
  - rewrite IH. split.
    + intros [[post E]|(pre & post & E)].
      * exists [], post. exact E.
      * exists (b :: pre), post. rewrite E. reflexivity.
    + intros (pre & post & E). destruct pre as [|x pre].
      * left. exists post. exact E.
      * right. inversion E; subst. exists pre, post. reflexivity.
Qed.

Lemma list_ascii_of_append (a b : string) :
  list_ascii_of_string (a ++ b)
  = list_ascii_of_string a ++ list_ascii_of_string b.
Proof. induction a as [|c t IH]; simpl; [|rewrite IH]; reflexivity. Qed.

(** Text cut where a character starts is cut between two characters. *)
Lemma utf8_chars_app (a b : list ascii) :
  starts_char b = true ->
  utf8_chars (a ++ b) = utf8_chars a ++ utf8_chars b.
Proof.
  intros Hb. induction a as [|x a IH]; [reflexivity|].
  cbn [app utf8_chars]. rewrite IH. destruct a as [|y a'].
  - cbn [app starts_char utf8_chars]. rewrite Hb. reflexivity.
  - cbn [app starts_char].
    destruct (negb (continuation y)); [reflexivity|].
    destruct (utf8_chars (y :: a')) as [|g gs] eqn:E; [|reflexivity].
    exfalso. cbn [utf8_chars] in E.
    destruct (starts_char a'); [discriminate E|].
    destruct (utf8_chars a'); discriminate E.
Qed.

(** The characters of a wrapped term: [%], the term's, [%]. *)
Lemma chars_wrap_wildcards (t : string) :
  starts_char (list_ascii_of_string t) = true ->
  chars (wrap_wildcards t) = percent :: chars t ++ [percent].
Proof.
  intros Ht. unfold chars, wrap_wildcards.
  rewrite !list_ascii_of_append.
  change (list_ascii_of_string "%") with ["%"%char].
  rewrite (utf8_chars_app ["%"%char]).
  - rewrite utf8_chars_app by reflexivity. reflexivity.
  - destruct (list_ascii_of_string t); [reflexivity | exact Ht].
Qed.

Lemma plain_term_parts (pf : platform) (term : string) :
  plain_term pf term = true ->
  nul_free term = true
  /\ starts_char (list_ascii_of_string (pg_lower pf term)) = true
  /\ forallb (fun c => negb (like_meta c)) (chars (pg_lower pf term))
     = true.
Proof.
  unfold plain_term. rewrite !andb_true_iff. tauto.
Qed.

Lemma title_ilike_plain (pf : platform) (term : string) (r : show) :
  pg_lower pf (wrap_wildcards term) = wrap_wildcards (pg_lower pf term) ->
  plain_term pf term = true ->
  title_ilike pf (wrap_wildcards term) r = contains_ci pf term r.
Proof.
  intros Hfold Hplain.
  destruct (plain_term_parts pf term Hplain) as (_ & Hstart & Hmeta).
  unfold title_ilike, contains_ci, ilike.
  destruct (title r) as [t|]; [|reflexivity].
  rewrite Hfold, (chars_wrap_wildcards _ Hstart).
  apply like_wrapped_plain, Hmeta.
Qed.

(** The parameter of a term without NUL can be bound. *)
Lemma nul_free_wrap_wildcards (term : string) :
  nul_free term = true -> nul_free (wrap_wildcards term) = true.
Proof.
  unfold nul_free, wrap_wildcards. rewrite !list_ascii_of_append.
  rewrite !forallb_app. intros ->. reflexivity.
Qed.

(** Reading the result set changes neither the rows it has nor their
    titles. *)
Lemma read_search_columns (l : list show) :
  map show_id (read_search l) = map show_id l
  /\ map title (read_search l) = map title l.
Proof.
  unfold read_search. rewrite !map_map. cbn [show_id title].
  split; reflexivity.
Qed.

Definition search_columns : list string :=
  ["show_id"; "type"; "title"; "release_year"; "rating"; "description"].

(** C8, as stated, fails for a term with a pattern character: the term
    [_] is sent as the pattern [%_%], which every non-empty title matches.
    All three shows titled A, B and C are returned although no title
    contains an underscore. *)
Lemma search_underscore_matches_everything :
  filter (contains_ci ascii_platform "_") scenario_shows = [] /\
  widgets (search_view ascii_platform scenario_db "_")
  = [st_header "Buscar Shows por Título";
     st_subheader "Resultados para '_':";
     st_dataframe search_columns scenario_shows].
Proof. split; reflexivity. Qed.

(** C8, as amended: for every non-empty search term that is plain (no
    NUL byte and, once the database has lower-cased it, none of the
    pattern characters [%], [_] and backslash), the Search view shows
    exactly the rows of [shows] whose title contains the term, letter
    case ignored as the database ignores it (or the "no match" message
    when there is none).  The database is taken to lower-case the wrapped
    pattern by lower-casing the term between its two [%].  The statement
    text is the constant [query_search]; the term reaches the database
    only as the wildcard-wrapped parameter, so two connections that
    answer that one request alike give the same view, and quotes or
    semicolons in the term or in a title are matched as ordinary
    characters. *)
Theorem search_view_plain_term (pf : platform) (db : database)
    (search_term : string) (rs : list show) :
  search_term <> "" ->
  plain_term pf search_term = true ->
  pg_lower pf (wrap_wildcards search_term)
  = wrap_wildcards (pg_lower pf search_term) ->
  shows db = Ok rs ->
  let matching := filter (contains_ci pf search_term) rs in
  let found := read_search matching in
  (forall r,
      title_ilike pf (wrap_wildcards search_term) r
      = contains_ci pf search_term r)
  /\ run_query (pg_search pf (shows db)) query_search
               (Some [PStr (wrap_wildcards search_term)])
     = ([], Ok {| columns := search_columns; rows := found |})
  /\ search_view pf db search_term
     = (st_header "Buscar Shows por Título"
        :: match found with
           | [] => [st_info ("No se encontraron shows que coincidan con '"
                             ++ search_term ++ "'.")]
           | _ :: _ => [st_subheader ("Resultados para '" ++ search_term
                                      ++ "':");
                        st_dataframe search_columns found]
           end,
        Ok tt)
  /\ (forall r,
         In r matching <->
         In r rs /\
         exists t pre post,
           title r = Some t /\
           chars (pg_lower pf t)
           = pre ++ chars (pg_lower pf search_term) ++ post)
  /\ (map show_id found = map show_id matching
      /\ map title found = map title matching)
  /\ (forall conn conn' : sql_engine show,
         conn query_search (Some [PStr (wrap_wildcards search_term)])
         = conn' query_search (Some [PStr (wrap_wildcards search_term)]) ->
         search_view_on conn search_term = search_view_on conn' search_term).
Proof.
  intros Hne Hplain Hfold Hrs matching found.
  assert (Hrow : forall r,
             title_ilike pf (wrap_wildcards search_term) r
             = contains_ci pf search_term r).
  { intros r. apply title_ilike_plain; assumption. }
  assert (Hq : pg_search pf (shows db) query_search
                 (Some [PStr (wrap_wildcards search_term)])
               = Ok {| columns := search_columns; rows := found |}).
  { unfold pg_search. rewrite Hrs.
    rewrite (nul_free_wrap_wildcards _
               (proj1 (plain_term_parts pf search_term Hplain))).
    unfold found, matching, search_columns.
    do 3 f_equal. apply filter_ext. exact Hrow. }
  assert (Ht : negb (String.eqb search_term "") = true).
  { apply negb_true_iff, String.eqb_neq, Hne. }
  split; [exact Hrow|]. split; [|split; [|split; [|split]]].
  - unfold run_query, lift, try_except. rewrite Hq. reflexivity.
  - unfold search_view, search_view_on, run_query, lift.
    rewrite Hq. cbn -[String.append found]. rewrite Ht.
    destruct found as [|r t]; reflexivity.
  - intros r. unfold matching. rewrite filter_In. unfold contains_ci.
    split.
    + intros [Hin Hc]. split; [exact Hin|].
      destruct (title r) as [t|]; [|discriminate].
      apply substring_of_spec in Hc. destruct Hc as (pre & post & E).
      exists t, pre, post. split; [reflexivity | exact E].
    + intros [Hin (t & pre & post & Et & E)]. split; [exact Hin|].
      rewrite Et. apply substring_of_spec. exists pre, post. exact E.
  - apply read_search_columns.
  - intros conn conn' E. unfold search_view_on, run_query.
    rewrite E. reflexivity.
Qed.

(** Titles and a term with quotes and semicolons. *)
Definition quoted_titles_db : database :=
  {| shows :=
       Ok [{| show_id := 1; type := Some "Movie";
              title := Some "O'Brien; DROP TABLE shows; --";
              director_id := None; release_year := None; rating := None;
              duration := None; month_added := None; year_added := None;
              description := None |};
           {| show_id := 2; type := Some "Movie"; title := Some "Brienne";
              director_id := None; release_year := None; rating := None;
              duration := None; month_added := None; year_added := None;
              description := None |};
           {| show_id := 3; type := Some "TV Show"; title := None;
              director_id := None; release_year := None; rating := None;
              duration := None; month_added := None; year_added := None;
              description := None |}];
     directors := Ok []; show_cast_members := Ok []; cast_members := Ok [];
     show_countries := Ok []; countries := Ok [];
     show_genres := Ok []; genres := Ok [] |}.

Lemma search_quoted_term :
  "'BRIEN; drop" <> "" /\
  plain_term ascii_platform "'BRIEN; drop" = true /\
  pg_lower ascii_platform (wrap_wildcards "'BRIEN; drop")
  = wrap_wildcards (pg_lower ascii_platform "'BRIEN; drop") /\
  search_view ascii_platform quoted_titles_db "'BRIEN; drop"
  = ([st_header "Buscar Shows por Título";
      st_subheader "Resultados para ''BRIEN; drop':";
      st_dataframe search_columns
        [{| show_id := 1; type := Some "Movie";
            title := Some "O'Brien; DROP TABLE shows; --";
            director_id := None; release_year := None; rating := None;
            duration := None; month_added := None; year_added := None;
            description := None |}]],
     Ok tt).
Proof.
  assert (Hne : "'BRIEN; drop" <> "") by discriminate.
  split; [exact Hne|]. split; [reflexivity|]. split; [reflexivity|].
  exact (proj1 (proj2 (proj2 (@search_view_plain_term ascii_platform
                                quoted_titles_db "'BRIEN; drop" _ Hne
                                eq_refl eq_refl eq_refl)))).
Defined.

(* ================================================================== *)
(** * The Analytics view as a whole *)
(* ================================================================== *)

Lemma run_query_select {R : Type} (pf : platform) (read : list R -> list R)
    (cols : list string) (t : result (list R)) (query : string) :
  run_query (pg_select pf read cols t) query None
  = (diagnostics pf query t, Ok (frame read cols t)).
Proof. destruct t; reflexivity. Qed.

Lemma bind_ok {A B : Type} (w : list widget) (a : A) (f : A -> py B) :
  bind (w, Ok a) f = (w ++ widgets (f a), outcome (f a)).
Proof. unfold bind, widgets, outcome. destruct (f a). reflexivity. Qed.

Lemma bind_section {B : Type} (m : py unit) (f : unit -> py B) :
  outcome m = Ok tt ->
  bind m f = (widgets m ++ widgets (f tt), outcome (f tt)).
Proof.
  destruct m as [w r]. unfold outcome. cbn [snd]. intros ->.
  apply bind_ok.
Qed.

Ltac section_cases :=
  repeat match goal with
         | |- context [if ?b then _ else _] => destruct b
         | |- context [match ?l with [] => _ | _ :: _ => _ end] => destruct l
         end;
  do 2 eexists; split; reflexivity.

Lemma type_section_shape (df_shows : DataFrame show) :
  section_shape (type_section df_shows).
Proof. unfold section_shape, type_section. cbn. section_cases. Qed.

Lemma release_section_shape (df_shows : DataFrame show) :
  section_shape (release_section df_shows).
Proof. unfold section_shape, release_section. cbn. section_cases. Qed.

Lemma rating_section_shape (df_shows : DataFrame show) :
  section_shape (rating_section df_shows).
Proof. unfold section_shape, rating_section. cbn. section_cases. Qed.

Lemma month_section_shape (df_shows : DataFrame show) :
  section_shape (month_section df_shows).
Proof. unfold section_shape, month_section. cbn. section_cases. Qed.

(** A merge whose key column can be merged passes the check of the key
    dtypes wherever its section reaches it. *)
Lemma merge_ready_check {L R : Type} (key : string) (key_l : L -> option Z)
    (left : DataFrame L) (right : DataFrame R) :
  merge_ready key_l left right ->
  negb (empty left) && negb (empty right) = true ->
  merge_key_check key key_l (rows left) = Ok tt.
Proof.
  intros [H|[H|H]] Hg.
  - rewrite H in Hg. discriminate Hg.
  - rewrite H, andb_false_r in Hg. discriminate Hg.
  - unfold merge_key_check. rewrite H. reflexivity.
Qed.

Lemma director_section_shape (pf : platform) (df_shows : DataFrame show)
    (df_directors : DataFrame director) :
  merge_ready director_id df_shows df_directors ->
  section_shape (director_section pf df_shows df_directors).
Proof.
  intros H. unfold section_shape, director_section. cbn.
  destruct (negb (empty df_directors) && negb (empty df_shows)) eqn:G.
  - rewrite (merge_ready_check "director_id" H)
      by (rewrite andb_comm; exact G).
    cbn. section_cases.
  - do 2 eexists. split; reflexivity.
Qed.

Lemma cast_section_shape (df_show_cast : DataFrame show_cast_member)
    (df_cast_members : DataFrame cast_member) :
  merge_ready sc_cast_member_id df_show_cast df_cast_members ->
  section_shape (cast_section df_show_cast df_cast_members).
Proof.
  intros H. unfold section_shape, cast_section. cbn.
  destruct (negb (empty df_show_cast) && negb (empty df_cast_members))
    eqn:G.
  - rewrite (merge_ready_check "cast_member_id" H G).
    do 2 eexists. split; reflexivity.
  - do 2 eexists. split; reflexivity.
Qed.

Lemma country_section_shape (df_show_countries : DataFrame show_country)
    (df_countries : DataFrame country) :
  merge_ready sk_country_id df_show_countries df_countries ->
  section_shape (country_section df_show_countries df_countries).
Proof.
  intros H. unfold section_shape, country_section. cbn.
  destruct (negb (empty df_show_countries) && negb (empty df_countries))
    eqn:G.
  - rewrite (merge_ready_check "country_id" H G).
    do 2 eexists. split; reflexivity.
  - do 2 eexists. split; reflexivity.
Qed.

Lemma genre_section_shape (df_show_genres : DataFrame show_genre)
    (df_genres : DataFrame genre) :
  merge_ready sg_genre_id df_show_genres df_genres ->
  section_shape (genre_section df_show_genres df_genres).
Proof.
  intros H. unfold section_shape, genre_section. cbn.
  destruct (negb (empty df_show_genres) && negb (empty df_genres)) eqn:G.
  - rewrite (merge_ready_check "genre_id" H G).
    do 2 eexists. split; reflexivity.
  - do 2 eexists. split; reflexivity.
Qed.

Lemma section_shape_ok (m : py unit) : section_shape m -> outcome m = Ok tt.
Proof. intros (t & b & -> & _). reflexivity. Qed.

(** The sections behind the guard, as the view runs them. *)
Definition analytics_sections (pf : platform) (db : database) : py unit :=
  (if negb (empty (df_shows_of db)) then
     type_section (df_shows_of db) ;;;
     release_section (df_shows_of db) ;;;
     rating_section (df_shows_of db) ;;;
     month_section (df_shows_of db) ;;;
     emit (st_markdown "---") ;;;
     director_section pf (df_shows_of db) (df_directors_of db) ;;;
     cast_section (df_show_cast_of db) (df_cast_members_of db) ;;;
     country_section (df_show_countries_of db) (df_countries_of db) ;;;
     genre_section (df_show_genres_of db) (df_genres_of db) ;;;
     emit (st_markdown "---")
   else
     emit (st_warning "No se pudieron cargar datos de la tabla 'shows' para el análisis."))%py.

Lemma analytics_view_queries (pf : platform) (db : database) :
  analytics_view pf db
  = (st_header "Análisis Detallado de Shows"
     :: query_diagnostics pf db
     ++ widgets (analytics_sections pf db),
     outcome (analytics_sections pf db)).
Proof.
  unfold analytics_view, emit at 1.
  rewrite bind_ok, !run_query_select.
  repeat (rewrite bind_ok; cbn [widgets outcome fst snd]).
  unfold query_diagnostics, analytics_sections.
  rewrite <- !app_assoc. reflexivity.
Qed.

(** The sections when every merge can be made. *)
Lemma analytics_sections_ready (pf : platform) (db : database) :
  empty (df_shows_of db) = false ->
  merge_ready director_id (df_shows_of db) (df_directors_of db) ->
  merge_ready sc_cast_member_id (df_show_cast_of db)
              (df_cast_members_of db) ->
  merge_ready sk_country_id (df_show_countries_of db) (df_countries_of db) ->
  merge_ready sg_genre_id (df_show_genres_of db) (df_genres_of db) ->
  analytics_sections pf db
  = (widgets (type_section (df_shows_of db))
     ++ widgets (release_section (df_shows_of db))
     ++ widgets (rating_section (df_shows_of db))
     ++ widgets (month_section (df_shows_of db))
     ++ [st_markdown "---"]
     ++ widgets (director_section pf (df_shows_of db) (df_directors_of db))
     ++ widgets (cast_section (df_show_cast_of db) (df_cast_members_of db))
     ++ widgets (country_section (df_show_countries_of db)
                                 (df_countries_of db))
     ++ widgets (genre_section (df_show_genres_of db) (df_genres_of db))
     ++ [st_markdown "---"],
     Ok tt).
Proof.
  intros H Hd Hc Hk Hg. unfold analytics_sections. rewrite H. cbn [negb].
  rewrite (bind_section _ _ (section_shape_ok (type_section_shape _))).
  rewrite (bind_section _ _ (section_shape_ok (release_section_shape _))).
  rewrite (bind_section _ _ (section_shape_ok (rating_section_shape _))).
  rewrite (bind_section _ _ (section_shape_ok (month_section_shape _))).
  rewrite (bind_section (emit (st_markdown "---")) _ eq_refl).
  rewrite (bind_section _ _
             (section_shape_ok (director_section_shape pf Hd))).
  rewrite (bind_section _ _ (section_shape_ok (cast_section_shape Hc))).
  rewrite (bind_section _ _ (section_shape_ok (country_section_shape Hk))).
  rewrite (bind_section _ _ (section_shape_ok (genre_section_shape Hg))).
  reflexivity.
Qed.



(** Shows none of which has a director, next to a directors table with a
    row. *)
Definition no_director_ids_db : database :=
  {| shows := Ok [a_show 1 (Some "Movie") None (Some 2020%Z) None None];
     directors := Ok [{| d_director_id := 7;
                         director_name := Some "Ana Ruiz" |}];
     show_cast_members := Ok []; cast_members := Ok [];
     show_countries := Ok []; countries := Ok [];
     show_genres := Ok []; genres := Ok [] |}.

(** Where the key column of a merge holds no value, [pd.merge] raises and
    the view ends at that section: the sections after it are not
    rendered and the exception leaves the view. *)
Lemma analytics_view_without_director_ids :
  ~ merge_ready director_id (df_shows_of no_director_ids_db)
                (df_directors_of no_director_ids_db)
  /\ analytics_view ascii_platform no_director_ids_db
     = ([st_header "Análisis Detallado de Shows";
         st_subheader "Distribución por Tipo (Película / Serie de TV)";
         px_pie "Películas vs. Series de TV" [(LStr "Movie", 1)];
         st_subheader "Número de Shows por Año de Lanzamiento";
         px_bar "Shows por Año de Lanzamiento (Últimos años)"
                [(LInt 2020, 1)];
         st_subheader "Distribución de Ratings";
         st_warning "No hay datos de 'rating' para mostrar el gráfico.";
         st_subheader "Shows añadidos por Mes";
         st_warning "No hay datos de 'month_added' para mostrar el gráfico.";
         st_markdown "---";
         st_subheader "Top 10 Directores con Más Shows"],
        Raise "You are trying to merge on object and int64 columns for key 'director_id'. If you wish to proceed you should use pd.concat").
Proof.
  split; [|reflexivity].
  intros [H|[H|H]]; discriminate H.
Qed.





(* ================================================================== *)
(** * The script around the views *)
(* ================================================================== *)

(** ** Page elements *)

(** A value of a result table whose schema the script does not fix. *)
Inductive cell : Type :=
| CNull
| CInt (z : Z)
| CText (s : string).

(** What the script puts on the page: the widgets of the views, in the
    main area or in the sidebar, and the input controls. *)
Inductive element : Type :=
| in_main (w : widget)
| in_sidebar (w : widget)
| st_title (s : string)
| sidebar_image
| sidebar_selectbox (text : string) (options : list string)
| st_selectbox (text : string) (options : list string)
| st_number_input (text : string) (min_value max_value value : Z)
| st_button (text : string)
| st_text_input (text : string)
| st_table (cols : list string) (data : list (list cell))
| st_write (s : string).

(** How a stretch of the script ends: it goes on with a value, it is
    halted by [st.stop()], or an exception escapes it. *)
Inductive flow (A : Type) : Type :=
| Next (a : A)
| Stop
| Uncaught (e : string).

Arguments Next {A} a.
Arguments Stop {A}.
Arguments Uncaught {A} e.

Definition script (A : Type) : Type := (list element * flow A)%type.

Definition sc_ret {A : Type} (a : A) : script A := ([], Next a).

Definition sc_bind {A B : Type} (m : script A) (f : A -> script B)
    : script B :=
  match m with
  | (w, Next a) => let (w', r) := f a in (w ++ w', r)
  | (w, Stop) => (w, Stop)
  | (w, Uncaught e) => (w, Uncaught e)
  end.

Definition sc_emit (e : element) : script unit := ([e], Next tt).

(** [st.stop()] *)
Definition st_stop {A : Type} : script A := ([], Stop).

(** A view computation run in the main area. *)
Definition from_py {A : Type} (m : py A) : script A :=
  (map in_main (widgets m),
   match outcome m with
   | Ok a => Next a
   | Raise e => Uncaught e
   end).

Declare Scope sc_scope.
Delimit Scope sc_scope with sc.
Notation "x <- m ;; k" := (sc_bind m (fun x => k))
  (at level 61, m at next level, right associativity) : sc_scope.
Notation "m ;;; k" := (sc_bind m (fun _ => k))
  (at level 61, right associativity) : sc_scope.

Definition elements {A : Type} (m : script A) : list element := fst m.
Definition ending {A : Type} (m : script A) : flow A := snd m.

(** ** Connection *)

(** [os.environ.get(k, default)] *)
Definition environ_get (env : list (string * string)) (k default : string)
    : string :=
  match dict_get String.eqb env k with
  | Some v => v
  | None => default
  end.

Record conn_params : Type := {
  dbname : string;
  user : string;
  password : string;
  host : string;
  port : string
}.

Definition CONN_PARAMS (env : list (string * string)) : conn_params :=
  {| dbname := environ_get env "DB_NAME" "tu_basededatos";
     user := environ_get env "DB_USER" "tu_usuario";
     password := environ_get env "DB_PASSWORD" "tu_contraseña";
     host := environ_get env "DB_HOST" "tu_host";
     port := environ_get env "DB_PORT" "5432" |}.

(** What an open connection gives the views: the tables the typed queries
    read, and the answer to the table browser's [SELECT *]. *)
Record connection : Type := {
  conn_db : database;
  conn_tables : sql_engine (list cell)
}.

(** Outcome of [psycopg2.connect( **CONN_PARAMS )]. *)
Inductive connect_result : Type :=
| Connected (c : connection)
| OperationalError (e : string)
| OtherError (e : string).

(** The test of lines 35-38: the port is not part of it. *)
Definition placeholder_in_use (p : conn_params) : bool :=
  String.eqb (dbname p) "tu_basededatos"
  || String.eqb (user p) "tu_usuario"
  || String.eqb (password p) "tu_contraseña"
  || String.eqb (host p) "tu_host".

Definition default_params_warning : widget :=
  st_warning
    ("Advertencia: Usando parámetros de conexión por defecto. "
     ++ "Asegúrate de configurar las variables de entorno DB_NAME, DB_USER, DB_PASSWORD, DB_HOST y DB_PORT "
     ++ "para tu entorno de despliegue (ej. en Streamlit Cloud Secrets).").

Definition check_parameters_error : widget :=
  st_error
    ("Por favor, verifica los parámetros de conexión. Si estás desplegando, "
     ++ "asegúrate de que las variables de entorno (Secrets en Streamlit Cloud) "
     ++ "estén configuradas correctamente y que la base de datos sea accesible.").

(** [init_connection]; its memoisation for the life of the process is not
    modelled. *)
Definition init_connection (env : list (string * string))
    (connect : conn_params -> connect_result) : script connection :=
  ((if placeholder_in_use (CONN_PARAMS env)
    then sc_emit (in_main default_params_warning)
    else sc_ret tt) ;;;
   match connect (CONN_PARAMS env) with
   | Connected conn => sc_ret conn
   | OperationalError e =>
       sc_emit (in_main (st_error ("Error al conectar con PostgreSQL: " ++ e))) ;;;
       sc_emit (in_main check_parameters_error) ;;;
       st_stop
   | OtherError e =>
       sc_emit (in_main (st_error ("Un error inesperado ocurrió durante la conexión: " ++ e))) ;;;
       st_stop
   end)%sc.

(** ** Sidebar logo *)

(** Outcome of the [try] block that opens and shows the logo. *)
Inductive logo_result : Type :=
| LogoShown
| FileNotFoundError
| LogoException (e : string).

Definition sidebar_logo (logo : logo_result) : script unit :=
  match logo with
  | LogoShown => sc_emit sidebar_image
  | FileNotFoundError =>
      sc_emit (in_sidebar (st_warning "Logo 'NetflixLogo.png' no encontrado. Colócalo en el directorio del script."))
  | LogoException e =>
      sc_emit (in_sidebar (st_error ("Error al cargar el logo: " ++ e)))
  end.

(** ** Home view *)

Definition home_markdown : string := "
    Utiliza la barra lateral para navegar por las diferentes secciones:
    - **Ver Tablas Completas**: Visualiza el contenido de cada una de las tablas normalizadas.
    - **Análisis de Shows**: Explora estadísticas y gráficos sobre los títulos disponibles.
    - **Buscar Shows por Título**: Realiza búsquedas específicas en la tabla de shows.

    Esta aplicación se conecta a una base de datos PostgreSQL que contiene datos procesados
    de Netflix.
    ".

(** An integer the browser holds exactly: at most 2^53 - 1 in absolute
    value. *)
Definition js_safe (z : Z) : bool :=
  ((- (2 ^ 53 - 1) <=? z) && (z <=? 2 ^ 53 - 1))%Z.

(** [st.number_input(text, min_value, max_value, value, step=1)]:
    Streamlit rejects a default value outside the bounds, and bounds or a
    value that the browser does not hold exactly. *)
Definition number_input (text : string) (min_value max_value value : Z)
    : script unit :=
  if (value <? min_value)%Z then
    ([], Uncaught "StreamlitValueBelowMinError")
  else if (max_value <? value)%Z then
    ([], Uncaught "StreamlitValueAboveMaxError")
  else if negb (js_safe min_value && js_safe max_value && js_safe value) then
    ([], Uncaught "StreamlitJSNumberBoundsError")
  else sc_emit (st_number_input text min_value max_value value).

(** The Home view; [year_input] is the year the selector holds and
    [clicked] tells whether the button was pressed. *)
Definition home_view (pf : platform) (db : database)
    (current_year year_input : Z) (clicked : bool) : script unit :=
  (sc_emit (in_main (st_header "Bienvenido al Explorador de Datos de Netflix")) ;;;
   sc_emit (in_main (st_markdown home_markdown)) ;;;
   sc_emit (in_main (st_info "Asegúrate de que tu base de datos PostgreSQL esté en ejecución y accesible.")) ;;;
   sc_emit (in_main (st_markdown "---")) ;;;
   sc_emit (in_main (st_subheader "Consulta Rápida: Shows Añadidos por Año")) ;;;
   min_v <- from_py (min_val pf db) ;;
   max_v <- from_py (max_val pf db current_year) ;;
   number_input "Ingresa un año para ver cuántos títulos fueron añadidos:"
                min_v max_v max_v ;;;
   sc_emit (st_button "Consultar Shows Añadidos en el Año") ;;;
   if clicked then from_py (home_confirm pf db year_input) else sc_ret tt)%sc.

(** ** Table browser view *)

Definition table_names : list (string * string) :=
  [("Directores", "directors");
   ("Miembros del Elenco", "cast_members");
   ("Países", "countries");
   ("Géneros", "genres");
   ("Shows (Títulos)", "shows");
   ("Relación Show-Elenco", "show_cast_members");
   ("Relación Show-Países", "show_countries");
   ("Relación Show-Géneros", "show_genres")].

(** [f"SELECT * FROM {db_table_name};"] *)
Definition select_all (db_table_name : string) : string :=
  "SELECT * FROM " ++ db_table_name ++ ";".

Definition table_view (conn : sql_engine (list cell))
    (selected_table_display_name : string) : script unit :=
  (sc_emit (in_main (st_header "Visualización de Tablas Completas")) ;;;
   sc_emit (st_selectbox "Selecciona una tabla para mostrar:"
                         (map fst table_names)) ;;;
   if negb (String.eqb selected_table_display_name "") then
     match dict_get String.eqb table_names selected_table_display_name with
     | None => ([], Uncaught ("KeyError: " ++ selected_table_display_name))
     | Some db_table_name =>
         sc_emit (in_main (st_subheader ("Contenido de la tabla: "
                                         ++ db_table_name))) ;;;
         df_table <- from_py (run_query conn (select_all db_table_name)
                                        None) ;;
         if negb (empty df_table) then
           sc_emit (st_table (columns df_table) (rows df_table)) ;;;
           sc_emit (st_write ("Total de filas: "
                              ++ str_nat (List.length (rows df_table))))
         else
           sc_emit (in_main (st_warning
                      ("No se encontraron datos o la tabla '"
                       ++ db_table_name ++ "' está vacía.")))
     end
   else sc_ret tt)%sc.

(** ** Search view with its text box *)

(** What the Search view renders below the text box. *)
Definition search_results (conn : sql_engine show) (search_term : string)
    : py unit :=
  (if negb (String.eqb search_term "") then
     try_except
       (df_search_results <- run_query conn query_search
                               (Some [PStr (wrap_wildcards search_term)]) ;;
        if negb (empty df_search_results) then
          emit (st_subheader ("Resultados para '" ++ search_term ++ "':")) ;;;
          emit (st_dataframe (columns df_search_results)
                             (rows df_search_results))
        else
          emit (st_info ("No se encontraron shows que coincidan con '"
                         ++ search_term ++ "'.")))
       (fun e => emit (st_error ("Error durante la búsqueda: " ++ e)))
   else
     ret tt)%py.

Definition search_page (pf : platform) (db : database)
    (search_term : string) : script unit :=
  (sc_emit (in_main (st_header "Buscar Shows por Título")) ;;;
   sc_emit (st_text_input "Ingresa parte del título a buscar:") ;;;
   from_py (search_results (pg_search pf (shows db)) search_term))%sc.

(** ** The whole script *)

(** What the user has entered in the controls of the page. *)
Record ui_state : Type := {
  ui_option : string;
  ui_year_input : Z;
  ui_button : bool;
  ui_selected_table : string;
  ui_search_term : string
}.

Definition view_options : list string :=
  ["Inicio"; "Ver Tablas Completas"; "Análisis de Shows";
   "Buscar Shows por Título"].

(** The view chosen in the sidebar; any other value renders nothing. *)
Definition route (pf : platform) (conn : connection) (current_year : Z)
    (ui : ui_state) : script unit :=
  if String.eqb (ui_option ui) "Inicio" then
    home_view pf (conn_db conn) current_year (ui_year_input ui)
              (ui_button ui)
  else if String.eqb (ui_option ui) "Ver Tablas Completas" then
    table_view (conn_tables conn) (ui_selected_table ui)
  else if String.eqb (ui_option ui) "Análisis de Shows" then
    from_py (analytics_view pf (conn_db conn))
  else if String.eqb (ui_option ui) "Buscar Shows por Título" then
    search_page pf (conn_db conn) (ui_search_term ui)
  else sc_ret tt.

(** One run of the script, top to bottom. *)
Definition render_pass (pf : platform) (env : list (string * string))
    (connect : conn_params -> connect_result) (logo : logo_result)
    (current_year : Z) (ui : ui_state) : script unit :=
  (sc_emit (st_title "🎬 Explorador de Datos de Netflix") ;;;
   conn <- init_connection env connect ;;
   sc_emit (in_sidebar (st_header "Navegación")) ;;;
   sidebar_logo logo ;;;
   sc_emit (sidebar_selectbox "Selecciona una vista:" view_options) ;;;
   route pf conn current_year ui ;;;
   sc_emit (in_sidebar (st_markdown "---")) ;;;
   sc_emit (in_sidebar (st_info "Aplicación creada con Streamlit y PostgreSQL.")))%sc.


(* ================================================================== *)
(** * Further properties of the aggregations *)
(* ================================================================== *)

(** The charts of the cast, country and genre sections show at most ten
    names, no name twice, largest count first; a name of the join that is
    not shown counts no more than any name shown, and can only be missing
    when ten names are shown. *)
Theorem bridge_charts_top_ten :
  (forall (df_show_cast : list show_cast_member)
          (df_cast_members : list cast_member),
      List.length (cast_counts df_show_cast df_cast_members) <= 10
      /\ StronglySorted (fun x y => snd y <= snd x)
                        (cast_counts df_show_cast df_cast_members)
      /\ NoDup (map fst (cast_counts df_show_cast df_cast_members))
      /\ (forall n,
             In (Some n)
                (map (fun row => cast_member_name (snd row))
                     (df_full_cast_info df_show_cast df_cast_members)) ->
             ~ In n (map fst (cast_counts df_show_cast df_cast_members)) ->
             List.length (cast_counts df_show_cast df_cast_members) = 10 /\
             forall n' c',
               In (n', c') (cast_counts df_show_cast df_cast_members) ->
               count_occ option_string_dec
                 (map (fun row => cast_member_name (snd row))
                      (df_full_cast_info df_show_cast df_cast_members))
                 (Some n) <= c'))
  /\ (forall (df_show_countries : list show_country)
             (df_countries : list country),
      List.length (country_counts df_show_countries df_countries) <= 10
      /\ StronglySorted (fun x y => snd y <= snd x)
                        (country_counts df_show_countries df_countries)
      /\ NoDup (map fst (country_counts df_show_countries df_countries))
      /\ (forall n,
             In (Some n)
                (map (fun row => country_name (snd row))
                     (df_full_country_info df_show_countries
                                           df_countries)) ->
             ~ In n (map fst (country_counts df_show_countries
                                             df_countries)) ->
             List.length (country_counts df_show_countries df_countries)
             = 10 /\
             forall n' c',
               In (n', c') (country_counts df_show_countries
                                           df_countries) ->
               count_occ option_string_dec
                 (map (fun row => country_name (snd row))
                      (df_full_country_info df_show_countries
                                            df_countries))
                 (Some n) <= c'))
  /\ (forall (df_show_genres : list show_genre) (df_genres : list genre),
      List.length (genre_counts df_show_genres df_genres) <= 10
      /\ StronglySorted (fun x y => snd y <= snd x)
                        (genre_counts df_show_genres df_genres)
      /\ NoDup (map fst (genre_counts df_show_genres df_genres))
      /\ (forall n,
             In (Some n)
                (map (fun row => genre_name (snd row))
                     (df_full_genre_info df_show_genres df_genres)) ->
             ~ In n (map fst (genre_counts df_show_genres df_genres)) ->
             List.length (genre_counts df_show_genres df_genres) = 10 /\
             forall n' c',
               In (n', c') (genre_counts df_show_genres df_genres) ->
               count_occ option_string_dec
                 (map (fun row => genre_name (snd row))
                      (df_full_genre_info df_show_genres df_genres))
                 (Some n) <= c')).
Proof.
  split; [|split]; intros bridge dims; apply top_ten_facts.
Qed.

(** Twelve cast members; member [i] appears on [12 - i] bridge rows. *)
Definition twelve_cast_members : list cast_member :=
  map (fun i => {| cast_member_id := Z.of_nat i;
                   cast_member_name := Some ("M" ++ str_nat i)%string |})
      (seq 0 12).

Definition twelve_cast_rows : list show_cast_member :=
  flat_map (fun i => repeat {| sc_show_id := 1;
                               sc_cast_member_id := Some (Z.of_nat i) |}
                            (12 - i))
           (seq 0 12).

Lemma cast_counts_twelve_members :
  cast_counts twelve_cast_rows twelve_cast_members
  = map (fun i => (("M" ++ str_nat i)%string, 12 - i)) (seq 0 10)
  /\ In (Some "M11")
        (map (fun row => cast_member_name (snd row))
             (df_full_cast_info twelve_cast_rows twelve_cast_members))
  /\ List.length (cast_counts twelve_cast_rows twelve_cast_members) = 10.
Proof.
  assert (Hin : In (Some "M11")
             (map (fun row => cast_member_name (snd row))
                  (df_full_cast_info twelve_cast_rows twelve_cast_members))).
  { vm_compute. repeat (first [left; reflexivity | right]). }
  split; [reflexivity|]. split; [exact Hin|].
  destruct (proj1 bridge_charts_top_ten twelve_cast_rows
                  twelve_cast_members) as (_ & _ & _ & Htop).
  apply (Htop "M11" Hin). vm_compute.
  intros H. repeat (destruct H as [H|H]; [discriminate H|]). exact H.
Defined.

Lemma top_names_nil_iff (names : list (option string)) :
  nlargest 10 (value_counts string_dec names) = [] <->
  forall x, In x names -> x = None.
Proof.
  rewrite nlargest_nil_iff, value_counts_nil_iff. apply values_nil_iff.
Qed.

(** Once the bridge frame and the dimension frame both have rows, the
    cast, country and genre sections have no placeholder left: when the id
    column of the bridge holds a value they draw their chart, and when it
    holds none the merge raises and the section ends at its subheader.
    The chart has no bar exactly when no row of the inner join carries a
    name, as when no bridge id matches a dimension id. *)
Theorem bridge_sections_chart_without_bars :
  (forall (df_show_cast : DataFrame show_cast_member)
          (df_cast_members : DataFrame cast_member),
      empty df_show_cast = false -> empty df_cast_members = false ->
      (all_null sc_cast_member_id (rows df_show_cast) = false ->
       cast_section df_show_cast df_cast_members
       = ([st_subheader "Top 10 Miembros del Elenco con Más Apariciones";
           px_bar "Top 10 Miembros del Elenco"
                  (text_chart (cast_counts (rows df_show_cast)
                                 (rows df_cast_members)))],
          Ok tt))
      /\ (all_null sc_cast_member_id (rows df_show_cast) = true ->
          widgets (cast_section df_show_cast df_cast_members)
          = [st_subheader "Top 10 Miembros del Elenco con Más Apariciones"]
          /\ exists e, outcome (cast_section df_show_cast df_cast_members) = Raise e)
      /\ (cast_counts (rows df_show_cast) (rows df_cast_members) = [] <->
          forall row,
            In row (df_full_cast_info (rows df_show_cast) (rows df_cast_members)) ->
            cast_member_name (snd row) = None))
  /\
  (forall (df_show_countries : DataFrame show_country)
          (df_countries : DataFrame country),
      empty df_show_countries = false -> empty df_countries = false ->
      (all_null sk_country_id (rows df_show_countries) = false ->
       country_section df_show_countries df_countries
       = ([st_subheader "Top 10 Países Productores de Contenido";
           px_bar "Top 10 Países Productores"
                  (text_chart (country_counts (rows df_show_countries)
                                 (rows df_countries)))],
          Ok tt))
      /\ (all_null sk_country_id (rows df_show_countries) = true ->
          widgets (country_section df_show_countries df_countries)
          = [st_subheader "Top 10 Países Productores de Contenido"]
          /\ exists e, outcome (country_section df_show_countries df_countries) = Raise e)
      /\ (country_counts (rows df_show_countries) (rows df_countries) = [] <->
          forall row,
            In row (df_full_country_info (rows df_show_countries) (rows df_countries)) ->
            country_name (snd row) = None))
  /\
  (forall (df_show_genres : DataFrame show_genre)
          (df_genres : DataFrame genre),
      empty df_show_genres = false -> empty df_genres = false ->
      (all_null sg_genre_id (rows df_show_genres) = false ->
       genre_section df_show_genres df_genres
       = ([st_subheader "Top 10 Géneros Más Comunes";
           px_bar "Top 10 Géneros"
                  (text_chart (genre_counts (rows df_show_genres)
                                 (rows df_genres)))],
          Ok tt))
      /\ (all_null sg_genre_id (rows df_show_genres) = true ->
          widgets (genre_section df_show_genres df_genres)
          = [st_subheader "Top 10 Géneros Más Comunes"]
          /\ exists e, outcome (genre_section df_show_genres df_genres) = Raise e)
      /\ (genre_counts (rows df_show_genres) (rows df_genres) = [] <->
          forall row,
            In row (df_full_genre_info (rows df_show_genres) (rows df_genres)) ->
            genre_name (snd row) = None)).
Proof.
  split; [|split]; intros bridge dims Hb Hd.
  - split; [|split].
    + intros Hk. unfold cast_section, merge_key_check. cbn.
      rewrite Hb, Hd, Hk. reflexivity.
    + intros Hk. unfold cast_section, merge_key_check. cbn.
      rewrite Hb, Hd, Hk. split; [reflexivity | eexists; reflexivity].
    + unfold cast_counts. rewrite top_names_nil_iff. split.
      * intros H row Hrow.
        apply H, (in_map (fun r => cast_member_name (snd r))), Hrow.
      * intros H x Hx. apply in_map_iff in Hx.
        destruct Hx as (row & <- & Hrow). apply H, Hrow.
  - split; [|split].
    + intros Hk. unfold country_section, merge_key_check. cbn.
      rewrite Hb, Hd, Hk. reflexivity.
    + intros Hk. unfold country_section, merge_key_check. cbn.
      rewrite Hb, Hd, Hk. split; [reflexivity | eexists; reflexivity].
    + unfold country_counts. rewrite top_names_nil_iff. split.
      * intros H row Hrow.
        apply H, (in_map (fun r => country_name (snd r))), Hrow.
      * intros H x Hx. apply in_map_iff in Hx.
        destruct Hx as (row & <- & Hrow). apply H, Hrow.
  - split; [|split].
    + intros Hk. unfold genre_section, merge_key_check. cbn.
      rewrite Hb, Hd, Hk. reflexivity.
    + intros Hk. unfold genre_section, merge_key_check. cbn.
      rewrite Hb, Hd, Hk. split; [reflexivity | eexists; reflexivity].
    + unfold genre_counts. rewrite top_names_nil_iff. split.
      * intros H row Hrow.
        apply H, (in_map (fun r => genre_name (snd r))), Hrow.
      * intros H x Hx. apply in_map_iff in Hx.
        destruct Hx as (row & <- & Hrow). apply H, Hrow.
Qed.

(** A genre bridge whose id is in no row of the genre table. *)
Definition stray_genre_bridge : DataFrame show_genre :=
  {| columns := ["show_id"; "genre_id"];
     rows := [{| sg_show_id := 1; sg_genre_id := Some 7%Z |}] |}.

Definition one_genre : DataFrame genre :=
  {| columns := ["genre_id"; "genre_name"];
     rows := [{| genre_id := 8; genre_name := Some "Drama" |}] |}.

Lemma genre_section_stray_bridge :
  empty stray_genre_bridge = false /\
  empty one_genre = false /\
  all_null sg_genre_id (rows stray_genre_bridge) = false /\
  genre_section stray_genre_bridge one_genre
  = ([st_subheader "Top 10 Géneros Más Comunes";
      px_bar "Top 10 Géneros" []],
     Ok tt).
Proof.
  split; [reflexivity|]. split; [reflexivity|]. split; [reflexivity|].
  exact (proj1 (proj2 (proj2 bridge_sections_chart_without_bars)
                  stray_genre_bridge one_genre eq_refl eq_refl) eq_refl).
Defined.

(** The type section always draws its pie, with the counts of
    [type_counts], and has no placeholder; the pie has no slice exactly
    when every row has a null type. *)
Theorem type_pie_without_slices (df_shows : DataFrame show) :
  type_section df_shows
  = ([st_subheader "Distribución por Tipo (Película / Serie de TV)";
      px_pie "Películas vs. Series de TV"
             (text_chart (type_counts (rows df_shows)))],
     Ok tt)
  /\ (text_chart (type_counts (rows df_shows)) = [] <->
      forall r, In r (rows df_shows) -> type r = None).
Proof.
  split; [reflexivity|].
  assert (H : text_chart (type_counts (rows df_shows)) = [] <->
              type_counts (rows df_shows) = []).
  { unfold text_chart.
    destruct (type_counts (rows df_shows)); split; intros E;
      try reflexivity; discriminate E. }
  rewrite H. unfold type_counts.
  rewrite value_counts_nil_iff, values_nil_iff. split.
  - intros H' r Hr. apply H', (in_map type), Hr.
  - intros H' x Hx. apply in_map_iff in Hx.
    destruct Hx as (r & <- & Hr). apply H', Hr.
Qed.

(** ** Directors: when the placeholder is shown *)

Definition unknown_director (pf : platform) (row : show * director) : Prop :=
  exists n, director_name (snd row) = Some n /\ str_lower pf n = "unknown".

Lemma not_unknown_false (pf : platform) (row : show * director) :
  not_unknown pf row = false <-> unknown_director pf row.
Proof.
  unfold not_unknown, unknown_director.
  destruct (director_name (snd row)) as [n|].
  - rewrite negb_false_iff, String.eqb_eq. split.
    + intros H. exists n. split; [reflexivity | exact H].
    + intros (n' & E & H). inversion E; subst. exact H.
  - split; [discriminate | intros (n & E & _); discriminate E].
Qed.

(** With rows in both [shows] and [directors] and a director id on some
    show, the directors section shows its "after filtering" placeholder
    exactly when every row of the inner join names a director that
    lower-cases to "unknown" (no joined row at all included); otherwise
    it draws the chart. *)
Theorem director_placeholder_iff_all_unknown (pf : platform)
    (df_shows : DataFrame show) (df_directors : DataFrame director) :
  empty df_directors = false ->
  empty df_shows = false ->
  all_null director_id (rows df_shows) = false ->
  (director_section pf df_shows df_directors
   = ([st_subheader "Top 10 Directores con Más Shows";
       st_warning "No hay datos de directores (después de filtrar 'Unknown') para mostrar."],
      Ok tt)
   <->
   forall row,
     In row (df_shows_with_directors (rows df_shows) (rows df_directors)) ->
     unknown_director pf row)
  /\ (director_section pf df_shows df_directors
      = ([st_subheader "Top 10 Directores con Más Shows";
          st_warning "No hay datos de directores (después de filtrar 'Unknown') para mostrar."],
         Ok tt)
      \/ director_section pf df_shows df_directors
         = ([st_subheader "Top 10 Directores con Más Shows";
             px_bar "Top 10 Directores (excluyendo 'Unknown')"
                    (text_chart (director_counts pf (rows df_shows)
                                                 (rows df_directors)))],
            Ok tt)).
Proof.
  intros Hd Hs Hk.
  assert (Hall : df_filtered_directors pf (rows df_shows) (rows df_directors)
                 = [] <->
                 forall row,
                   In row (df_shows_with_directors (rows df_shows)
                                                   (rows df_directors)) ->
                   unknown_director pf row).
  { unfold df_filtered_directors. split.
    - intros H row Hrow. apply not_unknown_false.
      destruct (not_unknown pf row) eqn:E; [|reflexivity].
      assert (Hin : In row (filter (not_unknown pf)
                 (df_shows_with_directors (rows df_shows)
                                          (rows df_directors))))
        by (apply filter_In; split; assumption).
      rewrite H in Hin. destruct Hin.
    - intros H. apply filter_none. intros row Hrow.
      apply not_unknown_false, H, Hrow. }
  unfold director_section, merge_key_check. cbn.
  rewrite Hd, Hs, Hk. cbn [negb andb lift bind app].
  destruct (df_filtered_directors pf (rows df_shows) (rows df_directors))
    as [|r t] eqn:E; cbn.
  - split; [|left; reflexivity].
    split; [intros _; apply Hall; reflexivity | reflexivity].
  - split; [|right; reflexivity].
    split; [discriminate|].
    intros H. apply Hall in H. discriminate H.
Qed.

Definition only_unknown_directors : DataFrame director :=
  {| columns := ["director_id"; "director_name"];
     rows := [{| d_director_id := 1; director_name := Some "Unknown" |};
              {| d_director_id := 2; director_name := Some "UNKNOWN" |}] |}.

Lemma director_section_only_unknown :
  empty only_unknown_directors = false /\
  empty mixed_case_shows = false /\
  all_null director_id (rows mixed_case_shows) = false /\
  director_section ascii_platform mixed_case_shows only_unknown_directors
  = ([st_subheader "Top 10 Directores con Más Shows";
      st_warning "No hay datos de directores (después de filtrar 'Unknown') para mostrar."],
     Ok tt).
Proof.
  split; [reflexivity|]. split; [reflexivity|]. split; [reflexivity|].
  apply (proj1 (director_placeholder_iff_all_unknown ascii_platform
                  mixed_case_shows only_unknown_directors
                  eq_refl eq_refl eq_refl)).
  intros row Hrow. vm_compute in Hrow.
  repeat (destruct Hrow as [<-|Hrow];
          [eexists; split; reflexivity|]).
  destruct Hrow.
Defined.

(** ** Totals *)

Section CoverFacts.
Variable A : Type.
Variable eq_dec : forall x y : A, {x = y} + {x <> y}.

Lemma sum_counts_cons (x : A) (t u : list A) :
  list_sum (map (count_occ eq_dec (x :: t)) u)
  = count_occ eq_dec u x + list_sum (map (count_occ eq_dec t) u).
Proof.
  induction u as [|k u IH]; [reflexivity|].
  cbn [map list_sum fold_right]. fold (list_sum (map (count_occ eq_dec (x :: t)) u)).
  fold (list_sum (map (count_occ eq_dec t) u)).
  rewrite IH. cbn [count_occ].
  destruct (eq_dec x k) as [E|Hne]; destruct (eq_dec k x) as [E'|Hne'];
    try congruence; lia.
Qed.

(** Counting the occurrences of every key of a duplicate-free list that
    covers the values counts every value once. *)
Lemma sum_counts_cover (l u : list A) :
  NoDup u -> (forall x, In x l -> In x u) ->
  list_sum (map (count_occ eq_dec l) u) = List.length l.
Proof.
  intros Hu. induction l as [|x t IH]; intros Hc.
  - clear. induction u as [|k u IHu]; [reflexivity|].
    cbn in *. exact IHu.
  - rewrite sum_counts_cons, IH by (intros y Hy; apply Hc; right; exact Hy).
    rewrite (proj1 (NoDup_count_occ' eq_dec u) Hu x (Hc x (or_introl eq_refl))).
    reflexivity.
Qed.

Lemma values_length_notna (s : list (option A)) :
  List.length (values s) = List.length (filter (@notna A) s).
Proof.
  induction s as [|[a|] t IH]; cbn; [reflexivity | rewrite IH; reflexivity | exact IH].
Qed.
End CoverFacts.

Lemma dict_get_in {V : Type} (d : list (Z * V)) (k : Z) (v : V) :
  dict_get Z.eqb d k = Some v -> In (k, v) d.
Proof.
  induction d as [|[k' v'] t IH]; cbn; [discriminate|].
  destruct (Z.eqb_spec k k') as [->|Hne].
  - intros E. inversion E; subst. left. reflexivity.
  - intros E. right. apply IH, E.
Qed.

(** The months the chart has a bar for. *)
Definition in_calendar (r : show) : bool :=
  match month_added r with
  | Some m => ((1 <=? m) && (m <=? 12))%Z
  | None => false
  end.

Lemma month_added_name_notna (r : show) :
  notna (month_added_name r) = in_calendar r.
Proof.
  unfold month_added_name, in_calendar.
  destruct (month_added r) as [m|]; [|reflexivity].
  destruct ((1 <=? m) && (m <=? 12))%Z eqn:B.
  - apply andb_prop in B. rewrite !Z.leb_le in B.
    assert (H : (m = 1 \/ m = 2 \/ m = 3 \/ m = 4 \/ m = 5 \/ m = 6 \/
                 m = 7 \/ m = 8 \/ m = 9 \/ m = 10 \/ m = 11 \/ m = 12)%Z)
      by lia.
    repeat (destruct H as [->|H]; [reflexivity|]). subst. reflexivity.
  - destruct (dict_get Z.eqb month_map m) as [n|] eqn:E; [|reflexivity].
    apply dict_get_in in E. apply (in_map fst) in E. cbn in E.
    apply andb_false_iff in B. rewrite !Z.leb_gt in B.
    exfalso. lia.
Qed.

Lemma month_added_name_known (r : show) (n : string) :
  month_added_name r = Some n -> In n (map snd month_map).
Proof.
  unfold month_added_name. destruct (month_added r) as [m|]; [|discriminate].
  intros E. apply dict_get_in in E. apply (in_map snd) in E. exact E.
Qed.

(** The bars of the month chart add up to the number of rows whose
    [month_added] is a calendar month, 1 to 12: a row with a null month
    or with a month outside 1..12 is counted in no bar. *)
Theorem month_chart_total (df_shows_month : list show) :
  list_sum (map snd (month_added_counts df_shows_month))
  = List.length (filter in_calendar df_shows_month).
Proof.
  unfold month_added_counts. rewrite merge_left_value_counts.
  transitivity
    (list_sum (map (count_occ string_dec
                      (values (map month_added_name df_shows_month)))
                   (map snd month_map))).
  - generalize (count_occ string_dec
                  (values (map month_added_name df_shows_month))).
    intros f. reflexivity.
  - rewrite sum_counts_cover.
    + rewrite values_length_notna.
      induction df_shows_month as [|r t IH]; [reflexivity|].
      cbn [map filter]. rewrite <- month_added_name_notna.
      destruct (notna (month_added_name r)); cbn [List.length];
        rewrite IH; reflexivity.
    + repeat constructor; cbn; intuition discriminate.
    + intros n Hn. apply in_values, in_map_iff in Hn.
      destruct Hn as (r & E & _). exact (month_added_name_known r E).
Qed.

(** The counts of the Home view's grouped query add up to the number of
    shows added in the year, and no group is empty: there are at most as
    many summary lines as shows added that year. *)
Theorem count_by_type_total (rs : list show) (y : Z) :
  list_sum (map tc_count (count_by_type rs y))
  = List.length (filter (added_in y) rs)
  /\ List.length (count_by_type rs y)
     <= List.length (filter (added_in y) rs)
  /\ (count_by_type rs y = [] <-> filter (added_in y) rs = []).
Proof.
  assert (Hsum : list_sum (map tc_count (count_by_type rs y))
                 = List.length (filter (added_in y) rs)).
  { unfold count_by_type. rewrite map_map. cbn [tc_count].
    rewrite sum_counts_unique. apply length_map. }
  assert (Hlen : List.length (count_by_type rs y)
                 <= List.length (filter (added_in y) rs)).
  { unfold count_by_type. rewrite length_map, unique_length.
    rewrite <- (length_map type (filter (added_in y) rs)).
    apply NoDup_incl_length; [apply NoDup_nodup|].
    intros x Hx. apply nodup_In in Hx. exact Hx. }
  split; [exact Hsum|]. split; [exact Hlen|].
  split.
  - intros H. rewrite H in Hsum. cbn in Hsum.
    apply length_zero_iff_nil. symmetry. exact Hsum.
  - intros H. rewrite H in Hlen. cbn in Hlen.
    apply length_zero_iff_nil. lia.
Qed.

Lemma length_notna_column {R B : Type} (col : R -> option B) (l : list R) :
  List.length (filter (@notna B) (map col l))
  = List.length (filter (fun r => notna (col r)) l).
Proof.
  induction l as [|r t IH]; [reflexivity|].
  cbn [map filter]. destruct (notna (col r)); cbn [List.length];
    rewrite IH; reflexivity.
Qed.

Lemma list_sum_app_split (l1 l2 : list nat) :
  list_sum (l1 ++ l2) = list_sum l1 + list_sum l2.
Proof. apply list_sum_app. Qed.

(** The bars of the releases chart never count more rows than have a
    release year, and count all of them when at most thirty distinct
    years are present; beyond thirty, the rows of the earlier years are
    what is missing. *)
Theorem release_chart_total (df_shows : DataFrame show) :
  list_sum (map snd (latest_years_count (rows (dropna release_year df_shows))))
  <= List.length (rows (dropna release_year df_shows))
  /\ (List.length
        (nodup Z.eq_dec (values (map release_year (rows df_shows)))) <= 30 ->
      list_sum (map snd (latest_years_count
                           (rows (dropna release_year df_shows))))
      = List.length (rows (dropna release_year df_shows))).
Proof.
  set (vc := sort_index
               (value_counts Z.eq_dec (map release_year (rows df_shows)))).
  assert (Hdata : latest_years_count (rows (dropna release_year df_shows))
                  = tail 30 vc).
  { unfold latest_years_count, release_year_counts.
    rewrite release_year_astype, value_counts_dropna. reflexivity. }
  assert (Hall : list_sum (map snd vc)
                 = List.length (rows (dropna release_year df_shows))).
  { unfold vc, sort_index.
    rewrite (list_sum_perm (Permutation_map snd (sort_by_perm _ _))).
    rewrite value_counts_total, values_length_notna.
    unfold dropna. cbn [rows]. apply length_notna_column. }
  rewrite Hdata, <- Hall. split.
  - unfold tail.
    rewrite <- (firstn_skipn (List.length vc - 30) vc) at 3.
    rewrite map_app, list_sum_app_split. lia.
  - intros H. unfold tail.
    replace (List.length vc - 30) with 0; [reflexivity|].
    unfold vc, sort_index. rewrite sort_by_length, value_counts_length.
    lia.
Qed.

Lemma release_chart_total_one_year :
  List.length
    (nodup Z.eq_dec (values (map release_year (rows null_month_shows))))
  <= 30
  /\ list_sum (map snd (latest_years_count
                          (rows (dropna release_year null_month_shows))))
     = 1.
Proof.
  assert (H : List.length
                (nodup Z.eq_dec
                   (values (map release_year (rows null_month_shows))))
              <= 30) by (vm_compute; lia).
  split; [exact H|].
  exact (proj2 (release_chart_total null_month_shows) H).
Defined.

(* ================================================================== *)
(** * Further properties of the Search view *)
(* ================================================================== *)

(** The view of the claims is the header followed by [search_results]. *)
Lemma search_view_on_results (conn : sql_engine show)
    (search_term : string) :
  search_view_on conn search_term
  = (st_header "Buscar Shows por Título"
     :: widgets (search_results conn search_term),
     outcome (search_results conn search_term)).
Proof.
  unfold search_view_on, search_results, emit at 1.
  rewrite bind_ok. reflexivity.
Qed.

Lemma search_results_cases (conn : sql_engine show) (search_term : string) :
  search_term <> "" ->
  search_results conn search_term
  = match conn query_search (Some [PStr (wrap_wildcards search_term)]) with
    | Ok df =>
        if negb (empty df) then
          ([st_subheader ("Resultados para '" ++ search_term ++ "':");
            st_dataframe (columns df) (rows df)], Ok tt)
        else
          ([st_info ("No se encontraron shows que coincidan con '"
                     ++ search_term ++ "'.")], Ok tt)
    | Raise e =>
        ([st_error ("Error al ejecutar la consulta: " ++ query_search);
          st_error ("Detalles del error: " ++ e);
          st_info ("No se encontraron shows que coincidan con '"
                   ++ search_term ++ "'.")], Ok tt)
    end.
Proof.
  intros Hne. unfold search_results, run_query, lift.
  rewrite (proj2 (negb_true_iff _) (proj2 (String.eqb_neq _ _) Hne)).
  destruct (conn query_search (Some [PStr (wrap_wildcards search_term)]))
    as [df|e]; cbn -[String.append].
  - destruct (negb (empty df)); reflexivity.
  - reflexivity.
Qed.

(** The Search view never raises, whatever the connection does, and its
    own handler never shows its banner: a query that fails is reported by
    the two banners of [run_query] followed by the "no match" message.
    With an empty term the view is its header alone, whatever the
    connection would answer. *)
Theorem search_view_absorbs_failures (conn : sql_engine show)
    (search_term : string) :
  outcome (search_view_on conn search_term) = Ok tt
  /\ (forall e,
         ~ In (st_error ("Error durante la búsqueda: " ++ e))
              (widgets (search_view_on conn search_term)))
  /\ (search_term = "" ->
      search_view_on conn search_term
      = ([st_header "Buscar Shows por Título"], Ok tt))
  /\ (forall e,
         search_term <> "" ->
         conn query_search (Some [PStr (wrap_wildcards search_term)])
         = Raise e ->
         widgets (search_view_on conn search_term)
         = [st_header "Buscar Shows por Título";
            st_error ("Error al ejecutar la consulta: " ++ query_search);
            st_error ("Detalles del error: " ++ e);
            st_info ("No se encontraron shows que coincidan con '"
                     ++ search_term ++ "'.")]).
Proof.
  rewrite search_view_on_results. cbn [widgets outcome fst snd].
  destruct (String.eqb_spec search_term "") as [->|Hne].
  - repeat split; try reflexivity.
    + intros e [H|[]]. discriminate H.
    + intros e H. contradiction.
  - rewrite (search_results_cases conn Hne).
    destruct (conn query_search (Some [PStr (wrap_wildcards search_term)]))
      as [df|e0].
    + destruct (negb (empty df)); cbn [fst snd]; repeat split;
        try contradiction; try discriminate;
        intros e; cbn [In]; intros H;
        repeat (destruct H as [H|H]; [discriminate H|]); exact H.
    + cbn [fst snd]. repeat split; try contradiction.
      * intros e; cbn [In]; intros H.
        repeat (destruct H as [H|H]; [discriminate H|]). exact H.
      * intros e _ E. inversion E; subst. reflexivity.
Qed.

Lemma search_failing_connection :
  "dune" <> "" /\
  pg_search ascii_platform
            (Raise "server closed the connection" : result (list show))
            query_search (Some [PStr (wrap_wildcards "dune")])
  = Raise "Execution failed on sql 'SELECT show_id, type, title, release_year, rating, description FROM shows WHERE title ILIKE %s;': server closed the connection" /\
  widgets (search_view_on
             (pg_search ascii_platform
                        (Raise "server closed the connection"))
             "dune")
  = [st_header "Buscar Shows por Título";
     st_error "Error al ejecutar la consulta: SELECT show_id, type, title, release_year, rating, description FROM shows WHERE title ILIKE %s;";
     st_error "Detalles del error: Execution failed on sql 'SELECT show_id, type, title, release_year, rating, description FROM shows WHERE title ILIKE %s;': server closed the connection";
     st_info "No se encontraron shows que coincidan con 'dune'."].
Proof.
  assert (Hne : "dune" <> "") by discriminate.
  split; [exact Hne|]. split; [reflexivity|].
  exact (proj2 (proj2 (proj2 (search_view_absorbs_failures
                                (pg_search ascii_platform
                                   (Raise "server closed the connection"))
                                "dune")))
               _ Hne eq_refl).
Defined.

(** A term in which no character is the escape character: it can be
    bound as a parameter and, lower-cased by the database, it is text that
    starts a character and holds no backslash. *)
Definition unescaped_term (pf : platform) (term : string) : bool :=
  nul_free term
  && starts_char (list_ascii_of_string (pg_lower pf term))
  && forallb (fun c => negb (char_eqb c backslash)) (chars (pg_lower pf term)).

Lemma like_underscore (p s : list utf8_char) :
  like (underscore :: p) s
  = match s with
    | [] => false
    | _ :: s' => like p s'
    end.
Proof. reflexivity. Qed.

(** Without escape characters, a pattern followed by [%] matches at least
    the texts that start with the pattern read literally. *)
Lemma like_prefix_at_least (t s : list utf8_char) :
  forallb (fun c => negb (char_eqb c backslash)) t = true ->
  prefix_of t s = true ->
  like (t ++ [percent]) s = true.
Proof.
  revert s. induction t as [|c t IH]; intros s Ht Hp.
  - apply like_percent_only.
  - cbn [forallb] in Ht. apply andb_prop in Ht. destruct Ht as [Hc Ht].
    apply negb_true_iff in Hc.
    destruct s as [|x s']; [discriminate Hp|].
    cbn [prefix_of] in Hp. apply andb_prop in Hp. destruct Hp as [Hx Hp].
    specialize (IH s' Ht Hp). cbn [app].
    destruct (char_eqb c percent) eqn:Ep.
    + apply char_eqb_eq in Ep. subst c.
      rewrite like_percent_step.
      replace (like (percent :: t ++ [percent]) s') with true;
        [apply orb_true_r|].
      symmetry. rewrite like_percent_step, IH. reflexivity.
    + destruct (char_eqb c underscore) eqn:Eu.
      * apply char_eqb_eq in Eu. subst c.
        rewrite like_underscore. exact IH.
      * rewrite like_plain_char.
        -- rewrite Hx, IH. reflexivity.
        -- unfold like_meta. rewrite Ep, Eu, Hc. reflexivity.
Qed.

Lemma like_wrapped_at_least (t s : list utf8_char) :
  forallb (fun c => negb (char_eqb c backslash)) t = true ->
  substring_of t s = true ->
  like (percent :: t ++ [percent]) s = true.
Proof.
  intros Ht. induction s as [|x s' IH]; cbn [substring_of]; intros H.
  - rewrite orb_false_r in H. rewrite like_percent_step.
    rewrite (like_prefix_at_least _ _ Ht H). reflexivity.
  - rewrite like_percent_step. apply orb_true_iff in H.
    destruct H as [H|H].
    + rewrite (like_prefix_at_least _ _ Ht H). reflexivity.
    + rewrite (IH H). apply orb_true_r.
Qed.

Lemma unescaped_term_parts (pf : platform) (term : string) :
  unescaped_term pf term = true ->
  nul_free term = true
  /\ starts_char (list_ascii_of_string (pg_lower pf term)) = true
  /\ forallb (fun c => negb (char_eqb c backslash))
             (chars (pg_lower pf term)) = true.
Proof.
  unfold unescaped_term. rewrite !andb_true_iff. tauto.
Qed.

Lemma title_ilike_at_least (pf : platform) (term : string) (r : show) :
  pg_lower pf (wrap_wildcards term) = wrap_wildcards (pg_lower pf term) ->
  unescaped_term pf term = true ->
  contains_ci pf term r = true ->
  title_ilike pf (wrap_wildcards term) r = true.
Proof.
  intros Hfold H.
  destruct (unescaped_term_parts pf term H) as (_ & Hstart & Hb).
  unfold title_ilike, contains_ci, ilike.
  destruct (title r) as [t|]; [|discriminate].
  rewrite Hfold, (chars_wrap_wildcards _ Hstart).
  apply like_wrapped_at_least, Hb.
Qed.

(** For every non-empty term without a backslash, wildcards only add
    matches: every show whose title contains the term, letter case
    ignored as the database ignores it, is in the table the Search view
    shows.  The table holds rows of [shows] only, in their order, and
    never a row with a null title. *)
Theorem search_view_misses_no_title (pf : platform) (db : database)
    (search_term : string) (rs : list show) (r : show) :
  search_term <> "" ->
  unescaped_term pf search_term = true ->
  pg_lower pf (wrap_wildcards search_term)
  = wrap_wildcards (pg_lower pf search_term) ->
  shows db = Ok rs ->
  In r rs ->
  contains_ci pf search_term r = true ->
  exists matching,
    widgets (search_view pf db search_term)
    = [st_header "Buscar Shows por Título";
       st_subheader ("Resultados para '" ++ search_term ++ "':");
       st_dataframe search_columns (read_search matching)]
    /\ In r matching
    /\ matching = filter (title_ilike pf (wrap_wildcards search_term)) rs
    /\ (forall r', In r' matching -> In r' rs /\ title r' <> None).
Proof.
  intros Hne Hb Hfold Hrs Hin Hc.
  exists (filter (title_ilike pf (wrap_wildcards search_term)) rs).
  assert (Hfound : In r (filter (title_ilike pf (wrap_wildcards search_term))
                                rs)).
  { apply filter_In. split; [exact Hin|].
    apply title_ilike_at_least; assumption. }
  split; [|split; [exact Hfound|split; [reflexivity|]]].
  - unfold search_view. rewrite search_view_on_results.
    rewrite (search_results_cases _ Hne). unfold pg_search. rewrite Hrs.
    rewrite (nul_free_wrap_wildcards _
               (proj1 (unescaped_term_parts pf search_term Hb))).
    cbn [widgets fst].
    destruct (filter (title_ilike pf (wrap_wildcards search_term)) rs)
      as [|r0 t] eqn:E; [destruct Hfound|].
    reflexivity.
  - intros r' Hr'. apply filter_In in Hr'. destruct Hr' as [Hr' Ht].
    split; [exact Hr'|]. unfold title_ilike in Ht.
    destruct (title r'); [discriminate | discriminate Ht].
Qed.

(** A show without title and a show whose title holds a [%]. *)
Definition percent_title_db : database :=
  {| shows := Ok [a_show 1 None None None None None;
                  {| show_id := 2; type := Some "Movie";
                     title := Some "100% Wolf";
                     director_id := None; release_year := None;
                     rating := None; duration := None;
                     month_added := None; year_added := None;
                     description := None |}];
     directors := Ok []; show_cast_members := Ok [];
     cast_members := Ok []; show_countries := Ok [];
     countries := Ok []; show_genres := Ok [];
     genres := Ok [] |}.

Lemma search_percent_term :
  "100%" <> "" /\
  unescaped_term ascii_platform "100%" = true /\
  pg_lower ascii_platform (wrap_wildcards "100%")
  = wrap_wildcards (pg_lower ascii_platform "100%") /\
  widgets (search_view ascii_platform percent_title_db "100%")
  = [st_header "Buscar Shows por Título";
     st_subheader "Resultados para '100%':";
     st_dataframe search_columns
       [{| show_id := 2; type := Some "Movie"; title := Some "100% Wolf";
           director_id := None; release_year := None; rating := None;
           duration := None; month_added := None; year_added := None;
           description := None |}]].
Proof.
  assert (Hne : "100%" <> "") by discriminate.
  split; [exact Hne|]. split; [reflexivity|]. split; [reflexivity|].
  destruct (@search_view_misses_no_title ascii_platform
              percent_title_db "100%" _
              {| show_id := 2; type := Some "Movie";
                 title := Some "100% Wolf";
                 director_id := None; release_year := None;
                 rating := None; duration := None;
                 month_added := None; year_added := None;
                 description := None |}
              Hne eq_refl eq_refl eq_refl (or_intror (or_introl eq_refl))
              eq_refl)
    as (matching & Hw & _ & -> & _).
  exact Hw.
Defined.


(* ================================================================== *)
(** * Properties of the script *)
(* ================================================================== *)

Lemma sc_bind_next {A B : Type} (w : list element) (a : A)
    (f : A -> script B) :
  sc_bind (w, Next a) f = (w ++ elements (f a), ending (f a)).
Proof. unfold sc_bind, elements, ending. destruct (f a). reflexivity. Qed.

Lemma sc_bind_elements {A B : Type} (m : script A) (a : A)
    (f : A -> script B) :
  ending m = Next a ->
  sc_bind m f = (elements m ++ elements (f a), ending (f a)).
Proof.
  destruct m as [w r]. unfold ending. cbn [snd]. intros ->.
  apply sc_bind_next.
Qed.

Lemma from_py_ok {A : Type} (m : py A) (a : A) :
  outcome m = Ok a ->
  from_py m = (map in_main (widgets m), Next a).
Proof. unfold from_py. intros ->. reflexivity. Qed.

(** ** Connection parameters and [init_connection] *)

Lemma init_connection_cases (env : list (string * string))
    (connect : conn_params -> connect_result) :
  init_connection env connect
  = ((if placeholder_in_use (CONN_PARAMS env)
      then [in_main default_params_warning] else [])
     ++ match connect (CONN_PARAMS env) with
        | Connected _ => []
        | OperationalError e =>
            [in_main (st_error ("Error al conectar con PostgreSQL: " ++ e));
             in_main check_parameters_error]
        | OtherError e =>
            [in_main (st_error ("Un error inesperado ocurrió durante la conexión: " ++ e))]
        end,
     match connect (CONN_PARAMS env) with
     | Connected conn => Next conn
     | OperationalError _ | OtherError _ => Stop
     end).
Proof.
  unfold init_connection.
  destruct (placeholder_in_use (CONN_PARAMS env));
    destruct (connect (CONN_PARAMS env)); reflexivity.
Qed.

(** [init_connection] warns about placeholder parameters exactly when one
    of DB_NAME, DB_USER, DB_PASSWORD and DB_HOST is unset or set to its
    placeholder; DB_PORT plays no part.  The warning does not change what
    follows: the connection is attempted with the same parameters, and
    the script goes on exactly when it succeeds. *)
Theorem init_connection_warns_on_placeholders
    (env : list (string * string))
    (connect : conn_params -> connect_result) :
  (In (in_main default_params_warning)
      (elements (init_connection env connect))
   <->
   environ_get env "DB_NAME" "tu_basededatos" = "tu_basededatos"
   \/ environ_get env "DB_USER" "tu_usuario" = "tu_usuario"
   \/ environ_get env "DB_PASSWORD" "tu_contraseña" = "tu_contraseña"
   \/ environ_get env "DB_HOST" "tu_host" = "tu_host")
  /\ (forall k d,
         In (k, d) [("DB_NAME", "tu_basededatos"); ("DB_USER", "tu_usuario");
                    ("DB_PASSWORD", "tu_contraseña"); ("DB_HOST", "tu_host")] ->
         dict_get String.eqb env k = None ->
         In (in_main default_params_warning)
            (elements (init_connection env connect)))
  /\ ending (init_connection env connect)
     = match connect (CONN_PARAMS env) with
       | Connected conn => Next conn
       | OperationalError _ | OtherError _ => Stop
       end.
Proof.
  rewrite init_connection_cases. cbn [elements ending fst snd].
  assert (Hiff : placeholder_in_use (CONN_PARAMS env) = true <->
            environ_get env "DB_NAME" "tu_basededatos" = "tu_basededatos"
            \/ environ_get env "DB_USER" "tu_usuario" = "tu_usuario"
            \/ environ_get env "DB_PASSWORD" "tu_contraseña" = "tu_contraseña"
            \/ environ_get env "DB_HOST" "tu_host" = "tu_host").
  { unfold placeholder_in_use, CONN_PARAMS.
    cbn [dbname user password host].
    rewrite !orb_true_iff, !String.eqb_eq. tauto. }
  assert (Hin : In (in_main default_params_warning)
              ((if placeholder_in_use (CONN_PARAMS env)
                then [in_main default_params_warning] else [])
               ++ match connect (CONN_PARAMS env) with
                  | Connected _ => []
                  | OperationalError e =>
                      [in_main (st_error ("Error al conectar con PostgreSQL: " ++ e));
                       in_main check_parameters_error]
                  | OtherError e =>
                      [in_main (st_error ("Un error inesperado ocurrió durante la conexión: " ++ e))]
                  end)
            <-> placeholder_in_use (CONN_PARAMS env) = true).
  { rewrite in_app_iff. split.
    - intros [H|H].
      + destruct (placeholder_in_use (CONN_PARAMS env));
          [reflexivity | destruct H].
      + destruct (connect (CONN_PARAMS env)); cbn [In] in H;
          repeat (destruct H as [H|H]; [discriminate H|]); destruct H.
    - intros ->. left. left. reflexivity. }
  split; [rewrite Hin; exact Hiff|]. split; [|reflexivity].
  intros k d Hk Hnone. apply Hin, Hiff.
  cbn [In] in Hk. unfold environ_get.
  repeat (destruct Hk as [Hk|Hk];
          [inversion Hk; subst; rewrite Hnone; tauto|]).
  destruct Hk.
Qed.

(** Every variable set; only the port left to its default. *)
Definition full_env : list (string * string) :=
  [("DB_NAME", "netflix"); ("DB_USER", "reader"); ("DB_PASSWORD", "s3cret");
   ("DB_HOST", "db.internal")].

Lemma init_connection_password_unset :
  dict_get String.eqb [("DB_NAME", "netflix"); ("DB_USER", "reader");
                       ("DB_HOST", "db.internal"); ("DB_PORT", "5433")]
           "DB_PASSWORD" = None
  /\ In (in_main default_params_warning)
        (elements (init_connection
                     [("DB_NAME", "netflix"); ("DB_USER", "reader");
                      ("DB_HOST", "db.internal"); ("DB_PORT", "5433")]
                     (fun _ => OtherError "timeout")))
  /\ ~ In (in_main default_params_warning)
          (elements (init_connection full_env
                       (fun _ => OtherError "timeout"))).
Proof.
  split; [reflexivity|]. split.
  - apply (proj1 (proj2 (init_connection_warns_on_placeholders
                           [("DB_NAME", "netflix"); ("DB_USER", "reader");
                            ("DB_HOST", "db.internal"); ("DB_PORT", "5433")]
                           (fun _ => OtherError "timeout")))
                 "DB_PASSWORD" "tu_contraseña");
      [cbn; tauto | reflexivity].
  - intros H.
    apply (proj1 (init_connection_warns_on_placeholders full_env
                    (fun _ => OtherError "timeout"))) in H.
    cbn in H. intuition discriminate.
Defined.

(** ** The bounds of the year selector *)

Lemma fold_min_spec (t : list Z) (x : Z) :
  In (fold_left Z.min t x) (x :: t)
  /\ forall y, In y (x :: t) -> (fold_left Z.min t x <= y)%Z.
Proof.
  revert x. induction t as [|h t IH]; intros x; cbn [fold_left].
  - split; [left; reflexivity|]. intros y [<-|[]]. lia.
  - destruct (IH (Z.min x h)) as [Hin Hle]. split.
    + destruct Hin as [E|Hin]; [|right; right; exact Hin].
      rewrite <- E. destruct (Z.min_spec x h) as [[_ ->]|[_ ->]];
        [left | right; left]; reflexivity.
    + intros y [<-|[<-|Hy]].
      * specialize (Hle (Z.min x h) (or_introl eq_refl)). lia.
      * specialize (Hle (Z.min x h) (or_introl eq_refl)). lia.
      * apply Hle. right. exact Hy.
Qed.

Lemma fold_max_spec (t : list Z) (x : Z) :
  In (fold_left Z.max t x) (x :: t)
  /\ forall y, In y (x :: t) -> (y <= fold_left Z.max t x)%Z.
Proof.
  revert x. induction t as [|h t IH]; intros x; cbn [fold_left].
  - split; [left; reflexivity|]. intros y [<-|[]]. lia.
  - destruct (IH (Z.max x h)) as [Hin Hle]. split.
    + destruct Hin as [E|Hin]; [|right; right; exact Hin].
      rewrite <- E. destruct (Z.max_spec x h) as [[_ ->]|[_ ->]];
        [right; left | left]; reflexivity.
    + intros y [<-|[<-|Hy]].
      * specialize (Hle (Z.max x h) (or_introl eq_refl)). lia.
      * specialize (Hle (Z.max x h) (or_introl eq_refl)). lia.
      * apply Hle. right. exact Hy.
Qed.

Lemma min_val_cases (pf : platform) (db : database) :
  min_val pf db
  = (diagnostics pf min_year_query (shows db),
     Ok match shows db with
        | Ok rs => match min_list (values (map year_added rs)) with
                   | Some v => v
                   | None => 1900%Z
                   end
        | Raise _ => 1900%Z
        end).
Proof.
  unfold min_val, run_query, pg_aggregate, lift.
  destruct (shows db) as [rs|e]; [|reflexivity].
  cbn. destruct (min_list (values (map year_added rs))); reflexivity.
Qed.

Lemma max_val_cases (pf : platform) (db : database) (current_year : Z) :
  max_val pf db current_year
  = (diagnostics pf max_year_query (shows db),
     Ok match shows db with
        | Ok rs => match max_list (values (map year_added rs)) with
                   | Some v => v
                   | None => current_year
                   end
        | Raise _ => current_year
        end).
Proof.
  unfold max_val, run_query, pg_aggregate, lift.
  destruct (shows db) as [rs|e]; [|reflexivity].
  cbn. destruct (max_list (values (map year_added rs))); reflexivity.
Qed.

(** The year selector runs from the earliest to the latest non-null
    [year_added] of [shows], both of them years of the table; when the
    table has no such year, or the queries fail, it runs from 1900 to the
    current year.  Both bounds are always computed: the scalar queries
    never make the view raise. *)
Theorem year_selector_bounds (pf : platform) (db : database)
    (current_year : Z) :
  exists lo hi,
    outcome (min_val pf db) = Ok lo
    /\ outcome (max_val pf db current_year) = Ok hi
    /\ (forall rs,
           shows db = Ok rs ->
           (values (map year_added rs) <> [] ->
            In lo (values (map year_added rs))
            /\ In hi (values (map year_added rs))
            /\ forall y, In y (values (map year_added rs)) ->
                         (lo <= y <= hi)%Z)
           /\ (values (map year_added rs) = [] ->
               lo = 1900%Z /\ hi = current_year))
    /\ (forall e, shows db = Raise e -> lo = 1900%Z /\ hi = current_year).
Proof.
  rewrite min_val_cases, max_val_cases. cbn [outcome snd].
  do 2 eexists. split; [reflexivity|]. split; [reflexivity|].
  destruct (shows db) as [rs|e].
  - split; [|intros e E; discriminate E].
    intros rs' E. inversion E; subst rs'.
    destruct (values (map year_added rs)) as [|x t] eqn:Ey.
    + split; [intros H; contradiction | intros _; split; reflexivity].
    + split; [|discriminate]. intros _. cbn [min_list max_list].
      destruct (fold_min_spec t x) as [Hmin Hle].
      destruct (fold_max_spec t x) as [Hmax Hge].
      split; [exact Hmin|]. split; [exact Hmax|].
      intros y Hy. split; [apply Hle | apply Hge]; exact Hy.
  - split; [intros rs E; discriminate E|].
    intros e' _. split; reflexivity.
Qed.

Lemma home_confirm_ok (pf : platform) (db : database) (year_input : Z) :
  outcome (home_confirm pf db year_input) = Ok tt.
Proof.
  unfold home_confirm, run_query, pg_count_by_type, lift.
  destruct (negb (year_input =? 0)%Z); [|reflexivity].
  destruct (shows db) as [rs|e]; cbn -[String.append fold_left].
  - match goal with
    | |- context [negb ?b] => destruct (negb b)
    end; reflexivity.
  - reflexivity.
Qed.

(** Every merge of the Analytics view can be made. *)
Definition merges_ready (db : database) : Prop :=
  merge_ready director_id (df_shows_of db) (df_directors_of db)
  /\ merge_ready sc_cast_member_id (df_show_cast_of db)
                 (df_cast_members_of db)
  /\ merge_ready sk_country_id (df_show_countries_of db)
                 (df_countries_of db)
  /\ merge_ready sg_genre_id (df_show_genres_of db) (df_genres_of db).

Lemma analytics_view_ok (pf : platform) (db : database) :
  merges_ready db -> outcome (analytics_view pf db) = Ok tt.
Proof.
  intros (Hd & Hc & Hk & Hg).
  rewrite analytics_view_queries. cbn [outcome snd].
  destruct (empty (df_shows_of db)) eqn:E.
  - unfold analytics_sections. rewrite E. reflexivity.
  - rewrite (analytics_sections_ready pf db E Hd Hc Hk Hg). reflexivity.
Qed.

Lemma search_results_ok (conn : sql_engine show) (search_term : string) :
  outcome (search_results conn search_term) = Ok tt.
Proof.
  destruct (String.eqb_spec search_term "") as [->|Hne]; [reflexivity|].
  rewrite (search_results_cases conn Hne).
  destruct (conn query_search _) as [df|e]; [|reflexivity].
  destruct (negb (empty df)); reflexivity.
Qed.

(** ** Home view *)

(** The bounds as the Home view computes them. *)
Definition lower_bound (db : database) : Z :=
  match shows db with
  | Ok rs => match min_list (values (map year_added rs)) with
             | Some v => v
             | None => 1900%Z
             end
  | Raise _ => 1900%Z
  end.

Definition upper_bound (db : database) (current_year : Z) : Z :=
  match shows db with
  | Ok rs => match max_list (values (map year_added rs)) with
             | Some v => v
             | None => current_year
             end
  | Raise _ => current_year
  end.

Lemma bounds_ordered (db : database) (current_year : Z) :
  (1900 <= current_year)%Z ->
  (lower_bound db <= upper_bound db current_year)%Z.
Proof.
  intros H. unfold lower_bound, upper_bound.
  destruct (shows db) as [rs|e]; [|exact H].
  destruct (values (map year_added rs)) as [|x t]; [exact H|].
  cbn [min_list max_list].
  pose proof (proj2 (fold_min_spec t x) x (or_introl eq_refl)).
  pose proof (proj2 (fold_max_spec t x) x (or_introl eq_refl)).
  lia.
Qed.

Lemma home_view_cases (pf : platform) (db : database)
    (current_year year_input : Z) (clicked : bool) :
  (1900 <= current_year)%Z ->
  js_safe (lower_bound db) = true ->
  js_safe (upper_bound db current_year) = true ->
  home_view pf db current_year year_input clicked
     = ([in_main (st_header "Bienvenido al Explorador de Datos de Netflix");
         in_main (st_markdown home_markdown);
         in_main (st_info "Asegúrate de que tu base de datos PostgreSQL esté en ejecución y accesible.");
         in_main (st_markdown "---");
         in_main (st_subheader "Consulta Rápida: Shows Añadidos por Año")]
        ++ map in_main (diagnostics pf min_year_query (shows db))
        ++ map in_main (diagnostics pf max_year_query (shows db))
        ++ [st_number_input
              "Ingresa un año para ver cuántos títulos fueron añadidos:"
              (lower_bound db) (upper_bound db current_year)
              (upper_bound db current_year);
            st_button "Consultar Shows Añadidos en el Año"]
        ++ (if clicked
            then map in_main (widgets (home_confirm pf db year_input))
            else []),
        Next tt).
Proof.
  intros Hy Hlo Hhi. pose proof (bounds_ordered db Hy) as Hb.
  unfold home_view, sc_emit.
  rewrite !sc_bind_next. cbn [elements ending fst snd].
  unfold from_py.
  rewrite min_val_cases, max_val_cases, home_confirm_ok.
  cbn [widgets outcome fst snd].
  rewrite sc_bind_next. cbn [elements ending fst snd].
  rewrite sc_bind_next. cbn [elements ending fst snd].
  fold (lower_bound db). fold (upper_bound db current_year).
  unfold number_input.
  rewrite (proj2 (Z.ltb_ge _ _) Hb).
  rewrite (proj2 (Z.ltb_ge _ _) (Z.le_refl _)).
  rewrite Hlo, Hhi. cbn [andb negb].
  unfold sc_emit. rewrite !sc_bind_next. cbn [elements ending fst snd].
  destruct clicked; cbn [sc_ret elements ending fst snd app];
    rewrite ?app_nil_r; reflexivity.
Qed.

(** When the current year is 1900 or later and both bounds are integers
    the browser holds exactly, the Home view never raises and renders its
    year selector: the lower bound is at most the upper bound, and the
    selector starts on the upper bound.  The grouped query runs only when
    the button was pressed: without a click nothing follows the button. *)
Theorem home_view_renders_selector (pf : platform) (db : database)
    (current_year year_input : Z) (clicked : bool) :
  (1900 <= current_year)%Z ->
  js_safe (lower_bound db) = true ->
  js_safe (upper_bound db current_year) = true ->
  (lower_bound db <= upper_bound db current_year)%Z
  /\ home_view pf db current_year year_input clicked
     = ([in_main (st_header "Bienvenido al Explorador de Datos de Netflix");
         in_main (st_markdown home_markdown);
         in_main (st_info "Asegúrate de que tu base de datos PostgreSQL esté en ejecución y accesible.");
         in_main (st_markdown "---");
         in_main (st_subheader "Consulta Rápida: Shows Añadidos por Año")]
        ++ map in_main (diagnostics pf min_year_query (shows db))
        ++ map in_main (diagnostics pf max_year_query (shows db))
        ++ [st_number_input
              "Ingresa un año para ver cuántos títulos fueron añadidos:"
              (lower_bound db) (upper_bound db current_year)
              (upper_bound db current_year);
            st_button "Consultar Shows Añadidos en el Año"]
        ++ (if clicked
            then map in_main (widgets (home_confirm pf db year_input))
            else []),
        Next tt).
Proof.
  intros Hy Hlo Hhi. split.
  - apply bounds_ordered, Hy.
  - apply home_view_cases; assumption.
Qed.

Lemma home_view_scenario_selector :
  (1900 <= 2026)%Z /\
  js_safe (lower_bound scenario_db) = true /\
  js_safe (upper_bound scenario_db 2026) = true /\
  home_view ascii_platform scenario_db 2026 2020 false
  = ([in_main (st_header "Bienvenido al Explorador de Datos de Netflix");
      in_main (st_markdown home_markdown);
      in_main (st_info "Asegúrate de que tu base de datos PostgreSQL esté en ejecución y accesible.");
      in_main (st_markdown "---");
      in_main (st_subheader "Consulta Rápida: Shows Añadidos por Año");
      st_number_input
        "Ingresa un año para ver cuántos títulos fueron añadidos:"
        2019 2020 2020;
      st_button "Consultar Shows Añadidos en el Año"],
     Next tt).
Proof.
  assert (H : (1900 <= 2026)%Z) by lia.
  split; [exact H|]. split; [reflexivity|]. split; [reflexivity|].
  exact (proj2 (@home_view_renders_selector ascii_platform scenario_db
                  2026 2020 false H eq_refl eq_refl)).
Defined.

(** ** Table browser view *)

Definition identifier_char (c : ascii) : bool :=
  let n := nat_of_ascii c in
  ((97 <=? n) && (n <=? 122)) || (n =? 95).

Lemma table_names_lookup (selected db_table_name : string) :
  In (selected, db_table_name) table_names <->
  dict_get String.eqb table_names selected = Some db_table_name.
Proof.
  unfold table_names. cbn [In dict_get]. split.
  - intros H.
    repeat (destruct H as [H|H]; [inversion H; subst; reflexivity|]).
    destruct H.
  - repeat match goal with
           | |- context [String.eqb selected ?k] =>
               destruct (String.eqb_spec selected k) as [->|_];
               [intros E; inversion E; subst; tauto|]
           end.
    discriminate.
Qed.

(** For every table name the selector offers, the browser runs one query,
    [SELECT * FROM t;] for the table [t] paired with the name, and [t] is
    made of lower-case letters and underscores only.  A frame with rows is
    shown in full, followed by its number of rows; a frame without rows,
    or a failed query (after the two banners of [run_query]), gives the
    warning that names the table.  The view does not raise. *)
Theorem table_view_of_offered_name (conn : sql_engine (list cell))
    (selected db_table_name : string) :
  In (selected, db_table_name) table_names ->
  forallb identifier_char (list_ascii_of_string db_table_name) = true
  /\ table_view conn selected
     = ([in_main (st_header "Visualización de Tablas Completas");
         st_selectbox "Selecciona una tabla para mostrar:"
           ["Directores"; "Miembros del Elenco"; "Países"; "Géneros";
            "Shows (Títulos)"; "Relación Show-Elenco";
            "Relación Show-Países"; "Relación Show-Géneros"];
         in_main (st_subheader ("Contenido de la tabla: " ++ db_table_name))]
        ++ match conn ("SELECT * FROM " ++ db_table_name ++ ";")%string
                      None with
           | Ok df_table =>
               if empty df_table then
                 [in_main (st_warning
                             ("No se encontraron datos o la tabla '"
                              ++ db_table_name ++ "' está vacía."))]
               else
                 [st_table (columns df_table) (rows df_table);
                  st_write ("Total de filas: "
                            ++ str_nat (List.length (rows df_table)))]
           | Raise e =>
               [in_main (st_error ("Error al ejecutar la consulta: "
                                   ++ "SELECT * FROM " ++ db_table_name
                                   ++ ";"));
                in_main (st_error ("Detalles del error: " ++ e));
                in_main (st_warning
                           ("No se encontraron datos o la tabla '"
                            ++ db_table_name ++ "' está vacía."))]
           end,
        Next tt).
Proof.
  intros Hin. split.
  - unfold table_names in Hin. cbn [In] in Hin.
    repeat (destruct Hin as [Hin|Hin]; [inversion Hin; subst; reflexivity|]).
    destruct Hin.
  - assert (Hne : negb (String.eqb selected "") = true).
    { unfold table_names in Hin. cbn [In] in Hin.
      repeat (destruct Hin as [Hin|Hin];
              [inversion Hin; subst; reflexivity|]).
      destruct Hin. }
    apply table_names_lookup in Hin.
    unfold table_view, sc_emit. rewrite !sc_bind_next.
    cbn [elements ending fst snd]. rewrite Hne, Hin.
    rewrite sc_bind_next. cbn [elements ending fst snd].
    unfold from_py, run_query, lift, select_all.
    destruct (conn ("SELECT * FROM " ++ db_table_name ++ ";")%string None)
      as [df|e]; cbn -[String.append].
    + destruct (empty df); reflexivity.
    + reflexivity.
Qed.

Lemma table_view_genres_two_rows :
  In ("Géneros", "genres") table_names /\
  table_view
    (fun q _ =>
       if String.eqb q "SELECT * FROM genres;"
       then Ok {| columns := ["genre_id"; "genre_name"];
                  rows := [[CInt 1; CText "Drama"]; [CInt 2; CNull]] |}
       else Raise "unexpected statement")
    "Géneros"
  = ([in_main (st_header "Visualización de Tablas Completas");
      st_selectbox "Selecciona una tabla para mostrar:"
        ["Directores"; "Miembros del Elenco"; "Países"; "Géneros";
         "Shows (Títulos)"; "Relación Show-Elenco";
         "Relación Show-Países"; "Relación Show-Géneros"];
      in_main (st_subheader "Contenido de la tabla: genres");
      st_table ["genre_id"; "genre_name"]
               [[CInt 1; CText "Drama"]; [CInt 2; CNull]];
      st_write "Total de filas: 2"],
     Next tt).
Proof.
  assert (H : In ("Géneros", "genres") table_names)
    by (cbn; tauto).
  split; [exact H|].
  exact (proj2 (table_view_of_offered_name
                  (fun q _ =>
                     if String.eqb q "SELECT * FROM genres;"
                     then Ok {| columns := ["genre_id"; "genre_name"];
                                rows := [[CInt 1; CText "Drama"];
                                         [CInt 2; CNull]] |}
                     else Raise "unexpected statement")
                  H)).
Defined.

(** ** The render pass *)

Lemma home_view_ending (pf : platform) (db : database)
    (current_year year_input : Z) (clicked : bool) :
  (1900 <= current_year)%Z ->
  js_safe (lower_bound db) = true ->
  js_safe (upper_bound db current_year) = true ->
  ending (home_view pf db current_year year_input clicked) = Next tt.
Proof.
  intros Hy Hlo Hhi.
  rewrite (home_view_cases pf db year_input clicked Hy Hlo Hhi).
  reflexivity.
Qed.

Lemma table_view_ending (conn : sql_engine (list cell)) (selected : string) :
  In selected (map fst table_names) ->
  ending (table_view conn selected) = Next tt.
Proof.
  intros Hin. apply in_map_iff in Hin.
  destruct Hin as ([d t] & E & Hin). cbn [fst] in E. subst d.
  apply table_names_lookup in Hin.
  unfold table_view, sc_emit.
  repeat (rewrite sc_bind_next; cbn [elements ending fst snd]).
  rewrite Hin.
  destruct (negb (String.eqb selected "")); [|reflexivity].
  rewrite sc_bind_next. cbn [elements ending fst snd].
  unfold from_py, run_query, lift.
  destruct (conn (select_all t) None) as [df|e]; cbn -[String.append].
  - destruct (negb (empty df)); reflexivity.
  - reflexivity.
Qed.

Lemma route_ending (pf : platform) (conn : connection) (current_year : Z)
    (ui : ui_state) :
  (ui_option ui = "Inicio" ->
   (1900 <= current_year)%Z
   /\ js_safe (lower_bound (conn_db conn)) = true
   /\ js_safe (upper_bound (conn_db conn) current_year) = true) ->
  (ui_option ui = "Ver Tablas Completas" ->
   In (ui_selected_table ui) (map fst table_names)) ->
  (ui_option ui = "Análisis de Shows" -> merges_ready (conn_db conn)) ->
  ending (route pf conn current_year ui) = Next tt.
Proof.
  intros Hh Ht Ha. unfold route.
  destruct (String.eqb_spec (ui_option ui) "Inicio") as [E|_].
  { destruct (Hh E) as (Hy & Hlo & Hhi). apply home_view_ending; assumption. }
  destruct (String.eqb_spec (ui_option ui) "Ver Tablas Completas") as [E|_];
    [apply table_view_ending, Ht, E|].
  destruct (String.eqb_spec (ui_option ui) "Análisis de Shows") as [E|_].
  - unfold from_py. rewrite (analytics_view_ok pf (Ha E)). reflexivity.
  - destruct (String.eqb (ui_option ui) "Buscar Shows por Título");
      [|reflexivity].
    unfold search_page, sc_emit, from_py. rewrite search_results_ok.
    reflexivity.
Qed.

(** When the connection cannot be opened, the pass is halted right after
    the error banners: the page holds the title, the placeholder warning
    if it applies, and the banners; no sidebar, no view and no footer is
    rendered, whatever the logo, the selected view and the inputs are. *)
Theorem connection_failure_halts_pass (pf : platform)
    (env : list (string * string))
    (connect : conn_params -> connect_result) (logo : logo_result)
    (current_year : Z) (ui : ui_state) (e : string) :
  (connect (CONN_PARAMS env) = OperationalError e ->
   render_pass pf env connect logo current_year ui
   = (st_title "🎬 Explorador de Datos de Netflix"
      :: (if placeholder_in_use (CONN_PARAMS env)
          then [in_main default_params_warning] else [])
      ++ [in_main (st_error ("Error al conectar con PostgreSQL: " ++ e));
          in_main check_parameters_error],
      Stop))
  /\ (connect (CONN_PARAMS env) = OtherError e ->
      render_pass pf env connect logo current_year ui
      = (st_title "🎬 Explorador de Datos de Netflix"
         :: (if placeholder_in_use (CONN_PARAMS env)
             then [in_main default_params_warning] else [])
         ++ [in_main (st_error ("Un error inesperado ocurrió durante la conexión: " ++ e))],
         Stop)).
Proof.
  split; intros H; unfold render_pass, sc_emit at 1;
    rewrite sc_bind_next, init_connection_cases, H; reflexivity.
Qed.

Lemma render_pass_server_down :
  render_pass ascii_platform full_env
              (fun _ => OperationalError "could not connect to server")
              LogoShown 2026
              {| ui_option := "Análisis de Shows"; ui_year_input := 2020;
                 ui_button := true; ui_selected_table := "Directores";
                 ui_search_term := "a" |}
  = ([st_title "🎬 Explorador de Datos de Netflix";
      in_main (st_error "Error al conectar con PostgreSQL: could not connect to server");
      in_main check_parameters_error],
     Stop).
Proof.
  exact (proj1 (connection_failure_halts_pass ascii_platform full_env
                  (fun _ => OperationalError "could not connect to server")
                  LogoShown 2026
                  {| ui_option := "Análisis de Shows"; ui_year_input := 2020;
                     ui_button := true; ui_selected_table := "Directores";
                     ui_search_term := "a" |}
                  "could not connect to server")
               eq_refl).
Defined.

(** With an open connection, the pass runs to its end whatever the
    queries of the selected view answer and whether or not the logo
    loads, provided that: in the Home view, the current year is 1900 or
    later and the bounds of the selector are integers the browser holds
    exactly; in the table browser, the table name is one the selector
    offers; in the Analytics view, every merge can be made.  No query
    error, no empty table and no missing logo halts the pass or escapes
    as an exception.  The page is the title, the placeholder warning if
    it applies, the sidebar header, the logo or its banner, the view
    selector, the one view that was selected, and the footer. *)
Theorem render_pass_runs_to_footer (pf : platform)
    (env : list (string * string))
    (connect : conn_params -> connect_result) (logo : logo_result)
    (current_year : Z) (ui : ui_state) (conn : connection) :
  connect (CONN_PARAMS env) = Connected conn ->
  (ui_option ui = "Inicio" ->
   (1900 <= current_year)%Z
   /\ js_safe (lower_bound (conn_db conn)) = true
   /\ js_safe (upper_bound (conn_db conn) current_year) = true) ->
  (ui_option ui = "Ver Tablas Completas" ->
   In (ui_selected_table ui) (map fst table_names)) ->
  (ui_option ui = "Análisis de Shows" -> merges_ready (conn_db conn)) ->
  render_pass pf env connect logo current_year ui
  = (st_title "🎬 Explorador de Datos de Netflix"
     :: (if placeholder_in_use (CONN_PARAMS env)
         then [in_main default_params_warning] else [])
     ++ [in_sidebar (st_header "Navegación")]
     ++ elements (sidebar_logo logo)
     ++ [sidebar_selectbox "Selecciona una vista:"
           ["Inicio"; "Ver Tablas Completas"; "Análisis de Shows";
            "Buscar Shows por Título"]]
     ++ elements (route pf conn current_year ui)
     ++ [in_sidebar (st_markdown "---");
         in_sidebar (st_info "Aplicación creada con Streamlit y PostgreSQL.")],
     Next tt)
  /\ (exists banner, elements (sidebar_logo logo) = [banner])
  /\ (~ In (ui_option ui) view_options ->
      elements (route pf conn current_year ui) = []).
Proof.
  intros Hc Hh Ht Ha. split; [|split].
  - unfold render_pass, sc_emit at 1.
    rewrite sc_bind_next, init_connection_cases, Hc.
    rewrite sc_bind_next. cbn [elements ending fst snd].
    unfold sc_emit at 1. rewrite sc_bind_next.
    cbn [elements ending fst snd].
    rewrite (@sc_bind_elements _ _ (sidebar_logo logo) tt)
      by (destruct logo; reflexivity).
    cbn [elements ending fst snd].
    unfold sc_emit at 1. rewrite sc_bind_next.
    cbn [elements ending fst snd].
    rewrite (@sc_bind_elements _ _ (route pf conn current_year ui) tt)
      by (apply route_ending; assumption).
    cbn [elements ending fst snd sc_emit sc_bind app].
    rewrite app_nil_r. reflexivity.
  - destruct logo; eexists; reflexivity.
  - intros Hn. unfold route, view_options in *. cbn [In] in Hn.
    repeat match goal with
           | |- context [String.eqb (ui_option ui) ?k] =>
               destruct (String.eqb_spec (ui_option ui) k) as [E|_];
               [exfalso; apply Hn; rewrite E; tauto|]
           end.
    reflexivity.
Qed.

(** A pass on the Home view before the button is pressed, with a missing
    logo and every environment variable set. *)
Definition idle_home_ui : ui_state :=
  {| ui_option := "Inicio"; ui_year_input := 2020;
     ui_button := false; ui_selected_table := "Directores";
     ui_search_term := "" |}.

Definition scenario_connection : connection :=
  {| conn_db := scenario_db;
     conn_tables := fun _ _ => Raise "permission denied" |}.

Lemma render_pass_idle_home :
  ((1900 <= 2026)%Z
   /\ js_safe (lower_bound (conn_db scenario_connection)) = true
   /\ js_safe (upper_bound (conn_db scenario_connection) 2026) = true)
  /\ render_pass ascii_platform full_env
                 (fun _ => Connected scenario_connection)
                 FileNotFoundError 2026 idle_home_ui
     = ([st_title "🎬 Explorador de Datos de Netflix";
         in_sidebar (st_header "Navegación");
         in_sidebar (st_warning "Logo 'NetflixLogo.png' no encontrado. Colócalo en el directorio del script.");
         sidebar_selectbox "Selecciona una vista:"
           ["Inicio"; "Ver Tablas Completas"; "Análisis de Shows";
            "Buscar Shows por Título"];
         in_main (st_header "Bienvenido al Explorador de Datos de Netflix");
         in_main (st_markdown home_markdown);
         in_main (st_info "Asegúrate de que tu base de datos PostgreSQL esté en ejecución y accesible.");
         in_main (st_markdown "---");
         in_main (st_subheader "Consulta Rápida: Shows Añadidos por Año");
         st_number_input
           "Ingresa un año para ver cuántos títulos fueron añadidos:"
           2019 2020 2020;
         st_button "Consultar Shows Añadidos en el Año";
         in_sidebar (st_markdown "---");
         in_sidebar (st_info "Aplicación creada con Streamlit y PostgreSQL.")],
        Next tt).
Proof.
  assert (Hh : (1900 <= 2026)%Z
               /\ js_safe (lower_bound (conn_db scenario_connection)) = true
               /\ js_safe (upper_bound (conn_db scenario_connection) 2026)
                  = true).
  { split; [lia|]. split; reflexivity. }
  split; [exact Hh|].
  refine (proj1 (@render_pass_runs_to_footer ascii_platform full_env
                   (fun _ => Connected scenario_connection)
                   FileNotFoundError 2026 idle_home_ui
                   scenario_connection eq_refl (fun _ => Hh) _ _));
    intros H; discriminate H.
Defined.
